(** * Wotu_FE_Code_Detection: change-set resolution and checker orchestration

    A shallow embedding of the TypeScript sources

      - [src/eslint.ts]               (change-set resolution, scope filter, ESLint run)
      - [src/typescript.ts]           (type-check scope filter, tsc run and parser)
      - [src/typescript-coverage.ts]  (type coverage check)
      - [src/index.ts]                (the orchestrator [runStep])
      - [src/util.ts]                 ([runUserScript], [detectPackageManager])

    Everything outside the program (git through simple-git, the file system,
    child processes, the RegExp engine on a user-supplied pattern, JSON) is a
    field of the record [Host]: the program is a function of the host it runs
    on.  Asynchronous functions are sequential here, every call is awaited
    before the next one starts, so [async]/[await] is plain sequencing in
    a state-and-exception monad.

    Conventions.
      - A JS string is a [string] holding its UTF-8 encoding; the literals
        of the program are kept byte for byte.  [trim], [parseInt] and the
        class [\s] know the white space of ECMAScript: TAB, LF, VT, FF, CR
        and SPACE, and beyond ASCII U+00A0, U+1680, U+2000 to U+200A, U+2028,
        U+2029, U+202F, U+205F, U+3000 and U+FEFF, each in its encoding of
        two or three bytes.
      - A [Host] is the world in one process environment.  The child
        processes of [execa] inherit [process.env], so what they answer may
        depend on the variables [getParams] reads; a statement that compares
        runs in two environments takes a host for each.
      - Counters are [nat], numbers that may be negative are [Z].
      - [undefined] for an optional string is [None]; [a || b] on strings
        takes [b] when [a] is [undefined] or empty.
      - The log written through [step.info] and friends is not part of the
        model, except for the final summary block of [runStep]. *)

From Stdlib Require Import String Ascii List Bool Arith ZArith Lia.
From Stdlib Require Import DecimalString.
Import ListNotations.
Local Open Scope list_scope.
Local Open Scope string_scope.

(* ================================================================== *)
(** ** JavaScript string primitives *)
(* ================================================================== *)

Module Js.

Definition LF : ascii := ascii_of_nat 10.
Definition CR : ascii := ascii_of_nat 13.
Definition SP : ascii := ascii_of_nat 32.
Definition DQUOTE : ascii := ascii_of_nat 34.

(** The white space recognised by [String.prototype.trim] and by [\s]
    (WhiteSpace and LineTerminator of ECMAScript), by the bytes of its
    encoding.  One byte: TAB, LF, VT, FF, CR and SPACE. *)
Definition isSpace (c : ascii) : bool :=
  let n := nat_of_ascii c in
  (((9 <=? n) && (n <=? 13)) || (n =? 32))%nat.

(** Two bytes: U+00A0, the no-break space. *)
Definition isSpace2 (c d : ascii) : bool :=
  ((nat_of_ascii c =? 194) && (nat_of_ascii d =? 160))%nat.

(** Three bytes: U+1680; U+2000 to U+200A, U+2028, U+2029 and U+202F;
    U+205F; U+3000; U+FEFF. *)
Definition isSpace3 (c d e : ascii) : bool :=
  let c := nat_of_ascii c in
  let d := nat_of_ascii d in
  let e := nat_of_ascii e in
  (((c =? 225) && (d =? 154) && (e =? 128))
   || ((c =? 226) && (d =? 128)
       && (((128 <=? e) && (e <=? 138)) || (e =? 168) || (e =? 169) || (e =? 175)))
   || ((c =? 226) && (d =? 129) && (e =? 159))
   || ((c =? 227) && (d =? 128) && (e =? 128))
   || ((c =? 239) && (d =? 187) && (e =? 191)))%nat.

(** U+00A0 and U+3000 in UTF-8. *)
Definition NBSP : string :=
  String (ascii_of_nat 194) (String (ascii_of_nat 160) EmptyString).

Definition IDEOGRAPHIC_SPACE : string :=
  String (ascii_of_nat 227)
    (String (ascii_of_nat 128) (String (ascii_of_nat 128) EmptyString)).

(** The number of bytes of the white space character [s] begins with;
    [0] when it begins with none. *)
Definition spaceLength (s : string) : nat :=
  match s with
  | EmptyString => 0
  | String c s1 =>
      if isSpace c then 1
      else
        match s1 with
        | EmptyString => 0
        | String d s2 =>
            if isSpace2 c d then 2
            else
              match s2 with
              | EmptyString => 0
              | String e _ => if isSpace3 c d e then 3 else 0
              end
        end
  end.

(** [\d] *)
Definition isDigit (c : ascii) : bool :=
  let n := nat_of_ascii c in
  ((48 <=? n) && (n <=? 57))%nat.

(** [s.length > 0], and the truthiness of a string. *)
Definition nonEmpty (s : string) : bool :=
  match s with
  | EmptyString => false
  | String _ _ => true
  end.

(** [a || b] on strings. *)
Definition orElse (a b : string) : string :=
  if nonEmpty a then a else b.

(** [a || b] when [a] may be [undefined]. *)
Definition orElseOpt (a : option string) (b : string) : string :=
  match a with
  | Some s => orElse s b
  | None => b
  end.

(** [s.startsWith(p)] *)
Definition startsWith (s p : string) : bool := String.prefix p s.

(** [s.includes(p)] *)
Fixpoint includes (s p : string) : bool :=
  String.prefix p s ||
  match s with
  | EmptyString => false
  | String _ s' => includes s' p
  end.

(** [s.endsWith(p)]: some suffix of [s] is [p]. *)
Fixpoint endsWith (s p : string) : bool :=
  String.eqb s p ||
  match s with
  | EmptyString => false
  | String _ s' => endsWith s' p
  end.

(** Prepend a character to the first piece of a split. *)
Definition consHead (c : ascii) (l : list string) : list string :=
  match l with
  | [] => [String c EmptyString]
  | h :: t => String c h :: t
  end.

(** [s.split(sep)] for a one-character separator.  The empty string
    splits into one empty piece. *)
Fixpoint split (sep : ascii) (s : string) : list string :=
  match s with
  | EmptyString => [EmptyString]
  | String c s' =>
      if Ascii.eqb c sep then EmptyString :: split sep s'
      else consHead c (split sep s')
  end.

(** [s.split(/[\n\r]+/)]: a run of line breaks is one separator. *)
Fixpoint splitLineRuns (afterBreak : bool) (s : string) : list string :=
  match s with
  | EmptyString => [EmptyString]
  | String c s' =>
      if Ascii.eqb c LF || Ascii.eqb c CR then
        if afterBreak then splitLineRuns true s'
        else EmptyString :: splitLineRuns true s'
      else consHead c (splitLineRuns false s')
  end.

(** [s.trimStart()]: the white space characters at the front go, one
    after the other. *)
Fixpoint trimStart (s : string) : string :=
  match s with
  | EmptyString => EmptyString
  | String c s1 =>
      if isSpace c then trimStart s1
      else
        match s1 with
        | EmptyString => s
        | String d s2 =>
            if isSpace2 c d then trimStart s2
            else
              match s2 with
              | EmptyString => s
              | String e s3 => if isSpace3 c d e then trimStart s3 else s
              end
        end
  end.

(** [s.trimEnd()]: the string is cut where what is left of it is white
    space only.  In UTF-8 a byte inside a character is never the first byte
    of another one, so the cut falls between two characters. *)
Fixpoint trimEnd (s : string) : string :=
  match s with
  | EmptyString => EmptyString
  | String c s' =>
      if nonEmpty (trimStart s) then String c (trimEnd s') else EmptyString
  end.

(** [s.trim()] *)
Definition trim (s : string) : string := trimEnd (trimStart s).

(** [l.join(sep)] *)
Definition join (sep : string) (l : list string) : string :=
  String.concat sep l.

(** [`${n}`] for a count. *)
Definition ofNat (n : nat) : string :=
  NilEmpty.string_of_uint (Nat.to_uint n).

(** [`${z}`] for an integer. *)
Definition ofZ (z : Z) : string :=
  NilZero.string_of_int (Z.to_int z).

(** [`"${file}"`] *)
Definition quoted (s : string) : string :=
  String DQUOTE (s ++ String DQUOTE EmptyString).

(** [s.slice(n)] *)
Fixpoint drop (n : nat) (s : string) : string :=
  match n, s with
  | O, _ => s
  | S n', String _ s' => drop n' s'
  | S _, EmptyString => EmptyString
  end.

(** [s.replace(new RegExp(escape(p), 'g'), r)] where [escape] quotes every
    regular-expression metacharacter: all the occurrences of the literal
    [p], left to right and not overlapping, become [r].  The empty pattern
    matches before every character and at the end.  [skip] counts the
    characters of a match still to be passed over. *)
Fixpoint replaceLiteral (p r : string) (skip : nat) (s : string) : string :=
  match s with
  | EmptyString =>
      match skip, p with
      | O, EmptyString => r
      | _, _ => EmptyString
      end
  | String c s' =>
      match skip with
      | S k => replaceLiteral p r k s'
      | O =>
          if String.prefix p s then
            match String.length p with
            | O => r ++ String c (replaceLiteral p r 0 s')
            | S k => r ++ replaceLiteral p r k s'
            end
          else String c (replaceLiteral p r 0 s')
      end
  end.

Definition replaceAll (p r s : string) : string := replaceLiteral p r 0 s.


(** [f] holds of some suffix of [s]: an unanchored regular expression is
    tried at every position. *)
Fixpoint anySuffix (f : string -> bool) (s : string) : bool :=
  f s ||
  match s with
  | EmptyString => false
  | String _ s' => anySuffix f s'
  end.

(** The first suffix of [s], from the left, at which [f] answers. *)
Fixpoint firstSuffix {A : Type} (f : string -> option A) (s : string) : option A :=
  match f s with
  | Some a => Some a
  | None =>
      match s with
      | EmptyString => None
      | String _ s' => firstSuffix f s'
      end
  end.

(** Matchers for the pieces of the regular expressions of the program.
    Each consumes from the front of [s] and returns what is left.  The
    classes that follow one another in those expressions are disjoint
    ([\s] then a letter or a digit, [\d] then a comma, a bracket or a
    space), so the longest match of each piece is the only one that can
    be completed and no backtracking is needed. *)
Definition lit (p s : string) : option string :=
  if String.prefix p s then Some (drop (String.length p) s) else None.

(** [\s*] *)
Definition spaces0 (s : string) : option string := Some (trimStart s).

(** [\s+] *)
Definition spaces1 (s : string) : option string :=
  match spaceLength s with
  | O => None
  | S _ => Some (trimStart s)
  end.

Fixpoint dropDigits (s : string) : string :=
  match s with
  | EmptyString => EmptyString
  | String c s' => if isDigit c then dropDigits s' else s
  end.

Fixpoint takeDigits (s : string) : string :=
  match s with
  | EmptyString => EmptyString
  | String c s' => if isDigit c then String c (takeDigits s') else EmptyString
  end.

(** [\d+] *)
Definition digits1 (s : string) : option string :=
  match s with
  | String c s' => if isDigit c then Some (dropDigits s') else None
  | EmptyString => None
  end.

Definition andThen (m : option string) (k : string -> option string) : option string :=
  match m with
  | Some s => k s
  | None => None
  end.

Definition isSome {A : Type} (o : option A) : bool :=
  match o with
  | Some _ => true
  | None => false
  end.

(** The value of a string of decimal digits, [parseInt(s, 10)] on the
    capture of a [(\d+)] group. *)
Definition digitValue (c : ascii) : nat := nat_of_ascii c - 48.

Fixpoint decimalFrom (acc : nat) (s : string) : nat :=
  match s with
  | EmptyString => acc
  | String c s' => decimalFrom (10 * acc + digitValue c) s'
  end.

Definition parseDecimal (s : string) : nat := decimalFrom 0 s.

End Js.


(* ================================================================== *)
(** ** Exceptions, results and the host *)
(* ================================================================== *)

(** What a [catch (error)] clause can read from the value it caught.  An
    error made by [new Error(msg)] or thrown by simple-git has a message
    only; an error of execa also carries the captured output and the exit
    code of the child.  A field that is [undefined] reads as the empty
    string here, the program only ever uses those under [||]. *)
Module Exn.

Record JsError : Type := mkJsError {
  message : string;
  stdout : string;
  all : string;
  exitCode : option Z
}.

End Exn.

Definition JsError : Type := Exn.JsError.

(** [new Error(msg)] *)
Definition Error (msg : string) : JsError := Exn.mkJsError msg "" "" None.

Inductive Result (A : Type) : Type :=
| Ok (a : A)
| Throw (e : JsError).

Arguments Ok {A} a.
Arguments Throw {A} e.

(** What [await execa(...)] resolves to. *)
Record ExecaResult : Type := mkExecaResult {
  res_stdout : string;
  res_all : string
}.

Record ExecaOptions : Type := mkExecaOptions {
  cwd : string;
  shell : bool;
  mergeAll : bool (* the option [all: true] *)
}.

(** A number read by [parseInt]. *)
Inductive JsNumber : Type :=
| NaN
| Int (z : Z).

(** The world the program runs in.  [W] is its state (repository, files,
    working directory), [J] the type of parsed JSON values.  Operations that
    only look at the world return no new state. *)
Record Host (W J : Type) : Type := mkHost {
  (* simple-git; the first argument is the base directory of the instance *)
  simpleGit : string -> W -> Result unit;
  git_fetch : string -> W -> Result unit * W;
  git_diff : string -> list string -> W -> Result string;
  (* [log.latest], [null] as [None], reduced to its [hash] *)
  git_log_latest : string -> list string -> W -> Result (option string);
  git_show : string -> list string -> W -> Result string;
  git_catFile : string -> list string -> W -> Result string;
  git_raw : string -> list string -> W -> Result string;
  (* fs and path *)
  existsSync : string -> W -> bool;
  readFileSync : string -> W -> Result string;
  writeFileSync : string -> string -> W -> Result unit * W;
  path_join : string -> string -> string;
  (* execa(file, args, options) *)
  execa : string -> list string -> ExecaOptions -> W -> Result ExecaResult * W;
  (* process.chdir *)
  chdir : string -> W -> Result unit * W;
  (* [subject.replace(new RegExp(source, 'g'), replacement)] *)
  regExpReplaceAll : string -> string -> string -> Result string;
  (* JSON values of package.json *)
  JSON_parse : string -> Result J;
  JSON_stringify : J -> string;
  (* [!(pkg.devDependencies || {})[name]] *)
  lacksDevDependency : J -> string -> Result bool;
  (* [pkg.scripts['ts-coverage'] = ...; pkg.typeCoverage = {atLeast, ...}] *)
  withTypeCoverage : J -> JsNumber -> Result J;
  (* [parseInt(s)] *)
  parseInt : string -> JsNumber;
  (* [`${n}`] *)
  showNumber : JsNumber -> string
}.

Arguments mkHost {W J}.
Arguments simpleGit {W J} _ _ _.
Arguments git_fetch {W J} _ _ _.
Arguments git_diff {W J} _ _ _ _.
Arguments git_log_latest {W J} _ _ _ _.
Arguments git_show {W J} _ _ _ _.
Arguments git_catFile {W J} _ _ _ _.
Arguments git_raw {W J} _ _ _ _.
Arguments existsSync {W J} _ _ _.
Arguments readFileSync {W J} _ _ _.
Arguments writeFileSync {W J} _ _ _ _.
Arguments path_join {W J} _ _ _.
Arguments execa {W J} _ _ _ _ _.
Arguments chdir {W J} _ _ _.
Arguments regExpReplaceAll {W J} _ _ _ _.
Arguments JSON_parse {W J} _ _.
Arguments JSON_stringify {W J} _ _.
Arguments lacksDevDependency {W J} _ _ _.
Arguments withTypeCoverage {W J} _ _ _.
Arguments parseInt {W J} _ _.
Arguments showNumber {W J} _ _.

(** Computations that change the world and may throw.  The world survives
    an exception: what a command did before it failed stays done. *)
Definition M (W A : Type) : Type := W -> Result A * W.

Definition ret {W A : Type} (a : A) : M W A := fun w => (Ok a, w).

Definition throw {W A : Type} (e : JsError) : M W A := fun w => (Throw e, w).

Definition bind {W A B : Type} (m : M W A) (k : A -> M W B) : M W B :=
  fun w =>
    match m w with
    | (Ok a, w') => k a w'
    | (Throw e, w') => (Throw e, w')
    end.

(** [try { m } catch (error) { h error }] *)
Definition tryCatch {W A : Type} (m : M W A) (h : JsError -> M W A) : M W A :=
  fun w =>
    match m w with
    | (Ok a, w') => (Ok a, w')
    | (Throw e, w') => h e w'
    end.

(** An operation that only reads the world, and may throw. *)
Definition query {W A : Type} (q : W -> Result A) : M W A := fun w => (q w, w).

(** A synchronous function of the world that cannot throw. *)
Definition observe {W A : Type} (q : W -> A) : M W A := fun w => (Ok (q w), w).

(** A pure operation that may throw. *)
Definition lift {W A : Type} (r : Result A) : M W A := fun w => (r, w).

Declare Scope eff_scope.
Delimit Scope eff_scope with eff.
Notation "x <- m ;; k" := (bind m (fun x => k))
  (at level 61, m at next level, right associativity) : eff_scope.
Notation "m ;;; k" := (bind m (fun _ => k))
  (at level 61, right associativity) : eff_scope.
Local Open Scope eff_scope.

(** The lines of a [git diff --name-only] output:
    [diff.trim().split('\n').filter(file => file.length > 0)]. *)
Definition nameOnlyLines (diff : string) : list string :=
  filter Js.nonEmpty (Js.split Js.LF (Js.trim diff)).

(** [l.some(f)] *)
Definition some {A : Type} (f : A -> bool) (l : list A) : bool := existsb f l.

(** The test shared by the two scope filters: the file lies under one of
    the check directories. *)
Definition isInCheckDirectory (checkDirectories : list string) (file : string) : bool :=
  some (fun dir =>
          let normalizedDir := Js.trim dir in
          Js.startsWith file (normalizedDir ++ "/") ||
          Js.startsWith file (normalizedDir ++ "\"))
       checkDirectories.

(* ================================================================== *)
(** ** src/eslint.ts *)
(* ================================================================== *)

Module ESLint.

Record ESLintConfig : Type := mkESLintConfig {
  enableCheck : bool;
  sourceBranch : string;
  targetBranch : string;
  fullCheckMode : bool;
  workSpace : string;
  projectDir : string;
  checkDirectories : list string;
  envBranchDeployMode : bool;
  ciCommitRefName : option string
}.

Record ESLintResult : Type := mkESLintResult {
  success : bool;
  checkedFiles : list string;
  errorCount : nat;
  warningCount : nat;
  output : string
}.

Definition frontendExtensions : list string := [".js"; ".ts"; ".jsx"; ".tsx"; ".vue"].

(** [show.split(' ').filter(p => p.trim())] *)
Definition parentsOf (show : string) : list string :=
  filter (fun p => Js.nonEmpty (Js.trim p)) (Js.split Js.SP show).

(** [/:\s*line\s+\d+,\s*col\s+\d+,\s*<severity>\s*-/], anchored at the
    front of [s]. *)
Definition compactFindingHere (severity : string) (s : string) : bool :=
  Js.isSome
    (Js.andThen (Js.lit ":" s) (fun s =>
     Js.andThen (Js.spaces0 s) (fun s =>
     Js.andThen (Js.lit "line" s) (fun s =>
     Js.andThen (Js.spaces1 s) (fun s =>
     Js.andThen (Js.digits1 s) (fun s =>
     Js.andThen (Js.lit "," s) (fun s =>
     Js.andThen (Js.spaces0 s) (fun s =>
     Js.andThen (Js.lit "col" s) (fun s =>
     Js.andThen (Js.spaces1 s) (fun s =>
     Js.andThen (Js.digits1 s) (fun s =>
     Js.andThen (Js.lit "," s) (fun s =>
     Js.andThen (Js.spaces0 s) (fun s =>
     Js.andThen (Js.lit severity s) (fun s =>
     Js.andThen (Js.spaces0 s) (fun s =>
     Js.lit "-" s))))))))))))))).

(** [/.../.test(line)] *)
Definition compactFinding (severity : string) (line : string) : bool :=
  Js.anySuffix (compactFindingHere severity) line.

(** The first pass over the lines of the output: the compact format of
    ESLint, [file: line X, col Y, Error - message (rule)]. *)
Definition countCompact (lines : list string) : nat * nat :=
  fold_left
    (fun (acc : nat * nat) (line : string) =>
       let (errorCount, warningCount) := acc in
       if Js.nonEmpty (Js.trim line) then
         if compactFinding "Error" line then (S errorCount, warningCount)
         else if compactFinding "Warning" line then (errorCount, S warningCount)
         else acc
       else acc)
    lines (0, 0).

(** The second pass: lines that contain the marker anywhere. *)
Definition countMarkers (lines : list string) : nat * nat :=
  fold_left
    (fun (acc : nat * nat) (line : string) =>
       let (errorCount, warningCount) := acc in
       let errorCount := if Js.includes line "Error -" then S errorCount else errorCount in
       let warningCount := if Js.includes line "Warning -" then S warningCount else warningCount in
       (errorCount, warningCount))
    lines (0, 0).

(** The counts of the [catch] branch of [runESLintCheck]: the second pass
    runs only when the first one found nothing. *)
Definition countFindings (lines : list string) : nat * nat :=
  match countCompact lines with
  | (O, O) => countMarkers lines
  | counts => counts
  end.

Definition getFullCheckFiles (checkDirectories : list string) : list string :=
  let extensions := ["*.js"; "*.ts"; "*.jsx"; "*.tsx"; "*.vue"] in
  flat_map (fun dir =>
              let normalizedDir := Js.trim dir in
              map (fun ext => normalizedDir ++ "/**/" ++ ext) extensions)
           checkDirectories.

Section WithHost.
Context {W J : Type} (H : Host W J).

Definition getChangedFiles (config : ESLintConfig) : M W (list string) :=
  tryCatch
    (query (simpleGit H (projectDir config)) ;;;
     git_fetch H (projectDir config) ;;;
     diff <- query (git_diff H (projectDir config)
                      ["--name-only";
                       "origin/" ++ targetBranch config;
                       "origin/" ++ sourceBranch config]) ;;
     ret (nameOnlyLines diff))
    (fun _ => ret []).

Definition getEnvBranchChangedFiles (config : ESLintConfig) : M W (list string) :=
  tryCatch
    (let deployBranch := Js.orElseOpt (ciCommitRefName config) "develop" in
     let masterBranch := Js.orElse (targetBranch config) "master" in
     let originMasterBranch := "origin/" ++ masterBranch in
     query (simpleGit H (projectDir config)) ;;;
     tryCatch
       (log <- query (git_log_latest H (projectDir config)
                        ["--merges"; "--first-parent"; deployBranch; "-n"; "1"]) ;;
        match log with
        | None => getChangedFiles config
        | Some mergeCommit =>
            show <- query (git_show H (projectDir config)
                             [mergeCommit; "--pretty=format:%P"]) ;;
            let parents := parentsOf show in
            if (length parents <? 2)%nat then getChangedFiles config
            else
              let devEnd := nth 1 parents "" in
              early <- tryCatch
                         (query (git_catFile H (projectDir config) ["-e"; devEnd]) ;;;
                          ret None)
                         (fun _ => files <- getChangedFiles config ;; ret (Some files)) ;;
              match early with
              | Some files => ret files
              | None =>
                  initialBase <- query (git_raw H (projectDir config)
                                          ["merge-base"; originMasterBranch; devEnd]) ;;
                  let baseCommit := Js.trim initialBase in
                  diff <- query (git_diff H (projectDir config)
                                   ["--name-only"; baseCommit; devEnd]) ;;
                  ret (nameOnlyLines diff)
              end
        end)
       (fun _ => getChangedFiles config))
    (fun _ => ret []).

Definition filterFrontendFiles
    (files : list string) (projectDir : string) (checkDirectories : list string)
    (w : W) : list string :=
  filter (fun file => existsSync H (path_join H projectDir file) w)
    (filter (fun file => isInCheckDirectory checkDirectories file)
       (filter (fun file => some (fun ext => Js.endsWith file ext) frontendExtensions)
          files)).

Definition runESLintCheck
    (files : list string) (projectDir : string) (isFullCheck : bool)
    : M W ESLintResult :=
  tryCatch
    (let run (eslintCommand : string) : M W ESLintResult :=
       result <- execa H eslintCommand [] (mkExecaOptions projectDir true false) ;;
       ret (mkESLintResult true files 0 0
              (Js.orElse (res_stdout result) "ESLint检查通过")) in
     if isFullCheck then run "npx eslint . --format=compact"
     else
       match files with
       | [] => ret (mkESLintResult true [] 0 0 "没有需要检查的文件")
       | _ =>
           let fileArgs := Js.join " " (map Js.quoted files) in
           run ("npx eslint " ++ fileArgs ++ " --format=compact")
       end)
    (fun error =>
       let output := Js.orElse (Exn.stdout error) (Exn.message error) in
       let lines := Js.split Js.LF output in
       let (errorCount, warningCount) := countFindings lines in
       let cleanedOutput := Js.replaceAll projectDir "." output in
       ret (mkESLintResult (errorCount =? 0)%nat files errorCount warningCount cleanedOutput)).

Definition checkESLintConfig (projectDir : string) (w : W) : bool :=
  let configFiles :=
    [".eslintrc.js"; ".eslintrc.json"; ".eslintrc.yaml"; ".eslintrc.yml"; "eslint.config.js"] in
  some (fun configFile => existsSync H (path_join H projectDir configFile) w) configFiles.

Definition performESLintCheck (config : ESLintConfig) : M W ESLintResult :=
  if negb (enableCheck config) then
    ret (mkESLintResult true [] 0 0 "ESLint检查已禁用")
  else
    tryCatch
      (execa H "git" ["rev-parse"; "--git-dir"]
         (mkExecaOptions (projectDir config) false false) ;;;
       ret tt)
      (fun _ => throw (Error "当前目录不是git仓库，无法进行增量检查")) ;;;
    observe (checkESLintConfig (projectDir config)) ;;;
    if fullCheckMode config then
      runESLintCheck (getFullCheckFiles (checkDirectories config))
        (projectDir config) (fullCheckMode config)
    else
      changedFiles <- (if envBranchDeployMode config
                       then getEnvBranchChangedFiles config
                       else getChangedFiles config) ;;
      filesToCheck <- observe (filterFrontendFiles changedFiles (projectDir config)
                                 (checkDirectories config)) ;;
      match filesToCheck with
      | [] => ret (mkESLintResult true [] 0 0 "没有前端代码变更")
      | _ => runESLintCheck filesToCheck (projectDir config) (fullCheckMode config)
      end.

End WithHost.

End ESLint.

(* ================================================================== *)
(** ** src/typescript.ts *)
(* ================================================================== *)

Module TypeScript.

Record TypeScriptConfig : Type := mkTypeScriptConfig {
  projectDir : string;
  files : list string;
  fullCheck : bool;
  checkDirectories : list string;
  sourceBranch : string;
  targetBranch : string
}.

(** [checkedFiles] is [-1] for a check of the whole project. *)
Record TypeScriptResult : Type := mkTypeScriptResult {
  success : bool;
  errorCount : nat;
  warningCount : nat;
  output : string;
  checkedFiles : Z
}.

Definition typeScriptExtensions : list string := [".ts"; ".tsx"; ".vue"].

Definition excludePatterns : list string :=
  ["node_modules/"; "lib/"; "dist/"; ".test.ts"; ".spec.ts"; "test/"].

Definition shouldExclude (file : string) : bool :=
  some (fun pattern =>
          if Js.endsWith pattern "/" then
            Js.startsWith file pattern || Js.includes file ("/" ++ pattern)
          else Js.includes file pattern)
       excludePatterns.

(** [line.match(/Found (\d+) error/)], reduced to
    [parseInt(match[1], 10)]. *)
Definition foundErrorsHere (s : string) : option nat :=
  match Js.lit "Found " s with
  | None => None
  | Some s1 =>
      match Js.digits1 s1 with
      | None => None
      | Some s2 =>
          match Js.lit " error" s2 with
          | None => None
          | Some _ => Some (Js.parseDecimal (Js.takeDigits s1))
          end
      end
  end.

Definition foundErrors (line : string) : option nat :=
  Js.firstSuffix foundErrorsHere line.

Definition parseTypeScriptOutput (output : string) : nat * nat :=
  fold_left
    (fun (acc : nat * nat) (line : string) =>
       let (errorCount, warningCount) := acc in
       if Js.includes line ": error TS" then (S errorCount, warningCount)
       else if Js.includes line ": warning TS" then (errorCount, S warningCount)
       else
         match foundErrors line with
         | Some n => (Nat.max errorCount n, warningCount)
         | None => acc
         end)
    (Js.split Js.LF output) (0, 0).

Fixpoint takeUntilParen (s : string) : string :=
  match s with
  | EmptyString => EmptyString
  | String c s' =>
      if Ascii.eqb c "("%char then EmptyString else String c (takeUntilParen s')
  end.

Fixpoint dropUntilParen (s : string) : string :=
  match s with
  | EmptyString => EmptyString
  | String c s' => if Ascii.eqb c "("%char then s else dropUntilParen s'
  end.

(** [line.match(/^([^(]+)\(\d+,\d+\):\s*(error|warning)/)], reduced to
    [match[1]]. *)
Definition diagnosticFile (line : string) : option string :=
  let file := takeUntilParen line in
  if Js.nonEmpty file then
    match
      Js.andThen (Js.lit "(" (dropUntilParen line)) (fun s =>
      Js.andThen (Js.digits1 s) (fun s =>
      Js.andThen (Js.lit "," s) (fun s =>
      Js.andThen (Js.digits1 s) (fun s =>
      Js.andThen (Js.lit "):" s) (fun s =>
      Js.andThen (Js.spaces0 s) (fun s =>
      if String.prefix "error" s || String.prefix "warning" s then Some s else None))))))
    with
    | Some _ => Some file
    | None => None
    end
  else None.

(** [fileSet.size] after the loop over the lines of the output. *)
Definition countDiagnosticFiles (cleanedOutput : string) : nat :=
  length
    (fold_left
       (fun (fileSet : list string) (line : string) =>
          match diagnosticFile line with
          | Some file =>
              if in_dec string_dec file fileSet then fileSet
              else (fileSet ++ [file])%list
          | None => fileSet
          end)
       (Js.split Js.LF cleanedOutput) []).

Section WithHost.
Context {W J : Type} (H : Host W J).

Definition getChangedFiles (config : TypeScriptConfig) : M W (list string) :=
  tryCatch
    (query (simpleGit H (projectDir config)) ;;;
     git_fetch H (projectDir config) ;;;
     diff <- (if Js.nonEmpty (sourceBranch config) then
                query (git_diff H (projectDir config)
                         ["--name-only";
                          "origin/" ++ targetBranch config;
                          "origin/" ++ sourceBranch config])
              else
                query (git_diff H (projectDir config)
                         ["--name-only";
                          "origin/" ++ targetBranch config;
                          "HEAD"])) ;;
     ret (nameOnlyLines diff))
    (fun _ => ret []).

Definition filterTypeScriptFiles
    (files : list string) (projectDir : string) (checkDirectories : list string)
    (w : W) : list string :=
  filter (fun file => existsSync H (path_join H projectDir file) w)
    (filter (fun file => isInCheckDirectory checkDirectories file)
       (filter (fun file => negb (shouldExclude file))
          (filter (fun file => some (fun ext => Js.endsWith file ext) typeScriptExtensions)
             files))).

Definition runTypeScriptCheck (config : TypeScriptConfig) : M W TypeScriptResult :=
  tryCatch
    (let tsconfigPath := path_join H (projectDir config) "tsconfig.json" in
     tsconfigExists <- observe (existsSync H tsconfigPath) ;;
     if negb tsconfigExists then
       ret (mkTypeScriptResult true 0 0
              "未找到 tsconfig.json 文件，跳过 TypeScript 检查" 0%Z)
     else
       let run (command : string) (filesToCheck : list string) : M W TypeScriptResult :=
         execa H command [] (mkExecaOptions (projectDir config) true false) ;;;
         ret (mkTypeScriptResult true 0 0 "TypeScript 检查通过"
                (if fullCheck config then (-1)%Z
                 else Z.of_nat (length filesToCheck))) in
       if fullCheck config then
         run "npx tsc --noEmit --skipLibCheck --project tsconfig.json" []
       else
         actualFiles <-
           (match files config with
            | [] =>
                changedFiles <- getChangedFiles config ;;
                observe (filterTypeScriptFiles changedFiles (projectDir config)
                           (checkDirectories config))
            | _ =>
                observe (filterTypeScriptFiles (files config) (projectDir config)
                           (checkDirectories config))
            end) ;;
         match actualFiles with
         | [] => ret (mkTypeScriptResult true 0 0 "没有需要检查的 TypeScript 文件" 0%Z)
         | _ =>
             let fileList := Js.join " " (map Js.quoted actualFiles) in
             run ("npx tsc --noEmit --skipLibCheck " ++ fileList) actualFiles
         end)
    (fun error =>
       let output := Js.orElse (Exn.stdout error) (Js.orElse (Exn.message error) "") in
       cleanedOutput <- lift (regExpReplaceAll H (projectDir config) output ".") ;;
       let (errorCount, warningCount) := parseTypeScriptOutput cleanedOutput in
       let actualCheckedFiles :=
         if fullCheck config then (-1)%Z
         else Z.of_nat (countDiagnosticFiles cleanedOutput) in
       ret (mkTypeScriptResult (errorCount =? 0)%nat errorCount warningCount
              cleanedOutput actualCheckedFiles)).

(** Builds the configuration, runs the check and logs the result. *)
Definition performTypeScriptCheck
    (projectDir : string) (files : list string) (fullCheck : bool)
    (checkDirectories : list string) (sourceBranch targetBranch : string)
    : M W TypeScriptResult :=
  runTypeScriptCheck
    (mkTypeScriptConfig projectDir files fullCheck checkDirectories
       sourceBranch targetBranch).

End WithHost.

End TypeScript.

(* ================================================================== *)
(** ** src/util.ts *)
(* ================================================================== *)

Module Util.

Inductive PackageManager : Type := npm | yarn | pnpm.

Definition getInstallCommand (packageManager : PackageManager) (packages : list string)
    : list string :=
  match packageManager with
  | pnpm => (["pnpm"; "add"; "-D"] ++ packages)%list
  | yarn => (["yarn"; "add"; "-D"] ++ packages)%list
  | npm => (["npm"; "install"; "--save-dev"] ++ packages)%list
  end.

Section WithHost.
Context {W J : Type} (H : Host W J).

Definition detectPackageManager (projectDir : string) (w : W) : PackageManager :=
  if existsSync H (path_join H projectDir "pnpm-lock.yaml") w then pnpm
  else if existsSync H (path_join H projectDir "yarn.lock") w then yarn
  else npm.

(** [!userScript || userScript.trim() === ''] is the test for "no script". *)
Definition runUserScript (projectDir : string) (userScript : option string) : M W unit :=
  match userScript with
  | None => ret tt
  | Some script =>
      if negb (Js.nonEmpty script) || negb (Js.nonEmpty (Js.trim script)) then ret tt
      else
        tryCatch
          (execa H script [] (mkExecaOptions projectDir true false) ;;; ret tt)
          (fun error => throw error)
  end.

(** The installation of the dependencies of the project, kept in util.ts
    as a fallback. *)
Definition installDependencies (projectDir : string) : M W unit :=
  let packageJsonPath := path_join H projectDir "package.json" in
  packageJsonExists <- observe (existsSync H packageJsonPath) ;;
  if negb packageJsonExists then throw (Error "未找到 package.json 文件")
  else
    packageManager <- observe (detectPackageManager projectDir) ;;
    let installCommand :=
      match packageManager with
      | pnpm => "pnpm install"
      | yarn => "yarn install"
      | npm => "npm install"
      end in
    tryCatch
      (execa H "npm" ["cache"; "clean"; "--force"]
         (mkExecaOptions projectDir false false) ;;;
       execa H installCommand [] (mkExecaOptions projectDir true false) ;;;
       ret tt)
      (fun error => throw error).

End WithHost.

End Util.

(* ================================================================== *)
(** ** The earlier copy of util.ts *)
(* ================================================================== *)

(** The repository holds a second copy of util.ts, from before
    [detectPackageManager] existed: [installDependencies] looks for the lock
    files itself.  Its [runUserScript] is the one of util.ts, word for
    word. *)
Module Legacy.

Section WithHost.
Context {W J : Type} (H : Host W J).

Definition installDependencies (projectDir : string) : M W unit :=
  let packageJsonPath := path_join H projectDir "package.json" in
  packageJsonExists <- observe (existsSync H packageJsonPath) ;;
  if negb packageJsonExists then throw (Error "未找到 package.json 文件")
  else
    hasPackageLock <- observe (existsSync H (path_join H projectDir "package-lock.json")) ;;
    hasYarnLock <- observe (existsSync H (path_join H projectDir "yarn.lock")) ;;
    hasPnpmLock <- observe (existsSync H (path_join H projectDir "pnpm-lock.yaml")) ;;
    let installCommand :=
      if hasPnpmLock : bool then "pnpm install"
      else if hasYarnLock : bool then "yarn install"
      else "npm install" in
    tryCatch
      (execa H "npm" ["cache"; "clean"; "--force"]
         (mkExecaOptions projectDir false false) ;;;
       execa H installCommand [] (mkExecaOptions projectDir true false) ;;;
       ret tt)
      (fun error => throw error).

End WithHost.

End Legacy.

(* ================================================================== *)
(** ** The publish script *)
(* ================================================================== *)

(** The version arithmetic of the script that publishes the step.  Numbers
    are exact integers here; a JavaScript number is a double, so the model
    is the program as long as the magnitudes stay below 2^53. *)
Module Publish.

Definition decimalDigit (c : ascii) : option Z :=
  if Js.isDigit c then Some (Z.of_nat (nat_of_ascii c) - 48)%Z else None.

Definition hexDigit (c : ascii) : option Z :=
  let n := nat_of_ascii c in
  if Js.isDigit c then Some (Z.of_nat n - 48)%Z
  else if ((97 <=? n) && (n <=? 102))%nat then Some (Z.of_nat n - 87)%Z
  else if ((65 <=? n) && (n <=? 70))%nat then Some (Z.of_nat n - 55)%Z
  else None.

(** The value of the longest prefix of digits, [None] when there is no
    digit at all. *)
Fixpoint readDigits (radix : Z) (digit : ascii -> option Z) (acc : option Z) (s : string)
    : option Z :=
  match s with
  | EmptyString => acc
  | String c s' =>
      match digit c with
      | Some d =>
          readDigits radix digit
            (Some (radix * match acc with Some a => a | None => 0 end + d)%Z) s'
      | None => acc
      end
  end.

(** [parseInt(s)] without a radix: leading white space, a sign, the prefix
    [0x] or [0X] for base 16, then the digits; [NaN] without a digit. *)
Definition parseInt (s : string) : JsNumber :=
  let s := Js.trimStart s in
  let signed :=
    match s with
    | String c s' =>
        if Ascii.eqb c "-"%char then (true, s')
        else if Ascii.eqb c "+"%char then (false, s')
        else (false, s)
    | EmptyString => (false, s)
    end in
  let negative := fst signed in
  let s := snd signed in
  let digits :=
    if String.prefix "0x" s || String.prefix "0X" s
    then readDigits 16 hexDigit None (Js.drop 2 s)
    else readDigits 10 decimalDigit None s in
  match digits with
  | Some z => Int (if negative : bool then (- z)%Z else z)
  | None => NaN
  end.

(** [n + 1] *)
Definition plusOne (n : JsNumber) : JsNumber :=
  match n with
  | NaN => NaN
  | Int z => Int (z + 1)%Z
  end.

(** [`${n}`] *)
Definition showNumber (n : JsNumber) : string :=
  match n with
  | NaN => "NaN"
  | Int z => Js.ofZ z
  end.

(** [parts[i]] as a string: an index past the end reads [undefined]. *)
Definition part (parts : list string) (i : nat) : string := nth i parts "undefined".

Definition incrementVersion (version : string) : string :=
  let parts := Js.split "."%char version in
  let patch := plusOne (parseInt (part parts 2)) in
  part parts 0 ++ "." ++ part parts 1 ++ "." ++ showNumber patch.

End Publish.

(* ================================================================== *)
(** ** src/typescript-coverage.ts *)
(* ================================================================== *)

Module TypeScriptCoverage.

Record TypeScriptCoverageConfig : Type := mkTypeScriptCoverageConfig {
  enableCheck : bool;
  cfg_threshold : JsNumber;
  projectDir : string;
  workSpace : string
}.

Record TypeScriptCoverageResult : Type := mkTypeScriptCoverageResult {
  success : bool;
  threshold : JsNumber;
  message : string
}.

Section WithHost.
Context {W J : Type} (H : Host W J).

Definition installCoverageDependencies (projectDir : string) : M W unit :=
  packageManager <- observe (Util.detectPackageManager H projectDir) ;;
  let installCommand :=
    Util.getInstallCommand packageManager
      ["typescript-coverage-report"; "semantic-ui-react"] in
  tryCatch
    (execa H (hd "" installCommand) (tl installCommand)
       (mkExecaOptions projectDir false false) ;;;
     ret tt)
    (fun error =>
       throw (Error ("安装TypeScript覆盖率依赖失败: " ++ Exn.message error))).

Definition createCoverageConfig (projectDir : string) (threshold : JsNumber) : M W unit :=
  let packageJsonPath := path_join H projectDir "package.json" in
  packageJsonExists <- observe (existsSync H packageJsonPath) ;;
  if negb packageJsonExists then throw (Error "未找到 package.json 文件")
  else
    tryCatch
      (text <- query (readFileSync H packageJsonPath) ;;
       packageJson <- lift (JSON_parse H text) ;;
       packageJson <- lift (withTypeCoverage H packageJson threshold) ;;
       writeFileSync H packageJsonPath (JSON_stringify H packageJson))
      (fun error =>
         throw (Error ("配置 typeCoverage 失败: " ++ Exn.message error))).

Definition performTypeScriptCoverageCheck (config : TypeScriptCoverageConfig)
    : M W TypeScriptCoverageResult :=
  let threshold := cfg_threshold config in
  let projectDir := projectDir config in
  if negb (enableCheck config) then
    ret (mkTypeScriptCoverageResult true threshold "TypeScript覆盖率检查已禁用")
  else
    let tsconfigPath := path_join H projectDir "tsconfig.json" in
    tsconfigExists <- observe (existsSync H tsconfigPath) ;;
    if negb tsconfigExists then
      throw (Error "未找到 tsconfig.json 文件，无法进行TypeScript覆盖率检查")
    else
      tryCatch
        (let packageJsonPath := path_join H projectDir "package.json" in
         packageJsonExists <- observe (existsSync H packageJsonPath) ;;
         needInstall <-
           (if packageJsonExists then
              text <- query (readFileSync H packageJsonPath) ;;
              packageJson <- lift (JSON_parse H text) ;;
              lift (lacksDevDependency H packageJson "typescript-coverage-report")
            else ret true) ;;
         (if needInstall : bool then installCoverageDependencies projectDir
          else ret tt) ;;;
         createCoverageConfig projectDir threshold ;;;
         packageManager <- observe (Util.detectPackageManager H projectDir) ;;
         let command :=
           match packageManager with
           | Util.pnpm => ["pnpm"; "ts-coverage"]
           | Util.yarn => ["yarn"; "ts-coverage"]
           | Util.npm => ["npm"; "run"; "ts-coverage"]
           end in
         execa H (hd "" command) (tl command)
           (mkExecaOptions projectDir false true) ;;;
         ret (mkTypeScriptCoverageResult true threshold
                ("TypeScript覆盖率检查通过，检测结果大于" ++ showNumber H threshold
                 ++ "%。详情请查看输出日志")))
        (fun error =>
           if match Exn.exitCode error with
              | Some code => (code =? 1)%Z
              | None => false
              end
              && Js.nonEmpty (Js.orElse (Exn.all error) (Exn.stdout error))
           then
             ret (mkTypeScriptCoverageResult false threshold
                    ("TypeScript覆盖率检查失败，检测结果小于" ++ showNumber H threshold
                     ++ "%。详情请查看输出日志"))
           else
             throw (Error ("TypeScript覆盖率检查执行失败: " ++ Exn.message error))).

End WithHost.

End TypeScriptCoverage.

(* ================================================================== *)
(** ** src/params.ts *)
(* ================================================================== *)

Module Params.

(** The environment of the step, as [getParams] reads it.  A field
    declared optional is [None] when the variable is not set. *)
Record IParams : Type := mkIParams {
  pipelineID : JsNumber;
  pipelineName : string;
  buildNumber : option JsNumber;
  workSpace : string;
  projectDir : string;
  buildJobID : JsNumber;
  userScript : option string;
  enableESLintCheck : option string;
  sourceBranch : option string;
  targetBranch : option string;
  fullCheckMode : option string;
  checkDirectories : option string;
  enableTypeScriptCheck : option string;
  fullTypeScriptCheckMode : option string;
  envBranchDeployMode : option string;
  ciCommitRefName : option string;
  gitBranch : option string;
  enableTypeScriptCoverageReport : option string;
  typeScriptCoverageThreshold : option string
}.

End Params.

(* ================================================================== *)
(** ** src/index.ts *)
(* ================================================================== *)

Module Index.

(** [v === 'true'] *)
Definition isTrue (v : option string) : bool :=
  match v with
  | Some s => String.eqb s "true"
  | None => false
  end.

(** The variables [runStep] accumulates the results in. *)
Record Tally : Type := mkTally {
  checkedFiles : list string;
  hasErrors : bool;
  totalErrors : nat;
  totalWarnings : nat;
  checkResults : list string
}.

Definition initialTally : Tally := mkTally [] false 0 0 [].

(** [checkResults.push(entry)] *)
Definition push (entry : string) (t : Tally) : Tally :=
  mkTally (checkedFiles t) (hasErrors t) (totalErrors t) (totalWarnings t)
    (checkResults t ++ [entry])%list.

(** [hasErrors = true] *)
Definition fail (t : Tally) : Tally :=
  mkTally (checkedFiles t) true (totalErrors t) (totalWarnings t) (checkResults t).

(** [totalErrors += n] *)
Definition addErrors (n : nat) (t : Tally) : Tally :=
  mkTally (checkedFiles t) (hasErrors t) (totalErrors t + n) (totalWarnings t)
    (checkResults t).

(** [totalWarnings += n] *)
Definition addWarnings (n : nat) (t : Tally) : Tally :=
  mkTally (checkedFiles t) (hasErrors t) (totalErrors t) (totalWarnings t + n)
    (checkResults t).

(** [checkedFiles = files] *)
Definition setCheckedFiles (files : list string) (t : Tally) : Tally :=
  mkTally files (hasErrors t) (totalErrors t) (totalWarnings t) (checkResults t).

(** How the process ends: the promise of [runStep] resolves, or
    [process.exit(code)] is called inside it. *)
Inductive Completion : Type :=
| Resolved
| Exit (code : Z).

(** The end of the process: the code given to [process.exit] ([0] when the
    process ends by itself), and the lines of the summary block written
    before. *)
Record ProcessEnd : Type := mkProcessEnd {
  exitCode : Z;
  summary : list string
}.

Definition sourceBranchOf (params : Params.IParams) : string :=
  let envBranchDeployMode := isTrue (Params.envBranchDeployMode params) in
  let sourceBranch := Js.orElseOpt (Params.sourceBranch params) "*" in
  let sourceBranch :=
    if String.eqb sourceBranch "*" then
      Js.orElseOpt (Params.ciCommitRefName params)
        (Js.orElseOpt (Params.gitBranch params) "")
    else sourceBranch in
  if envBranchDeployMode then "" else sourceBranch.

Definition targetBranchOf (params : Params.IParams) : string :=
  Js.orElseOpt (Params.targetBranch params) "master".

Definition projectDirOf (params : Params.IParams) : string :=
  Js.orElse (Params.projectDir params) (Params.workSpace params).

Definition checkDirectoriesOf (params : Params.IParams) : list string :=
  let checkDirectoriesRaw := Js.orElseOpt (Params.checkDirectories params) "src" in
  filter Js.nonEmpty (map Js.trim (Js.splitLineRuns false checkDirectoriesRaw)).

Definition eslintConfigOf (params : Params.IParams) : ESLint.ESLintConfig :=
  ESLint.mkESLintConfig
    (isTrue (Params.enableESLintCheck params))
    (sourceBranchOf params)
    (targetBranchOf params)
    (isTrue (Params.fullCheckMode params))
    (Params.workSpace params)
    (projectDirOf params)
    (checkDirectoriesOf params)
    (isTrue (Params.envBranchDeployMode params))
    (Params.ciCommitRefName params).

Definition fileCountMsg (checkedFiles : Z) : string :=
  if (checkedFiles =? -1)%Z then "全量检查"
  else "检查了 " ++ Js.ofZ checkedFiles ++ " 个文件".

(** The body of the [try] block of the ESLint check, after the result
    has arrived. *)
Definition onESLintResult (result : ESLint.ESLintResult) (t : Tally) : Tally :=
  let t := setCheckedFiles (ESLint.checkedFiles result) t in
  let t :=
    if ESLint.success result then
      push ("ESLint: 通过 (" ++ Js.ofNat (length (ESLint.checkedFiles result))
            ++ " 个文件, " ++ Js.ofNat (ESLint.warningCount result) ++ " 个警告)") t
    else
      push ("ESLint: 失败 (" ++ Js.ofNat (ESLint.errorCount result)
            ++ " 个错误, " ++ Js.ofNat (ESLint.warningCount result) ++ " 个警告)")
        (addErrors (ESLint.errorCount result) (fail t)) in
  addWarnings (ESLint.warningCount result) t.

(** The [catch] block of the ESLint check. *)
Definition onESLintError (error : JsError) (t : Tally) : Tally :=
  push ("ESLint: 执行错误 (" ++ Exn.message error ++ ")") (fail t).

Definition onTypeScriptResult (result : TypeScript.TypeScriptResult) (t : Tally) : Tally :=
  let t :=
    if TypeScript.success result then
      if (TypeScript.checkedFiles result =? 0)%Z then
        push "TypeScript: 通过 (没有需要检查的文件)" t
      else
        push ("TypeScript: 通过 (" ++ fileCountMsg (TypeScript.checkedFiles result)
              ++ ", " ++ Js.ofNat (TypeScript.warningCount result) ++ " 个警告)") t
    else
      push ("TypeScript: 失败 (" ++ Js.ofNat (TypeScript.errorCount result)
            ++ " 个错误, " ++ Js.ofNat (TypeScript.warningCount result)
            ++ " 个警告, " ++ fileCountMsg (TypeScript.checkedFiles result) ++ ")")
        (addErrors (TypeScript.errorCount result) (fail t)) in
  addWarnings (TypeScript.warningCount result) t.

Definition onTypeScriptError (error : JsError) (t : Tally) : Tally :=
  push ("TypeScript: 执行错误 (" ++ Exn.message error ++ ")") (fail t).

Definition onCoverageResult
    (result : TypeScriptCoverage.TypeScriptCoverageResult) (t : Tally) : Tally :=
  if TypeScriptCoverage.success result then push "TypeScript覆盖率: 通过" t
  else push "TypeScript覆盖率: 失败" (fail t).

Definition onCoverageError (error : JsError) (t : Tally) : Tally :=
  push ("TypeScript覆盖率: 执行错误 (" ++ Exn.message error ++ ")") (fail t).

Section WithHost.
Context {W J : Type} (H : Host W J).

Definition coverageConfigOf (params : Params.IParams)
    : TypeScriptCoverage.TypeScriptCoverageConfig :=
  TypeScriptCoverage.mkTypeScriptCoverageConfig
    (isTrue (Params.enableTypeScriptCoverageReport params))
    (parseInt H (Js.orElseOpt (Params.typeScriptCoverageThreshold params) "90"))
    (projectDirOf params)
    (Params.workSpace params).

(** The call of the type check in [runStep]; [files] is the list the
    ESLint check left in [checkedFiles]. *)
Definition typeScriptCall (params : Params.IParams) (files : list string)
    : M W TypeScript.TypeScriptResult :=
  TypeScript.performTypeScriptCheck H
    (projectDirOf params)
    files
    (isTrue (Params.fullTypeScriptCheckMode params))
    (checkDirectoriesOf params)
    (sourceBranchOf params)
    (targetBranchOf params).

Definition eslintStep (params : Params.IParams) (t : Tally) : M W Tally :=
  if isTrue (Params.enableESLintCheck params) then
    tryCatch
      (result <- ESLint.performESLintCheck H (eslintConfigOf params) ;;
       ret (onESLintResult result t))
      (fun error => ret (onESLintError error t))
  else ret (push "ESLint: 已禁用" t).

Definition typeScriptStep (params : Params.IParams) (t : Tally) : M W Tally :=
  if isTrue (Params.enableTypeScriptCheck params) then
    tryCatch
      (result <- typeScriptCall params (checkedFiles t) ;;
       ret (onTypeScriptResult result t))
      (fun error => ret (onTypeScriptError error t))
  else ret (push "TypeScript: 已禁用" t).

Definition coverageStep (params : Params.IParams) (t : Tally) : M W Tally :=
  if isTrue (Params.enableTypeScriptCoverageReport params) then
    tryCatch
      (result <- TypeScriptCoverage.performTypeScriptCoverageCheck H
                   (coverageConfigOf params) ;;
       ret (onCoverageResult result t))
      (fun error => ret (onCoverageError error t))
  else ret (push "TypeScript覆盖率: 已禁用" t).

(** The three checks of [runStep], in the order of the source. *)
Definition runCheckers (params : Params.IParams) : M W Tally :=
  t <- eslintStep params initialTally ;;
  t <- typeScriptStep params t ;;
  coverageStep params t.

(** The build phase of [runStep]: [true] when the user script went
    through, [false] when the [catch] around it calls
    [process.exit(1)]. *)
Definition buildPhase (params : Params.IParams) : M W bool :=
  tryCatch
    (Util.runUserScript H (projectDirOf params) (Params.userScript params) ;;;
     ret true)
    (fun _ => ret false).

Definition runStep (params : Params.IParams) : M W (Completion * list string) :=
  chdir H (Params.projectDir params) ;;;
  built <- buildPhase params ;;
  if negb built then ret (Exit 1, [])
  else
    t <- runCheckers params ;;
    if hasErrors t then ret (Exit 1, checkResults t)
    else ret (Resolved, checkResults t).

(** [runStep().then(...).catch(err => process.exit(-1))] *)
Definition main (params : Params.IParams) (w : W) : ProcessEnd * W :=
  match runStep params w with
  | (Ok (Resolved, lines), w') => (mkProcessEnd 0 lines, w')
  | (Ok (Exit code, lines), w') => (mkProcessEnd code lines, w')
  | (Throw _, w') => (mkProcessEnd (-1) [], w')
  end.

End WithHost.

End Index.

(* ================================================================== *)
(** ** The outcome of every checker in a run *)
(* ================================================================== *)

(** [runStep] does not keep the results of the checkers, it folds them into
    its tally as they arrive.  To speak about "the outcome of a checker" the
    calls of [runCheckers] are replayed here, in the same order and on the
    same worlds, and their results kept: [None] for a checker that is
    disabled, [Some (Throw e)] for one that threw. *)
Module Outcome.

Record Outcomes : Type := mkOutcomes {
  eslint : option (Result ESLint.ESLintResult);
  typeScript : option (Result TypeScript.TypeScriptResult);
  coverage : option (Result TypeScriptCoverage.TypeScriptCoverageResult)
}.

(** A checker passed: it is disabled, or it returned [success = true]. *)
Definition passed {R : Type} (success : R -> bool) (o : option (Result R)) : bool :=
  match o with
  | None => true
  | Some (Ok r) => success r
  | Some (Throw _) => false
  end.

Definition allPassed (o : Outcomes) : bool :=
  passed ESLint.success (eslint o)
  && passed TypeScript.success (typeScript o)
  && passed TypeScriptCoverage.success (coverage o).

(** The files the ESLint check hands over to the type check. *)
Definition handedOver (o : option (Result ESLint.ESLintResult)) : list string :=
  match o with
  | Some (Ok r) => ESLint.checkedFiles r
  | _ => []
  end.

(** What each outcome adds to the tally. *)
Definition recordESLint (o : option (Result ESLint.ESLintResult)) (t : Index.Tally)
    : Index.Tally :=
  match o with
  | None => Index.push "ESLint: 已禁用" t
  | Some (Ok r) => Index.onESLintResult r t
  | Some (Throw e) => Index.onESLintError e t
  end.

Definition recordTypeScript (o : option (Result TypeScript.TypeScriptResult))
    (t : Index.Tally) : Index.Tally :=
  match o with
  | None => Index.push "TypeScript: 已禁用" t
  | Some (Ok r) => Index.onTypeScriptResult r t
  | Some (Throw e) => Index.onTypeScriptError e t
  end.

Definition recordCoverage
    (o : option (Result TypeScriptCoverage.TypeScriptCoverageResult))
    (t : Index.Tally) : Index.Tally :=
  match o with
  | None => Index.push "TypeScript覆盖率: 已禁用" t
  | Some (Ok r) => Index.onCoverageResult r t
  | Some (Throw e) => Index.onCoverageError e t
  end.

(** The line of the summary block an outcome is reported with. *)
Definition entryOf (record : Index.Tally -> Index.Tally) : string :=
  last (Index.checkResults (record Index.initialTally)) "".

Definition eslintEntry (o : option (Result ESLint.ESLintResult)) : string :=
  entryOf (recordESLint o).

Definition typeScriptEntry (o : option (Result TypeScript.TypeScriptResult)) : string :=
  entryOf (recordTypeScript o).

Definition coverageEntry
    (o : option (Result TypeScriptCoverage.TypeScriptCoverageResult)) : string :=
  entryOf (recordCoverage o).

Definition entries (o : Outcomes) : list string :=
  [eslintEntry (eslint o); typeScriptEntry (typeScript o); coverageEntry (coverage o)].

(** No checker that ran reported an error: the same test as [allPassed],
    on the error counts of the two checkers that count. *)
Definition noErrors (o : Outcomes) : bool :=
  passed (fun r => (ESLint.errorCount r =? 0)%nat) (eslint o)
  && passed (fun r => (TypeScript.errorCount r =? 0)%nat) (typeScript o)
  && passed TypeScriptCoverage.success (coverage o).

Definition tallyOf (o : Outcomes) : Index.Tally :=
  recordCoverage (coverage o)
    (recordTypeScript (typeScript o)
       (recordESLint (eslint o) Index.initialTally)).

Section WithHost.
Context {W J : Type} (H : Host W J).

(** Run [m] if the checker is enabled. *)
Definition attempt {A : Type} (enabled : bool) (m : M W A) (w : W)
    : option (Result A) * W :=
  if enabled then let (r, w') := m w in (Some r, w') else (None, w).

Definition ofRun (params : Params.IParams) (w : W) : Outcomes * W :=
  let (o1, w1) :=
    attempt (Index.isTrue (Params.enableESLintCheck params))
      (ESLint.performESLintCheck H (Index.eslintConfigOf params)) w in
  let (o2, w2) :=
    attempt (Index.isTrue (Params.enableTypeScriptCheck params))
      (Index.typeScriptCall H params (handedOver o1)) w1 in
  let (o3, w3) :=
    attempt (Index.isTrue (Params.enableTypeScriptCoverageReport params))
      (TypeScriptCoverage.performTypeScriptCoverageCheck H
         (Index.coverageConfigOf H params)) w2 in
  (mkOutcomes o1 o2 o3, w3).

End WithHost.

End Outcome.

(* ================================================================== *)
(** ** A scripted host, for concrete runs *)
(* ================================================================== *)

(** A host whose answers are read from a table.  Its world is the journal
    of the commands that were started, oldest first, so a run shows which
    tools it called. *)
Module Scripted.

Record Scenario : Type := mkScenario {
  workTree : bool;                          (* [git rev-parse --git-dir] succeeds *)
  onDisk : list string;                     (* the paths that exist *)
  diffOutput : list string -> Result string;  (* [git diff], by arguments *)
  mergeLog : Result (option string);        (* the last first-parent merge *)
  parentLine : Result string;               (* [git show --pretty=format:%P] *)
  reachable : string -> bool;               (* [git cat-file -e] *)
  mergeBase : Result string;
  shellRun : string -> Result ExecaResult   (* a child process, by command line *)
}.

Definition sameArgs (a b : list string) : bool :=
  String.eqb (Js.join " " a) (Js.join " " b).

Definition notARepository : JsError := Error "fatal: not a git repository".

(** The answer of a git command: outside a work tree every one fails. *)
Definition inWorkTree {A : Type} (sc : Scenario) (answer : Result A) : Result A :=
  if workTree sc then answer else Throw notARepository.

Definition host (sc : Scenario) : Host (list string) unit :=
  mkHost
    (* simpleGit *) (fun _ _ => Ok tt)
    (* git_fetch *) (fun _ w => (inWorkTree sc (Ok tt), w ++ ["git fetch"])%list)
    (* git_diff *) (fun _ args _ => inWorkTree sc (diffOutput sc args))
    (* git_log_latest *) (fun _ _ _ => inWorkTree sc (mergeLog sc))
    (* git_show *) (fun _ _ _ => inWorkTree sc (parentLine sc))
    (* git_catFile *)
    (fun _ args _ =>
       inWorkTree sc
         (if reachable sc (nth 1 args "") then Ok ""
          else Throw (Error "fatal: Not a valid object name")))
    (* git_raw *) (fun _ _ _ => inWorkTree sc (mergeBase sc))
    (* existsSync *)
    (fun path _ => existsb (String.eqb path) (onDisk sc))
    (* readFileSync *) (fun _ _ => Ok "{}")
    (* writeFileSync *) (fun path _ w => (Ok tt, (w ++ [("write " ++ path)%string])%list))
    (* path_join *) (fun dir file => dir ++ "/" ++ file)
    (* execa *)
    (fun file args _ w =>
       let line := Js.join " " (file :: args) in
       (if String.eqb file "git" then
          if workTree sc then Ok (mkExecaResult ".git" ".git")
          else Throw (Exn.mkJsError "fatal: not a git repository" "" "" (Some 128%Z))
        else shellRun sc line,
        (w ++ [line])%list))
    (* chdir *) (fun _ w => (Ok tt, w))
    (* regExpReplaceAll *)
    (fun source subject replacement => Ok (Js.replaceAll source replacement subject))
    (* JSON_parse *) (fun _ => Ok tt)
    (* JSON_stringify *) (fun _ => "{}")
    (* lacksDevDependency *) (fun _ _ => Ok false)
    (* withTypeCoverage *) (fun j _ => Ok j)
    (* parseInt *) (fun s => Int (Z.of_nat (Js.parseDecimal s)))
    (* showNumber *)
    (fun n => match n with NaN => "NaN" | Int z => Js.ofZ z end).

(** A child process that fails with the given output and exit code 1. *)
Definition failing (out : string) : Result ExecaResult :=
  Throw (Exn.mkJsError "Command failed with exit code 1" out out (Some 1%Z)).

Definition passing : Result ExecaResult := Ok (mkExecaResult "" "").

Definition noSuchRevision : Result string :=
  Throw (Error "fatal: ambiguous argument: unknown revision or path not in the working tree.").

End Scripted.


(* ================================================================== *)
(** ** The preconditions of the branch-deploy traversal *)
(* ================================================================== *)

Section Traversal.

Context {W J : Type} (H : Host W J).

(** The last first-parent merge commit of the deploy branch, as
    [getEnvBranchChangedFiles] asks for it. *)
Definition lastMerge (config : ESLint.ESLintConfig) (w : W) : Result (option string) :=
  git_log_latest H (ESLint.projectDir config)
    ["--merges"; "--first-parent";
     Js.orElseOpt (ESLint.ciCommitRefName config) "develop"; "-n"; "1"] w.

(** The line of parent hashes of a commit. *)
Definition parentLineOf (config : ESLint.ESLintConfig) (commit : string) (w : W)
    : Result string :=
  git_show H (ESLint.projectDir config) [commit; "--pretty=format:%P"] w.

(** The ways in which the traversal stops before it has a diff: the three
    structural preconditions (no merge commit, fewer than two parents, second
    parent not reachable) and the failure of one of the git commands. *)
Inductive TraversalFails (config : ESLint.ESLintConfig) (w : W) : Prop :=
| NoMergeCommit :
    lastMerge config w = Ok None ->
    TraversalFails config w
| TooFewParents (mergeCommit show : string) :
    lastMerge config w = Ok (Some mergeCommit) ->
    parentLineOf config mergeCommit w = Ok show ->
    length (ESLint.parentsOf show) < 2 ->
    TraversalFails config w
| SecondParentUnreachable (mergeCommit show : string) (e : JsError) :
    lastMerge config w = Ok (Some mergeCommit) ->
    parentLineOf config mergeCommit w = Ok show ->
    2 <= length (ESLint.parentsOf show) ->
    git_catFile H (ESLint.projectDir config)
      ["-e"; nth 1 (ESLint.parentsOf show) ""] w = Throw e ->
    TraversalFails config w
| LogFails (e : JsError) :
    lastMerge config w = Throw e ->
    TraversalFails config w
| ShowFails (mergeCommit : string) (e : JsError) :
    lastMerge config w = Ok (Some mergeCommit) ->
    parentLineOf config mergeCommit w = Throw e ->
    TraversalFails config w
| MergeBaseFails (mergeCommit show found : string) (e : JsError) :
    lastMerge config w = Ok (Some mergeCommit) ->
    parentLineOf config mergeCommit w = Ok show ->
    2 <= length (ESLint.parentsOf show) ->
    git_catFile H (ESLint.projectDir config)
      ["-e"; nth 1 (ESLint.parentsOf show) ""] w = Ok found ->
    git_raw H (ESLint.projectDir config)
      ["merge-base"; "origin/" ++ Js.orElse (ESLint.targetBranch config) "master";
       nth 1 (ESLint.parentsOf show) ""] w = Throw e ->
    TraversalFails config w
| DiffFails (mergeCommit show found initialBase : string) (e : JsError) :
    lastMerge config w = Ok (Some mergeCommit) ->
    parentLineOf config mergeCommit w = Ok show ->
    2 <= length (ESLint.parentsOf show) ->
    git_catFile H (ESLint.projectDir config)
      ["-e"; nth 1 (ESLint.parentsOf show) ""] w = Ok found ->
    git_raw H (ESLint.projectDir config)
      ["merge-base"; "origin/" ++ Js.orElse (ESLint.targetBranch config) "master";
       nth 1 (ESLint.parentsOf show) ""] w = Ok initialBase ->
    git_diff H (ESLint.projectDir config)
      ["--name-only"; Js.trim initialBase; nth 1 (ESLint.parentsOf show) ""] w
      = Throw e ->
    TraversalFails config w.

End Traversal.

(* ================================================================== *)
(** ** The command line of the ESLint run *)
(* ================================================================== *)



(* ================================================================== *)
(** ** Notions used to state the properties of the other functions *)
(* ================================================================== *)

(** The command the coverage check measures with, by package manager. *)
Definition coverageCommandOf (packageManager : Util.PackageManager) : list string :=
  match packageManager with
  | Util.pnpm => ["pnpm"; "ts-coverage"]
  | Util.yarn => ["yarn"; "ts-coverage"]
  | Util.npm => ["npm"; "run"; "ts-coverage"]
  end.

(** The command line of the whole-project type check. *)
Definition fullTypeCheckCommand : string :=
  "npx tsc --noEmit --skipLibCheck --project tsconfig.json".


(** The environment [params] with another source branch and another
    [GIT_BRANCH]. *)
Definition withSourceBranch (sourceBranch gitBranch : option string)
    (params : Params.IParams) : Params.IParams :=
  Params.mkIParams
    (Params.pipelineID params) (Params.pipelineName params) (Params.buildNumber params)
    (Params.workSpace params) (Params.projectDir params) (Params.buildJobID params)
    (Params.userScript params) (Params.enableESLintCheck params)
    sourceBranch
    (Params.targetBranch params) (Params.fullCheckMode params)
    (Params.checkDirectories params) (Params.enableTypeScriptCheck params)
    (Params.fullTypeScriptCheckMode params) (Params.envBranchDeployMode params)
    (Params.ciCommitRefName params)
    gitBranch
    (Params.enableTypeScriptCoverageReport params)
    (Params.typeScriptCoverageThreshold params).

(** The errors and warnings of an outcome that returned; a checker that is
    disabled or that threw has none. *)
Definition countedOf {R : Type} (count : R -> nat) (o : option (Result R)) : nat :=
  match o with
  | Some (Ok r) => count r
  | _ => 0
  end.

(** The user script is blank: not given, empty or white space only. *)
Definition blankScript (userScript : option string) : Prop :=
  match userScript with
  | None => True
  | Some script => Js.trim script = ""
  end.

(** A string has no white space at either end. *)
Definition trimmed (s : string) : Prop := Js.trimStart s = s /\ Js.trimEnd s = s.

(** A string does not contain the character [c]. *)
Definition without (c : ascii) (s : string) : Prop :=
  forall a b : string, s <> a ++ String c b.

(** A string of decimal digits, not empty. *)
Definition isNumeral (s : string) : Prop :=
  s <> "" /\ Js.dropDigits s = "".

(* ================================================================== *)
(** ** Concrete scenarios *)
(* ================================================================== *)

Module Scenarios.

Import Scripted.

(** A deploy branch whose last merge [m1] has the parents [a1] (mainline
    side) and [b2] (the tip of the merged feature branch); the feature
    branch left the mainline at [c0].  The answers are those of git: the
    line of parents and the merge base end in a line break, and a name is an
    object only as git knows it, without anything added. *)
Definition merged : Scenario :=
  mkScenario true ["/w/p/src/a.ts"; "/w/p/tsconfig.json"]
    (fun args =>
       if sameArgs args ["--name-only"; "c0"; "b2"]
       then Ok ("src/a.ts" ++ String Js.LF ("docs/readme.md" ++ String Js.LF ""))
       else noSuchRevision)
    (Ok (Some "m1")) (Ok ("a1 b2" ++ String Js.LF ""))
    (fun name => existsb (String.eqb name) ["a1"; "b2"; "c0"; "m1"])
    (Ok ("c0" ++ String Js.LF ""))
    (fun _ => passing).

(** A deploy branch without any merge commit.  The diff of the target
    branch against [HEAD] lists one file; [origin/] names no revision. *)
Definition noMerge : Scenario :=
  mkScenario true ["/w/p/src/a.ts"; "/w/p/tsconfig.json"]
    (fun args =>
       if sameArgs args ["--name-only"; "origin/master"; "HEAD"]
       then Ok "src/a.ts"
       else noSuchRevision)
    (Ok None) (Ok "") (fun _ => true) noSuchRevision
    (fun _ => passing).

(** Outside any git work tree.  The project has a tsconfig.json and
    every tool passes. *)
Definition notGit : Scenario :=
  mkScenario false ["/w/p/src/a.ts"; "/w/p/tsconfig.json"]
    (fun _ => noSuchRevision) (Ok None) (Ok "") (fun _ => false) noSuchRevision
    (fun _ => passing).

(** A project without tsconfig.json; [src/a.js] changed on the branch
    [feature]. *)
Definition noTsconfig : Scenario :=
  mkScenario true ["/w/p/src/a.js"; "/w/p/package.json"]
    (fun args =>
       if sameArgs args ["--name-only"; "origin/master"; "origin/feature"]
       then Ok "src/a.js"
       else noSuchRevision)
    (Ok None) (Ok "") (fun _ => true) noSuchRevision
    (fun _ => passing).

(** [src/a.ts] changed on the branch [feature]; every tool exits with code
    1 and the given output. *)
Definition toolsFail (out : string) : Scenario :=
  mkScenario true ["/w/p/src/a.ts"; "/w/p/tsconfig.json"]
    (fun args =>
       if sameArgs args ["--name-only"; "origin/master"; "origin/feature"]
       then Ok "src/a.ts"
       else noSuchRevision)
    (Ok None) (Ok "") (fun _ => true) noSuchRevision
    (fun _ => failing out).

(** One finding of ESLint in the compact format, a warning. *)
Definition oneWarning : string :=
  "/w/p/src/a.ts: line 4, col 1, Warning - Unexpected console statement. (no-console)".

(** An output that is not in the compact format but carries the marker of
    an error. *)
Definition looseError : string := "Oops! Error - something went wrong".



(** Two files changed on the branch [feature]: [src/a.ts] and a file whose
    name is the same behind a space at its front.  Git lists the second one
    first and as it is; the resolver trims the output as a whole, so the
    space goes and the same path is read twice. *)
Definition listedTwice : Scenario :=
  mkScenario true ["/w/p/src/a.ts"; "/w/p/ src/a.ts"; "/w/p/tsconfig.json"]
    (fun args =>
       if sameArgs args ["--name-only"; "origin/master"; "origin/feature"]
       then Ok (" src/a.ts" ++ String Js.LF ("src/a.ts" ++ String Js.LF ""))
       else noSuchRevision)
    (Ok None) (Ok "") (fun _ => true) noSuchRevision
    (fun _ => passing).

(** A project with tsconfig.json and package.json, in which every tool
    passes. *)
Definition covered : Scenario :=
  mkScenario true ["/w/p/src/a.ts"; "/w/p/tsconfig.json"; "/w/p/package.json"]
    (fun args =>
       if sameArgs args ["--name-only"; "origin/master"; "origin/feature"]
       then Ok "src/a.ts"
       else noSuchRevision)
    (Ok None) (Ok "") (fun _ => true) noSuchRevision
    (fun _ => passing).

Definition directConfig : ESLint.ESLintConfig :=
  ESLint.mkESLintConfig true "feature" "master" false "/w" "/w/p" ["src"] false None.

(** The environment of a run: which checkers are enabled, whether the
    type check covers the whole project, and the build script. *)
Definition paramsOf (eslint typeScript coverage fullTypeScript : bool)
    (userScript : option string) : Params.IParams :=
  let flag (b : bool) := if b then Some "true" else None in
  Params.mkIParams NaN "pipeline" None "/w" "/w/p" NaN
    userScript
    (flag eslint) (Some "feature") (Some "master") None (Some "src")
    (flag typeScript) (flag fullTypeScript)
    None None None
    (flag coverage) None.

Definition deployConfig : ESLint.ESLintConfig :=
  ESLint.mkESLintConfig true "" "master" false "/w" "/w/p" ["src"] true (Some "deploy").

Definition typeScriptConfig : TypeScript.TypeScriptConfig :=
  TypeScript.mkTypeScriptConfig "/w/p" [] false ["src"] "" "master".

(** The type check of the whole project. *)
Definition fullTypeScriptConfig : TypeScript.TypeScriptConfig :=
  TypeScript.mkTypeScriptConfig "/w/p" [] true ["src"] "" "master".

(** The environment of a run in branch-deploy mode on the branch
    [deploy], with the ESLint check and the type check enabled. *)
Definition deployParams : Params.IParams :=
  Params.mkIParams NaN "pipeline" None "/w" "/w/p" NaN
    None
    (Some "true") (Some "feature") (Some "master") None (Some "src")
    (Some "true") None
    (Some "true") (Some "deploy") None
    None None.

(** The environment of a run with the lint check on the whole project and
    the type check on the changed files. *)
Definition fullLintParams : Params.IParams :=
  Params.mkIParams NaN "pipeline" None "/w" "/w/p" NaN
    None
    (Some "true") (Some "feature") (Some "master") (Some "true") (Some "src")
    (Some "true") None
    None None None
    None None.

(** A project in which the measurement of the type coverage ends below the
    threshold: [ts-coverage] exits with code 1 and says so, every other
    command passes. *)
Definition belowThreshold : Scenario :=
  mkScenario true ["/w/p/src/a.ts"; "/w/p/tsconfig.json"; "/w/p/package.json"]
    (fun _ => noSuchRevision) (Ok None) (Ok "") (fun _ => true) noSuchRevision
    (fun line =>
       if String.eqb line "npm run ts-coverage"
       then failing "The type coverage 81.20% is lower than the threshold 90%"
       else passing).

(** What [tsc] prints when the shell does not find it. *)
Definition toolMissing : string := "sh: 1: tsc: not found".

End Scenarios.

(* ================================================================== *)
(** ** Properties of the change-set resolver *)
(* ================================================================== *)

Section Resolver.

Context {W J : Type} (H : Host W J).

(** Direct resolution never throws: its [catch] turns every failure into
    the empty list. *)
Lemma eslint_getChangedFiles_total (config : ESLint.ESLintConfig) (w : W) :
  exists files w', ESLint.getChangedFiles H config w = (Ok files, w').
Proof.
  unfold ESLint.getChangedFiles, tryCatch, bind, query, ret.
  destruct (simpleGit H (ESLint.projectDir config) w) as [[]|e]; [|eauto].
  destruct (git_fetch H (ESLint.projectDir config) w) as [[[]|e] w1]; [|eauto].
  destruct (git_diff H _ _ w1) as [d|e]; eauto.
Qed.

Lemma typescript_getChangedFiles_total (config : TypeScript.TypeScriptConfig) (w : W) :
  exists files w', TypeScript.getChangedFiles H config w = (Ok files, w').
Proof.
  unfold TypeScript.getChangedFiles, tryCatch, bind, query, ret.
  destruct (simpleGit H (TypeScript.projectDir config) w) as [[]|e]; [|eauto].
  destruct (git_fetch H (TypeScript.projectDir config) w) as [[[]|e] w1]; [|eauto].
  destruct (Js.nonEmpty (TypeScript.sourceBranch config));
    destruct (git_diff H _ _ w1) as [d|e]; eauto.
Qed.

(** The path [getEnvBranchChangedFiles] is written to take: when the last
    first-parent merge commit of the deploy branch has two parents and the
    name read for the second one, [devEnd], is an object, the resolver
    returns the lines of
    [git diff --name-only <merge-base(origin/mainline, devEnd)> <devEnd>].
    The name is taken from the line of parents as it stands. *)
Lemma traversal_divergence_diff
    (config : ESLint.ESLintConfig) (w : W)
    (mergeCommit show mainlineTip devEnd found initialBase diff : string) :
  let dir := ESLint.projectDir config in
  let deployBranch := Js.orElseOpt (ESLint.ciCommitRefName config) "develop" in
  let mainline := Js.orElse (ESLint.targetBranch config) "master" in
  simpleGit H dir w = Ok tt ->
  git_log_latest H dir ["--merges"; "--first-parent"; deployBranch; "-n"; "1"] w
    = Ok (Some mergeCommit) ->
  git_show H dir [mergeCommit; "--pretty=format:%P"] w = Ok show ->
  ESLint.parentsOf show = [mainlineTip; devEnd] ->
  git_catFile H dir ["-e"; devEnd] w = Ok found ->
  git_raw H dir ["merge-base"; "origin/" ++ mainline; devEnd] w = Ok initialBase ->
  git_diff H dir ["--name-only"; Js.trim initialBase; devEnd] w = Ok diff ->
  ESLint.getEnvBranchChangedFiles H config w = (Ok (nameOnlyLines diff), w).
Proof.
  intros dir deployBranch mainline Hgit Hlog Hshow Hparents Hcat Hbase Hdiff.
  unfold ESLint.getEnvBranchChangedFiles, tryCatch, bind, query, ret.
  fold dir deployBranch mainline.
  rewrite Hgit, Hlog, Hshow, Hparents.
  cbn [length Nat.ltb Nat.leb nth].
  rewrite Hcat, Hbase, Hdiff.
  reflexivity.
Qed.

End Resolver.

(** C1, on the scenario [merged].  The last first-parent merge [m1] of the
    deploy branch has the two parents [a1] and [b2], [b2] is an object, it
    left the mainline at [c0], and the diff of [c0] against [b2] lists
    [src/a.ts] and [docs/readme.md].  Git prints the line of parents with a
    line break at its end.  The resolver splits the line at the spaces and
    does not trim the pieces (the merge base it does trim), so the second
    parent it asks for is [b2] followed by a line break, which is no object:
    the traversal stops there and the resolver returns what the direct
    resolver returns, here the empty list, not the two files. *)
Theorem C1_branch_deploy_misses_divergence_diff :
  let host := Scripted.host Scenarios.merged in
  let config := Scenarios.deployConfig in
  let parentLine := "a1 b2" ++ String Js.LF "" in
  let diff := "src/a.ts" ++ String Js.LF ("docs/readme.md" ++ String Js.LF "") in
  lastMerge host config [] = Ok (Some "m1") /\
  parentLineOf host config "m1" [] = Ok parentLine /\
  git_catFile host "/w/p" ["-e"; "b2"] [] = Ok "" /\
  git_raw host "/w/p" ["merge-base"; "origin/master"; "b2"] []
    = Ok ("c0" ++ String Js.LF "") /\
  git_diff host "/w/p" ["--name-only"; "c0"; "b2"] [] = Ok diff /\
  nameOnlyLines diff = ["src/a.ts"; "docs/readme.md"] /\
  ESLint.parentsOf parentLine = ["a1"; "b2" ++ String Js.LF ""] /\
  git_catFile host "/w/p" ["-e"; "b2" ++ String Js.LF ""] []
    = Throw (Error "fatal: Not a valid object name") /\
  ESLint.getEnvBranchChangedFiles host config []
    = ESLint.getChangedFiles host config [] /\
  ESLint.getEnvBranchChangedFiles host config [] = (Ok [], ["git fetch"]).
Proof. repeat split; reflexivity. Qed.

Section Fallback.

Context {W J : Type} (H : Host W J).

(** When simple-git cannot be set up both resolvers end in their [catch]
    with the empty list. *)
Lemma resolvers_without_git (config : ESLint.ESLintConfig) (w : W) (e : JsError) :
  simpleGit H (ESLint.projectDir config) w = Throw e ->
  ESLint.getEnvBranchChangedFiles H config w = (Ok [], w) /\
  ESLint.getChangedFiles H config w = (Ok [], w).
Proof.
  intros Hgit.
  unfold ESLint.getEnvBranchChangedFiles, ESLint.getChangedFiles,
    tryCatch, bind, query, ret.
  rewrite Hgit. split; reflexivity.
Qed.

(** C2. In branch-deploy mode, when a precondition of the traversal fails
    (no first-parent merge commit on the deploy branch, a merge commit with
    fewer than two parents, a second parent that is not a reachable object,
    or a git command of the traversal that fails), the resolver returns what
    direct resolution [getChangedFiles] returns for the same configuration,
    and leaves the world as direct resolution leaves it. *)
Theorem C2_branch_deploy_fallback (config : ESLint.ESLintConfig) (w : W) :
  TraversalFails H config w ->
  ESLint.getEnvBranchChangedFiles H config w = ESLint.getChangedFiles H config w.
Proof.
  intros Hfail.
  destruct (simpleGit H (ESLint.projectDir config) w) as [[]|e0] eqn:Hgit.
  2:{ destruct (resolvers_without_git config w e0 Hgit) as [-> ->]. reflexivity. }
  destruct (eslint_getChangedFiles_total H config w) as (files & w' & Hdirect).
  rewrite Hdirect.
  unfold lastMerge, parentLineOf in *.
  unfold ESLint.getEnvBranchChangedFiles, tryCatch, bind, query, ret.
  rewrite Hgit.
  destruct Hfail as
    [ Hlog
    | m show Hlog Hshow Hfew
    | m show e Hlog Hshow Htwo Hcat
    | e Hlog
    | m e Hlog Hshow
    | m show found e Hlog Hshow Htwo Hcat Hbase
    | m show found base e Hlog Hshow Htwo Hcat Hbase Hdiff ];
    unfold lastMerge, parentLineOf in *; rewrite Hlog.
  - rewrite Hdirect. reflexivity.
  - rewrite Hshow.
    destruct (Nat.ltb_spec (length (ESLint.parentsOf show)) 2) as [_|Hge]; [|lia].
    rewrite Hdirect. reflexivity.
  - rewrite Hshow.
    destruct (Nat.ltb_spec (length (ESLint.parentsOf show)) 2) as [Hlt|_]; [lia|].
    rewrite Hcat, Hdirect. reflexivity.
  - rewrite Hdirect. reflexivity.
  - rewrite Hshow, Hdirect. reflexivity.
  - rewrite Hshow.
    destruct (Nat.ltb_spec (length (ESLint.parentsOf show)) 2) as [Hlt|_]; [lia|].
    rewrite Hcat, Hbase, Hdirect. reflexivity.
  - rewrite Hshow.
    destruct (Nat.ltb_spec (length (ESLint.parentsOf show)) 2) as [Hlt|_]; [lia|].
    rewrite Hcat, Hbase, Hdiff, Hdirect. reflexivity.
Qed.

End Fallback.

(** A run of C2 on the scenario [noMerge]: no merge commit on the deploy
    branch. *)
Lemma C2_witness :
  ESLint.getEnvBranchChangedFiles (Scripted.host Scenarios.noMerge)
    Scenarios.deployConfig []
  = ESLint.getChangedFiles (Scripted.host Scenarios.noMerge) Scenarios.deployConfig [].
Proof.
  apply (C2_branch_deploy_fallback (Scripted.host Scenarios.noMerge)
           Scenarios.deployConfig []).
  apply NoMergeCommit. reflexivity.
Defined.

Section DirectMode.

Context {W J : Type} (H : Host W J).

(** Direct resolution in src/typescript.ts: the diff of the target ref
    against the configured source ref, and against [HEAD] when the source
    branch is empty. *)
Lemma typescript_getChangedFiles_direct
    (config : TypeScript.TypeScriptConfig) (w w1 : W) (diff : string) :
  let dir := TypeScript.projectDir config in
  let other :=
    if Js.nonEmpty (TypeScript.sourceBranch config)
    then "origin/" ++ TypeScript.sourceBranch config
    else "HEAD" in
  simpleGit H dir w = Ok tt ->
  git_fetch H dir w = (Ok tt, w1) ->
  git_diff H dir ["--name-only"; "origin/" ++ TypeScript.targetBranch config; other] w1
    = Ok diff ->
  TypeScript.getChangedFiles H config w = (Ok (nameOnlyLines diff), w1).
Proof.
  intros dir other Hgit Hfetch Hdiff.
  unfold TypeScript.getChangedFiles, tryCatch, bind, query, ret.
  fold dir. rewrite Hgit, Hfetch.
  subst other.
  destruct (Js.nonEmpty (TypeScript.sourceBranch config)); rewrite Hdiff; reflexivity.
Qed.

(** Direct resolution in src/eslint.ts: always the diff of the target ref
    against [origin/<sourceBranch>]; with an empty source branch the second
    ref is the string [origin/], [HEAD] is never asked for. *)
Lemma eslint_getChangedFiles_direct
    (config : ESLint.ESLintConfig) (w w1 : W) :
  let dir := ESLint.projectDir config in
  simpleGit H dir w = Ok tt ->
  git_fetch H dir w = (Ok tt, w1) ->
  ESLint.getChangedFiles H config w =
  match git_diff H dir
          ["--name-only";
           "origin/" ++ ESLint.targetBranch config;
           "origin/" ++ ESLint.sourceBranch config] w1 with
  | Ok diff => (Ok (nameOnlyLines diff), w1)
  | Throw _ => (Ok [], w1)
  end.
Proof.
  intros dir Hgit Hfetch.
  unfold ESLint.getChangedFiles, tryCatch, bind, query, ret.
  fold dir. rewrite Hgit, Hfetch.
  destruct (git_diff H dir _ w1); reflexivity.
Qed.

End DirectMode.

(** C3, on the scenario [noMerge] with an empty source branch (what
    [runStep] passes in branch-deploy mode and when no current branch is
    known).  The diff of [origin/master] against [HEAD] lists [src/a.ts].
    The resolver of src/typescript.ts returns it.  The resolver of
    src/eslint.ts, the one branch-deploy mode falls back to, asks for the
    diff against [origin/], which names no revision, and returns the empty
    list. *)
Theorem C3_eslint_empty_source_is_not_HEAD :
  ESLint.sourceBranch Scenarios.deployConfig = "" /\
  git_diff (Scripted.host Scenarios.noMerge) "/w/p"
    ["--name-only"; "origin/master"; "HEAD"] ["git fetch"] = Ok "src/a.ts" /\
  TypeScript.getChangedFiles (Scripted.host Scenarios.noMerge)
    Scenarios.typeScriptConfig [] = (Ok ["src/a.ts"], ["git fetch"]) /\
  ESLint.getChangedFiles (Scripted.host Scenarios.noMerge)
    Scenarios.deployConfig [] = (Ok [], ["git fetch"]) /\
  ESLint.getEnvBranchChangedFiles (Scripted.host Scenarios.noMerge)
    Scenarios.deployConfig [] = (Ok [], ["git fetch"]).
Proof. repeat split; reflexivity. Qed.

(* ================================================================== *)
(** ** Properties of the checkers *)
(* ================================================================== *)

(** Case analysis along the control flow of a run: the innermost scrutinee
    first, until the goal has no [match] left. *)
Ltac innermost x :=
  lazymatch x with
  | context [match ?y with _ => _ end] => innermost y
  | _ => destruct x eqn:?
  end.

Ltac along_the_run :=
  repeat
    match goal with
    | |- context [match ?x with _ => _ end] => innermost x
    end.

(** The end of such a run: the result is read off the equation. *)
Ltac read_result :=
  let Hrun := fresh "Hrun" in
  intros Hrun; try discriminate Hrun; inversion Hrun; subst; clear Hrun.

Section Checkers.

Context {W J : Type} (H : Host W J).

(** Every result of [runESLintCheck], the one of the [catch] branch (the
    tool exited non-zero) included, has [success] exactly when it has no
    error. *)
Lemma runESLintCheck_success
    (files : list string) (projectDir : string) (isFullCheck : bool)
    (w w' : W) (r : ESLint.ESLintResult) :
  ESLint.runESLintCheck H files projectDir isFullCheck w = (Ok r, w') ->
  ESLint.success r = (ESLint.errorCount r =? 0)%nat.
Proof.
  unfold ESLint.runESLintCheck, tryCatch, bind, ret.
  along_the_run; read_result; reflexivity.
Qed.

Lemma performESLintCheck_success
    (config : ESLint.ESLintConfig) (w w' : W) (r : ESLint.ESLintResult) :
  ESLint.performESLintCheck H config w = (Ok r, w') ->
  ESLint.success r = (ESLint.errorCount r =? 0)%nat.
Proof.
  unfold ESLint.performESLintCheck.
  destruct (ESLint.enableCheck config); cbn [negb].
  2:{ unfold ret. intros Hrun. inversion Hrun. reflexivity. }
  unfold bind at 1.
  destruct (tryCatch _ _ w) as [[[]|e] w1]; [|discriminate].
  unfold bind at 1. unfold observe at 1.
  destruct (ESLint.fullCheckMode config).
  - apply runESLintCheck_success.
  - unfold bind at 1.
    destruct ((if ESLint.envBranchDeployMode config
               then ESLint.getEnvBranchChangedFiles H config
               else ESLint.getChangedFiles H config) w1) as [[changed|e] w2];
      [|discriminate].
    unfold bind at 1. unfold observe at 1.
    destruct (ESLint.filterFrontendFiles H changed _ _ w2) as [|f fs] eqn:Hfiltered.
    + unfold ret. intros Hrun. inversion Hrun. reflexivity.
    + apply runESLintCheck_success.
Qed.

Lemma runTypeScriptCheck_success
    (config : TypeScript.TypeScriptConfig) (w w' : W) (r : TypeScript.TypeScriptResult) :
  TypeScript.runTypeScriptCheck H config w = (Ok r, w') ->
  TypeScript.success r = (TypeScript.errorCount r =? 0)%nat.
Proof.
  unfold TypeScript.runTypeScriptCheck, tryCatch, bind, ret, lift, observe.
  along_the_run; read_result; reflexivity.
Qed.

(** C5. Every outcome returned by the ESLint check and by the TypeScript
    check, whichever branch produced it (disabled, nothing to check, the
    tool passed, the tool exited non-zero and its output was parsed), has
    [success = (errorCount == 0)]; in particular an outcome without errors
    is successful whatever its warning count. *)
Theorem C5_success_iff_no_errors :
  (forall (config : ESLint.ESLintConfig) (w w' : W) (r : ESLint.ESLintResult),
      ESLint.performESLintCheck H config w = (Ok r, w') ->
      ESLint.success r = (ESLint.errorCount r =? 0)%nat /\
      (ESLint.errorCount r = 0 -> ESLint.success r = true)) /\
  (forall (projectDir : string) (files : list string) (fullCheck : bool)
          (checkDirectories : list string) (sourceBranch targetBranch : string)
          (w w' : W) (r : TypeScript.TypeScriptResult),
      TypeScript.performTypeScriptCheck H projectDir files fullCheck checkDirectories
        sourceBranch targetBranch w = (Ok r, w') ->
      TypeScript.success r = (TypeScript.errorCount r =? 0)%nat /\
      (TypeScript.errorCount r = 0 -> TypeScript.success r = true)).
Proof.
  split.
  - intros config w w' r Hrun.
    pose proof (performESLintCheck_success config w w' r Hrun) as Hs.
    split; [exact Hs|]. intros H0. rewrite Hs, H0. reflexivity.
  - intros projectDir files fullCheck checkDirectories sourceBranch targetBranch w w' r Hrun.
    pose proof (runTypeScriptCheck_success _ w w' r Hrun) as Hs.
    split; [exact Hs|]. intros H0. rewrite Hs, H0. reflexivity.
Qed.

End Checkers.

(* ================================================================== *)
(** ** Properties of the orchestrator *)
(* ================================================================== *)

Section Tally.

(** Each checker adds exactly one line to the summary. *)
Lemma recordESLint_entry (o : option (Result ESLint.ESLintResult)) (t : Index.Tally) :
  Index.checkResults (Outcome.recordESLint o t)
  = (Index.checkResults t ++ [Outcome.eslintEntry o])%list.
Proof.
  destruct o as [[r|e]|]; unfold Outcome.eslintEntry, Outcome.entryOf; cbn;
    try reflexivity.
  unfold Index.onESLintResult. destruct (ESLint.success r); reflexivity.
Qed.

Lemma recordTypeScript_entry (o : option (Result TypeScript.TypeScriptResult))
    (t : Index.Tally) :
  Index.checkResults (Outcome.recordTypeScript o t)
  = (Index.checkResults t ++ [Outcome.typeScriptEntry o])%list.
Proof.
  destruct o as [[r|e]|]; unfold Outcome.typeScriptEntry, Outcome.entryOf; cbn;
    try reflexivity.
  unfold Index.onTypeScriptResult.
  destruct (TypeScript.success r); [destruct (TypeScript.checkedFiles r =? 0)%Z|];
    reflexivity.
Qed.

Lemma recordCoverage_entry
    (o : option (Result TypeScriptCoverage.TypeScriptCoverageResult)) (t : Index.Tally) :
  Index.checkResults (Outcome.recordCoverage o t)
  = (Index.checkResults t ++ [Outcome.coverageEntry o])%list.
Proof.
  destruct o as [[r|e]|]; unfold Outcome.coverageEntry, Outcome.entryOf; cbn;
    try reflexivity.
  unfold Index.onCoverageResult. destruct (TypeScriptCoverage.success r); reflexivity.
Qed.

Lemma tally_checkResults (o : Outcome.Outcomes) :
  Index.checkResults (Outcome.tallyOf o) = Outcome.entries o.
Proof.
  unfold Outcome.tallyOf, Outcome.entries.
  rewrite recordCoverage_entry, recordTypeScript_entry, recordESLint_entry.
  reflexivity.
Qed.

(** A checker raises [hasErrors] exactly when it did not pass, and no step
    ever lowers it. *)
Lemma recordESLint_hasErrors (o : option (Result ESLint.ESLintResult)) (t : Index.Tally) :
  Index.hasErrors (Outcome.recordESLint o t)
  = Index.hasErrors t || negb (Outcome.passed ESLint.success o).
Proof.
  destruct o as [[r|e]|]; cbn.
  - unfold Index.onESLintResult. destruct (ESLint.success r); cbn;
      [rewrite orb_false_r|rewrite orb_true_r]; reflexivity.
  - rewrite orb_true_r. reflexivity.
  - rewrite orb_false_r. reflexivity.
Qed.

Lemma recordTypeScript_hasErrors (o : option (Result TypeScript.TypeScriptResult))
    (t : Index.Tally) :
  Index.hasErrors (Outcome.recordTypeScript o t)
  = Index.hasErrors t || negb (Outcome.passed TypeScript.success o).
Proof.
  destruct o as [[r|e]|]; cbn.
  - unfold Index.onTypeScriptResult.
    destruct (TypeScript.success r); [destruct (TypeScript.checkedFiles r =? 0)%Z|]; cbn;
      try rewrite orb_false_r; try rewrite orb_true_r; reflexivity.
  - rewrite orb_true_r. reflexivity.
  - rewrite orb_false_r. reflexivity.
Qed.

Lemma recordCoverage_hasErrors
    (o : option (Result TypeScriptCoverage.TypeScriptCoverageResult)) (t : Index.Tally) :
  Index.hasErrors (Outcome.recordCoverage o t)
  = Index.hasErrors t || negb (Outcome.passed TypeScriptCoverage.success o).
Proof.
  destruct o as [[r|e]|]; cbn.
  - unfold Index.onCoverageResult. destruct (TypeScriptCoverage.success r); cbn;
      [rewrite orb_false_r|rewrite orb_true_r]; reflexivity.
  - rewrite orb_true_r. reflexivity.
  - rewrite orb_false_r. reflexivity.
Qed.

Lemma tally_hasErrors (o : Outcome.Outcomes) :
  Index.hasErrors (Outcome.tallyOf o) = negb (Outcome.allPassed o).
Proof.
  unfold Outcome.tallyOf, Outcome.allPassed.
  rewrite recordCoverage_hasErrors, recordTypeScript_hasErrors, recordESLint_hasErrors.
  cbn [Index.hasErrors Index.initialTally orb].
  rewrite !negb_andb. reflexivity.
Qed.

Lemma recordESLint_checkedFiles (o : option (Result ESLint.ESLintResult)) :
  Index.checkedFiles (Outcome.recordESLint o Index.initialTally) = Outcome.handedOver o.
Proof.
  destruct o as [[r|e]|]; cbn; try reflexivity.
  unfold Index.onESLintResult. destruct (ESLint.success r); reflexivity.
Qed.

End Tally.

Section Orchestrator.

Context {W J : Type} (H : Host W J).

Lemma eslintStep_outcome (params : Params.IParams) (t : Index.Tally) (w : W) :
  Index.eslintStep H params t w =
  let (o, w') :=
    Outcome.attempt (Index.isTrue (Params.enableESLintCheck params))
      (ESLint.performESLintCheck H (Index.eslintConfigOf params)) w in
  (Ok (Outcome.recordESLint o t), w').
Proof.
  unfold Index.eslintStep, Outcome.attempt, tryCatch, bind, ret.
  destruct (Index.isTrue (Params.enableESLintCheck params)); [|reflexivity].
  destruct (ESLint.performESLintCheck H _ w) as [[r|e] w']; reflexivity.
Qed.

Lemma typeScriptStep_outcome (params : Params.IParams) (t : Index.Tally) (w : W) :
  Index.typeScriptStep H params t w =
  let (o, w') :=
    Outcome.attempt (Index.isTrue (Params.enableTypeScriptCheck params))
      (Index.typeScriptCall H params (Index.checkedFiles t)) w in
  (Ok (Outcome.recordTypeScript o t), w').
Proof.
  unfold Index.typeScriptStep, Outcome.attempt, tryCatch, bind, ret.
  destruct (Index.isTrue (Params.enableTypeScriptCheck params)); [|reflexivity].
  destruct (Index.typeScriptCall H params _ w) as [[r|e] w']; reflexivity.
Qed.

Lemma coverageStep_outcome (params : Params.IParams) (t : Index.Tally) (w : W) :
  Index.coverageStep H params t w =
  let (o, w') :=
    Outcome.attempt (Index.isTrue (Params.enableTypeScriptCoverageReport params))
      (TypeScriptCoverage.performTypeScriptCoverageCheck H
         (Index.coverageConfigOf H params)) w in
  (Ok (Outcome.recordCoverage o t), w').
Proof.
  unfold Index.coverageStep, Outcome.attempt, tryCatch, bind, ret.
  destruct (Index.isTrue (Params.enableTypeScriptCoverageReport params)); [|reflexivity].
  destruct (TypeScriptCoverage.performTypeScriptCoverageCheck H _ w) as [[r|e] w'];
    reflexivity.
Qed.

(** The tally of [runCheckers] is the fold of the outcomes of its three
    calls: the checkers never make [runCheckers] throw, and each one runs on
    the world the one before it left. *)
Lemma runCheckers_outcomes (params : Params.IParams) (w : W) :
  Index.runCheckers H params w =
  let (o, w') := Outcome.ofRun H params w in (Ok (Outcome.tallyOf o), w').
Proof.
  unfold Index.runCheckers, Outcome.ofRun, Outcome.tallyOf.
  unfold bind at 1. rewrite eslintStep_outcome.
  destruct (Outcome.attempt _ (ESLint.performESLintCheck H _) w) as [o1 w1].
  unfold bind at 1. rewrite typeScriptStep_outcome.
  rewrite recordESLint_checkedFiles.
  destruct (Outcome.attempt _ (Index.typeScriptCall H params _) w1) as [o2 w2].
  rewrite coverageStep_outcome.
  destruct (Outcome.attempt _ _ w2) as [o3 w3].
  reflexivity.
Qed.

(** What the process does once the build phase is over. *)
Lemma main_after_build (params : Params.IParams) (w w1 w2 : W) :
  chdir H (Params.projectDir params) w = (Ok tt, w1) ->
  Util.runUserScript H (Index.projectDirOf params) (Params.userScript params) w1
    = (Ok tt, w2) ->
  Index.main H params w =
  let (o, w3) := Outcome.ofRun H params w2 in
  (Index.mkProcessEnd (if Outcome.allPassed o then 0%Z else 1%Z) (Outcome.entries o), w3).
Proof.
  intros Hcd Hbuild.
  unfold Index.main, Index.runStep, Index.buildPhase.
  unfold bind at 1. rewrite Hcd.
  unfold bind at 1. unfold tryCatch at 1. unfold bind at 1. rewrite Hbuild.
  unfold ret at 1. cbn [negb].
  unfold bind at 1. rewrite runCheckers_outcomes.
  destruct (Outcome.ofRun H params w2) as [o w3].
  rewrite tally_hasErrors, tally_checkResults.
  destruct (Outcome.allPassed o); reflexivity.
Qed.

Lemma main_build_fails (params : Params.IParams) (w w1 w2 : W) (e : JsError) :
  chdir H (Params.projectDir params) w = (Ok tt, w1) ->
  Util.runUserScript H (Index.projectDirOf params) (Params.userScript params) w1
    = (Throw e, w2) ->
  Index.main H params w = (Index.mkProcessEnd 1 [], w2).
Proof.
  intros Hcd Hbuild.
  unfold Index.main, Index.runStep, Index.buildPhase.
  unfold bind at 1. rewrite Hcd.
  unfold bind at 1. unfold tryCatch at 1. unfold bind at 1. rewrite Hbuild.
  reflexivity.
Qed.

Lemma main_chdir_fails (params : Params.IParams) (w w1 : W) (e : JsError) :
  chdir H (Params.projectDir params) w = (Throw e, w1) ->
  Index.main H params w = (Index.mkProcessEnd (-1) [], w1).
Proof.
  intros Hcd.
  unfold Index.main, Index.runStep.
  unfold bind at 1. rewrite Hcd. reflexivity.
Qed.

(** In the outcomes of a run, passing and having no error are the same:
    both checkers that count errors return [success = (errorCount == 0)]. *)
Lemma ofRun_passed_is_noErrors (params : Params.IParams) (w : W) :
  Outcome.allPassed (fst (Outcome.ofRun H params w))
  = Outcome.noErrors (fst (Outcome.ofRun H params w)).
Proof.
  unfold Outcome.ofRun, Outcome.allPassed, Outcome.noErrors, Outcome.attempt.
  destruct (Index.isTrue (Params.enableESLintCheck params)).
  - destruct (ESLint.performESLintCheck H _ w) as [[r1|e1] w1] eqn:H1.
    + apply performESLintCheck_success in H1.
      destruct (Index.isTrue (Params.enableTypeScriptCheck params)).
      * destruct (Index.typeScriptCall H params _ w1) as [[r2|e2] w2] eqn:H2.
        -- apply runTypeScriptCheck_success in H2.
           destruct (Index.isTrue (Params.enableTypeScriptCoverageReport params));
             [destruct (TypeScriptCoverage.performTypeScriptCoverageCheck H _ w2)|];
             cbn; rewrite H1, H2; reflexivity.
        -- destruct (Index.isTrue (Params.enableTypeScriptCoverageReport params));
             [destruct (TypeScriptCoverage.performTypeScriptCoverageCheck H _ w2)|];
             cbn; rewrite H1; reflexivity.
      * destruct (Index.isTrue (Params.enableTypeScriptCoverageReport params));
          [destruct (TypeScriptCoverage.performTypeScriptCoverageCheck H _ w1)|];
          cbn; rewrite H1; reflexivity.
    + destruct (Index.isTrue (Params.enableTypeScriptCheck params));
        [destruct (Index.typeScriptCall H params _ w1) as [[r2|e2] w2]|];
        (destruct (Index.isTrue (Params.enableTypeScriptCoverageReport params));
         [destruct (TypeScriptCoverage.performTypeScriptCoverageCheck H _ _)|]);
        reflexivity.
  - destruct (Index.isTrue (Params.enableTypeScriptCheck params)).
    + destruct (Index.typeScriptCall H params _ w) as [[r2|e2] w2] eqn:H2.
      * apply runTypeScriptCheck_success in H2.
        destruct (Index.isTrue (Params.enableTypeScriptCoverageReport params));
          [destruct (TypeScriptCoverage.performTypeScriptCoverageCheck H _ w2)|];
          cbn; rewrite H2; reflexivity.
      * destruct (Index.isTrue (Params.enableTypeScriptCoverageReport params));
          [destruct (TypeScriptCoverage.performTypeScriptCoverageCheck H _ w2)|];
          reflexivity.
    + destruct (Index.isTrue (Params.enableTypeScriptCoverageReport params));
        [destruct (TypeScriptCoverage.performTypeScriptCoverageCheck H _ w)|];
        reflexivity.
Qed.

End Orchestrator.

Section ExitCode.

Context {W J : Type} (H : Host W J).

(** C4, amended.  The exit code of the process, in every run.  If
    [process.chdir] throws the process ends in [process.exit(-1)].  If the
    user build script fails it exits with [1] in the world the script left,
    before any checker has run and without a summary.  Otherwise it exits
    with [0] exactly when every enabled checker
    returned an outcome with [success = true], and with [1] when one of them
    failed or threw; and since a checker that counts errors succeeds exactly
    when it counted none, warnings never change the exit code. *)
Theorem C4_exit_code (params : Params.IParams) (w : W) :
  let finish := fst (Index.main H params w) in
  match chdir H (Params.projectDir params) w with
  | (Throw _, w1) => Index.main H params w = (Index.mkProcessEnd (-1) [], w1)
  | (Ok _, w1) =>
      match Util.runUserScript H (Index.projectDirOf params)
              (Params.userScript params) w1 with
      | (Throw _, w2) => Index.main H params w = (Index.mkProcessEnd 1 [], w2)
      | (Ok _, w2) =>
          let o := fst (Outcome.ofRun H params w2) in
          (Index.exitCode finish = 0%Z <-> Outcome.allPassed o = true) /\
          (Outcome.allPassed o = false <-> Index.exitCode finish = 1%Z) /\
          Outcome.allPassed o = Outcome.noErrors o
      end
  end.
Proof.
  intros finish. subst finish.
  destruct (chdir H (Params.projectDir params) w) as [[[]|e] w1] eqn:Hcd.
  2:{ exact (main_chdir_fails H params w w1 e Hcd). }
  destruct (Util.runUserScript H _ _ w1) as [[[]|e] w2] eqn:Hbuild.
  2:{ exact (main_build_fails H params w w1 w2 e Hcd Hbuild). }
  rewrite (main_after_build H params w w1 w2 Hcd Hbuild).
  pose proof (ofRun_passed_is_noErrors H params w2) as Hsame.
  destruct (Outcome.ofRun H params w2) as [o w3]. cbn [fst] in *.
  split; [|split; [|exact Hsame]].
  - destruct (Outcome.allPassed o); cbn; split; intros; congruence.
  - destruct (Outcome.allPassed o); cbn; split; intros; congruence.
Qed.

(** C6. Whatever happens in a checker, [runCheckers] does not throw; its
    tally is the fold of the outcomes of the three calls, each made on the
    world the previous checker left; every enabled checker has an outcome,
    whatever the outcomes before it; the summary has one line per checker,
    in the order ESLint, TypeScript, coverage; and a checker that throws is
    recorded as a failure with the message of the exception in its line.
    This summary is what the process prints once the build phase is over. *)
Theorem C6_each_checker_attempted_and_reported (params : Params.IParams) (w : W) :
  let o := fst (Outcome.ofRun H params w) in
  let t := Outcome.tallyOf o in
  Index.runCheckers H params w = (Ok t, snd (Outcome.ofRun H params w)) /\
  Index.checkResults t =
    [Outcome.eslintEntry (Outcome.eslint o);
     Outcome.typeScriptEntry (Outcome.typeScript o);
     Outcome.coverageEntry (Outcome.coverage o)] /\
  (Outcome.eslint o <> None <-> Index.isTrue (Params.enableESLintCheck params) = true) /\
  (Outcome.typeScript o <> None
   <-> Index.isTrue (Params.enableTypeScriptCheck params) = true) /\
  (Outcome.coverage o <> None
   <-> Index.isTrue (Params.enableTypeScriptCoverageReport params) = true) /\
  (forall e, Outcome.eslint o = Some (Throw e) ->
     Outcome.eslintEntry (Outcome.eslint o) = "ESLint: 执行错误 (" ++ Exn.message e ++ ")"
     /\ Index.hasErrors t = true) /\
  (forall e, Outcome.typeScript o = Some (Throw e) ->
     Outcome.typeScriptEntry (Outcome.typeScript o)
     = "TypeScript: 执行错误 (" ++ Exn.message e ++ ")"
     /\ Index.hasErrors t = true) /\
  (forall e, Outcome.coverage o = Some (Throw e) ->
     Outcome.coverageEntry (Outcome.coverage o)
     = "TypeScript覆盖率: 执行错误 (" ++ Exn.message e ++ ")"
     /\ Index.hasErrors t = true) /\
  (forall w0 w1,
     chdir H (Params.projectDir params) w0 = (Ok tt, w1) ->
     Util.runUserScript H (Index.projectDirOf params) (Params.userScript params) w1
       = (Ok tt, w) ->
     Index.summary (fst (Index.main H params w0)) = Index.checkResults t).
Proof.
  intros o t. subst t o.
  pose proof (runCheckers_outcomes H params w) as Hrun.
  pose proof (fun w0 w1 => main_after_build H params w0 w1 w) as Hmain.
  unfold Outcome.ofRun, Outcome.attempt in *.
  destruct (Index.isTrue (Params.enableESLintCheck params));
    [destruct (ESLint.performESLintCheck H _ w) as [o1 w1]|];
    (destruct (Index.isTrue (Params.enableTypeScriptCheck params));
     [destruct (Index.typeScriptCall H params _ _) as [o2 w2]|]);
    (destruct (Index.isTrue (Params.enableTypeScriptCoverageReport params));
     [destruct (TypeScriptCoverage.performTypeScriptCoverageCheck H _ _) as [o3 w3]|]);
    cbn [fst snd Outcome.eslint Outcome.typeScript Outcome.coverage] in *;
    (split; [exact Hrun|]);
    (split; [apply tally_checkResults|]);
    (split; [split; intros; congruence|]);
    (split; [split; intros; congruence|]);
    (split; [split; intros; congruence|]);
    (split; [intros e He;
             first [discriminate He
                   |inversion He; subst; split;
                    [reflexivity|rewrite tally_hasErrors; reflexivity]]|]);
    (split; [intros e He;
             first [discriminate He
                   |inversion He; subst; split;
                    [reflexivity|rewrite tally_hasErrors; unfold Outcome.allPassed; cbn;
                                 rewrite ?andb_false_r; reflexivity]]|]);
    (split; [intros e He;
             first [discriminate He
                   |inversion He; subst; split;
                    [reflexivity|rewrite tally_hasErrors; unfold Outcome.allPassed; cbn;
                                 rewrite ?andb_false_r; reflexivity]]|]);
    intros w0 w1' Hcd Hbuild; rewrite (Hmain w0 w1' Hcd Hbuild);
    cbn [fst Index.summary]; symmetry; apply tally_checkResults.
Qed.

(** C8, amended.  When the ESLint check is enabled and
    [git rev-parse --git-dir] fails, the ESLint check throws; [runCheckers]
    records it as a failed checker, goes on with the type check (handing it
    no file list) and the coverage check as they are configured, and the
    tally ends with [hasErrors]: the process exits with [1] after the
    summary, not before the checkers. *)
Theorem C8_not_a_git_repository (params : Params.IParams) (w w1 : W) (e : JsError) :
  Index.isTrue (Params.enableESLintCheck params) = true ->
  execa H "git" ["rev-parse"; "--git-dir"]
    (mkExecaOptions (Index.projectDirOf params) false false) w = (Throw e, w1) ->
  let notGit := Error "当前目录不是git仓库，无法进行增量检查" in
  let t1 := Index.onESLintError notGit Index.initialTally in
  ESLint.performESLintCheck H (Index.eslintConfigOf params) w = (Throw notGit, w1) /\
  Index.runCheckers H params w
  = bind (Index.typeScriptStep H params t1) (Index.coverageStep H params) w1 /\
  Index.checkResults t1 = ["ESLint: 执行错误 (当前目录不是git仓库，无法进行增量检查)"] /\
  (forall t w', Index.runCheckers H params w = (Ok t, w') -> Index.hasErrors t = true) /\
  (forall w0 w00,
     chdir H (Params.projectDir params) w00 = (Ok tt, w0) ->
     Util.runUserScript H (Index.projectDirOf params) (Params.userScript params) w0
       = (Ok tt, w) ->
     Index.exitCode (fst (Index.main H params w00)) = 1%Z /\
     length (Index.summary (fst (Index.main H params w00))) = 3).
Proof.
  intros Hen Hgit notGit t1.
  assert (Hlint : ESLint.performESLintCheck H (Index.eslintConfigOf params) w
                  = (Throw notGit, w1)).
  { unfold ESLint.performESLintCheck.
    cbn [Index.eslintConfigOf ESLint.enableCheck ESLint.projectDir].
    rewrite Hen. cbn [negb].
    unfold bind at 1. unfold tryCatch at 1. unfold bind at 1.
    rewrite Hgit. reflexivity. }
  assert (Hrun : Index.runCheckers H params w
                 = bind (Index.typeScriptStep H params t1) (Index.coverageStep H params) w1).
  { unfold Index.runCheckers. unfold bind at 1.
    rewrite eslintStep_outcome. unfold Outcome.attempt.
    rewrite Hen, Hlint. reflexivity. }
  assert (Herr : forall t w', Index.runCheckers H params w = (Ok t, w') ->
                              Index.hasErrors t = true).
  { intros t w'. rewrite runCheckers_outcomes.
    unfold Outcome.ofRun, Outcome.attempt. rewrite Hen, Hlint.
    destruct (Index.isTrue (Params.enableTypeScriptCheck params));
      [destruct (Index.typeScriptCall H params _ _) as [o2 w2]|];
      (destruct (Index.isTrue (Params.enableTypeScriptCoverageReport params));
       [destruct (TypeScriptCoverage.performTypeScriptCoverageCheck H _ _) as [o3 w3]|]);
      intros Heq; inversion Heq; subst; rewrite tally_hasErrors; reflexivity. }
  split; [exact Hlint|]. split; [exact Hrun|]. split; [reflexivity|].
  split; [exact Herr|].
  intros w0 w00 Hcd Hbuild.
  rewrite (main_after_build H params w00 w0 w Hcd Hbuild).
  pose proof (runCheckers_outcomes H params w) as Ho.
  destruct (Outcome.ofRun H params w) as [o w3].
  specialize (Herr _ _ Ho). rewrite tally_hasErrors in Herr.
  destruct (Outcome.allPassed o); [discriminate Herr|].
  split; reflexivity.
Qed.

End ExitCode.

Section Prerequisites.

Context {W J : Type} (H : Host W J).

(** C7, amended.  Without tsconfig.json the TypeScript type check is
    skipped and returns a successful outcome with no error, no warning and
    no file.  The coverage check, when it is enabled, throws in that case,
    and [runStep] records the exception as a failed checker. *)
Theorem C7_missing_tsconfig :
  (forall (config : TypeScript.TypeScriptConfig) (w : W),
      existsSync H (path_join H (TypeScript.projectDir config) "tsconfig.json") w = false ->
      TypeScript.runTypeScriptCheck H config w
      = (Ok (TypeScript.mkTypeScriptResult true 0 0
               "未找到 tsconfig.json 文件，跳过 TypeScript 检查" 0%Z), w)) /\
  (forall (config : TypeScriptCoverage.TypeScriptCoverageConfig) (w : W),
      TypeScriptCoverage.enableCheck config = true ->
      existsSync H (path_join H (TypeScriptCoverage.projectDir config) "tsconfig.json") w
        = false ->
      TypeScriptCoverage.performTypeScriptCoverageCheck H config w
      = (Throw (Error "未找到 tsconfig.json 文件，无法进行TypeScript覆盖率检查"), w)) /\
  (forall (params : Params.IParams) (t : Index.Tally) (w : W),
      Index.isTrue (Params.enableTypeScriptCoverageReport params) = true ->
      existsSync H (path_join H (Index.projectDirOf params) "tsconfig.json") w = false ->
      exists t',
        Index.coverageStep H params t w = (Ok t', w) /\
        Index.hasErrors t' = true /\
        Index.checkResults t' =
          (Index.checkResults t ++
           ["TypeScript覆盖率: 执行错误 (未找到 tsconfig.json 文件，无法进行TypeScript覆盖率检查)"])%list).
Proof.
  split; [|split].
  - intros config w Hmissing.
    unfold TypeScript.runTypeScriptCheck, tryCatch, bind, observe, ret.
    rewrite Hmissing. reflexivity.
  - intros config w Hen Hmissing.
    unfold TypeScriptCoverage.performTypeScriptCoverageCheck.
    rewrite Hen. cbn [negb].
    unfold bind, observe, throw. rewrite Hmissing. reflexivity.
  - intros params t w Hen Hmissing.
    unfold Index.coverageStep. rewrite Hen.
    unfold tryCatch, bind.
    unfold TypeScriptCoverage.performTypeScriptCoverageCheck.
    cbn [Index.coverageConfigOf TypeScriptCoverage.enableCheck
         TypeScriptCoverage.projectDir TypeScriptCoverage.cfg_threshold].
    rewrite Hen. cbn [negb].
    unfold bind, observe, throw. rewrite Hmissing. cbn.
    eexists. split; [reflexivity|]. split; reflexivity.
Qed.




(** C10, amended.  The two scope filters keep a sublist of the paths they
    are given: every path they return was in the input, exists under the
    project root when the filter runs, and occurs as often as in the input
    at most, so an input without duplicates gives an output without
    duplicates.  The filters do not remove duplicates themselves. *)
Theorem C10_scope_filters
    (files : list string) (projectDir : string) (checkDirectories : list string) (w : W) :
  let frontend := ESLint.filterFrontendFiles H files projectDir checkDirectories w in
  let typeScript := TypeScript.filterTypeScriptFiles H files projectDir checkDirectories w in
  (forall p, In p frontend ->
     In p files /\ existsSync H (path_join H projectDir p) w = true) /\
  (forall p, In p typeScript ->
     In p files /\ existsSync H (path_join H projectDir p) w = true) /\
  (NoDup files -> NoDup frontend /\ NoDup typeScript).
Proof.
  intros frontend typeScript. subst frontend typeScript.
  unfold ESLint.filterFrontendFiles, TypeScript.filterTypeScriptFiles.
  split; [|split].
  - intros p Hin. apply filter_In in Hin. destruct Hin as [Hin Hexists].
    apply filter_In in Hin. destruct Hin as [Hin _].
    apply filter_In in Hin. destruct Hin as [Hin _].
    split; assumption.
  - intros p Hin. apply filter_In in Hin. destruct Hin as [Hin Hexists].
    apply filter_In in Hin. destruct Hin as [Hin _].
    apply filter_In in Hin. destruct Hin as [Hin _].
    apply filter_In in Hin. destruct Hin as [Hin _].
    split; assumption.
  - intros Hnodup. split; repeat apply NoDup_filter; exact Hnodup.
Qed.

End Prerequisites.

(* ================================================================== *)
(** ** Concrete runs *)
(* ================================================================== *)

(** C4 as stated fails on a run in which no checker is enabled and the
    build script fails: no enabled checker has an unsuccessful outcome, and
    the process exits with [1]. *)
Lemma C4_counterexample :
  let params := Scenarios.paramsOf false false false false (Some "exit 1") in
  Index.isTrue (Params.enableESLintCheck params) = false /\
  Index.isTrue (Params.enableTypeScriptCheck params) = false /\
  Index.isTrue (Params.enableTypeScriptCoverageReport params) = false /\
  Index.main (Scripted.host (Scenarios.toolsFail "")) params []
  = (Index.mkProcessEnd 1 [], ["exit 1"]).
Proof. repeat split; reflexivity. Qed.

(** A run of C4 in which ESLint reports a warning and nothing else: the
    process exits with [0]. *)
Lemma C4_witness :
  let host := Scripted.host (Scenarios.toolsFail Scenarios.oneWarning) in
  let params := Scenarios.paramsOf true true false false None in
  (Index.exitCode (fst (Index.main host params [])) = 0%Z
   <-> Outcome.allPassed (fst (Outcome.ofRun host params [])) = true) /\
  Index.exitCode (fst (Index.main host params [])) = 0%Z.
Proof.
  split.
  - exact (proj1 (C4_exit_code (Scripted.host (Scenarios.toolsFail Scenarios.oneWarning))
                    (Scenarios.paramsOf true true false false None) [])).
  - reflexivity.
Defined.

(** A run of C5: ESLint exits non-zero with one warning and no error, the
    outcome is successful. *)
Lemma C5_witness :
  exists r w',
    ESLint.performESLintCheck (Scripted.host (Scenarios.toolsFail Scenarios.oneWarning))
      Scenarios.directConfig [] = (Ok r, w') /\
    ESLint.warningCount r = 1 /\
    ESLint.success r = (ESLint.errorCount r =? 0)%nat /\
    ESLint.success r = true.
Proof.
  eexists. eexists. split; [reflexivity|]. split; [reflexivity|].
  split.
  - exact (proj1 (proj1 (C5_success_iff_no_errors
                           (Scripted.host (Scenarios.toolsFail Scenarios.oneWarning)))
                    Scenarios.directConfig [] _ _ eq_refl)).
  - reflexivity.
Defined.

(** A run of C6 outside a git work tree: the ESLint check throws, the type
    check still runs and all three checkers are in the summary. *)
Lemma C6_witness :
  let host := Scripted.host Scenarios.notGit in
  let params := Scenarios.paramsOf true true false true None in
  Index.runCheckers host params []
  = (Ok (Outcome.tallyOf (fst (Outcome.ofRun host params []))),
     ["git rev-parse --git-dir";
      "npx tsc --noEmit --skipLibCheck --project tsconfig.json"]) /\
  Index.summary (fst (Index.main host params []))
  = ["ESLint: 执行错误 (当前目录不是git仓库，无法进行增量检查)";
     "TypeScript: 通过 (全量检查, 0 个警告)";
     "TypeScript覆盖率: 已禁用"].
Proof.
  pose proof (C6_each_checker_attempted_and_reported (Scripted.host Scenarios.notGit)
                (Scenarios.paramsOf true true false true None) [])
    as (Hrun & _ & _ & _ & _ & _ & _ & _ & Hsummary).
  split.
  - exact Hrun.
  - rewrite (Hsummary [] [] eq_refl eq_refl). reflexivity.
Defined.

(** C7 as stated fails for the coverage check: without tsconfig.json it
    throws, the process records a failed checker and exits with [1], while
    the type check of the same run is skipped with success. *)
Lemma C7_counterexample :
  let host := Scripted.host Scenarios.noTsconfig in
  let params := Scenarios.paramsOf true true true false None in
  existsSync host "/w/p/tsconfig.json" [] = false /\
  TypeScriptCoverage.performTypeScriptCoverageCheck host
    (Index.coverageConfigOf host params) []
  = (Throw (Error "未找到 tsconfig.json 文件，无法进行TypeScript覆盖率检查"), []) /\
  fst (Index.main host params [])
  = Index.mkProcessEnd 1
      ["ESLint: 通过 (1 个文件, 0 个警告)";
       "TypeScript: 通过 (没有需要检查的文件)";
       "TypeScript覆盖率: 执行错误 (未找到 tsconfig.json 文件，无法进行TypeScript覆盖率检查)"].
Proof. repeat split; reflexivity. Qed.

(** A run of C7 on the project without tsconfig.json. *)
Lemma C7_witness :
  TypeScript.runTypeScriptCheck (Scripted.host Scenarios.noTsconfig)
    Scenarios.typeScriptConfig []
  = (Ok (TypeScript.mkTypeScriptResult true 0 0
           "未找到 tsconfig.json 文件，跳过 TypeScript 检查" 0%Z), []).
Proof.
  exact (proj1 (C7_missing_tsconfig (Scripted.host Scenarios.noTsconfig))
           Scenarios.typeScriptConfig [] eq_refl).
Defined.

(** C8 as stated fails outside a git work tree.  With the ESLint check
    enabled the type check still runs ([tsc] is started after
    [git rev-parse] has failed) and its outcome is in the summary.  With the
    ESLint check disabled nothing looks for the work tree: the incremental
    type check finds no changed file and the process exits with [0]. *)
Lemma C8_counterexample :
  Scripted.workTree Scenarios.notGit = false /\
  Index.main (Scripted.host Scenarios.notGit)
    (Scenarios.paramsOf true true false true None) []
  = (Index.mkProcessEnd 1
       ["ESLint: 执行错误 (当前目录不是git仓库，无法进行增量检查)";
        "TypeScript: 通过 (全量检查, 0 个警告)";
        "TypeScript覆盖率: 已禁用"],
     ["git rev-parse --git-dir";
      "npx tsc --noEmit --skipLibCheck --project tsconfig.json"]) /\
  Index.main (Scripted.host Scenarios.notGit)
    (Scenarios.paramsOf false true false false None) []
  = (Index.mkProcessEnd 0
       ["ESLint: 已禁用";
        "TypeScript: 通过 (没有需要检查的文件)";
        "TypeScript覆盖率: 已禁用"],
     ["git fetch"]).
Proof. repeat split; reflexivity. Qed.

(** A run of C8 outside a git work tree. *)
Lemma C8_witness :
  let host := Scripted.host Scenarios.notGit in
  let params := Scenarios.paramsOf true true false true None in
  ESLint.performESLintCheck host (Index.eslintConfigOf params) []
  = (Throw (Error "当前目录不是git仓库，无法进行增量检查"), ["git rev-parse --git-dir"]) /\
  Index.exitCode (fst (Index.main host params [])) = 1%Z.
Proof.
  pose proof (C8_not_a_git_repository (Scripted.host Scenarios.notGit)
                (Scenarios.paramsOf true true false true None)
                [] ["git rev-parse --git-dir"]
                (Exn.mkJsError "fatal: not a git repository" "" "" (Some 128%Z))
                eq_refl eq_refl)
    as (Hlint & _ & _ & _ & Hexit).
  split.
  - exact Hlint.
  - exact (proj1 (Hexit [] [] eq_refl eq_refl)).
Defined.


(** The other case of C9: an output that is not in the compact format but
    carries the marker of an error.  The first pass finds nothing, the second
    pass finds one error, and the outcome is a failure with that count. *)
Example second_pass_finds_an_error :
  let lines := Js.split Js.LF Scenarios.looseError in
  ESLint.countCompact lines = (0, 0) /\
  ESLint.countMarkers lines = (1, 0) /\
  ESLint.runESLintCheck (Scripted.host (Scenarios.toolsFail Scenarios.looseError))
    ["src/a.ts"] "/w/p" false []
  = (Ok (ESLint.mkESLintResult false ["src/a.ts"] 1 0 Scenarios.looseError),
     ["npx eslint " ++ Js.quoted "src/a.ts" ++ " --format=compact"]).
Proof. repeat split; reflexivity. Qed.


(** C10 as stated fails when the diff lists a path twice: the scope filter
    keeps both, and the list handed to ESLint has a duplicate. *)
Lemma C10_counterexample :
  let host := Scripted.host Scenarios.listedTwice in
  ESLint.getChangedFiles host Scenarios.directConfig []
  = (Ok ["src/a.ts"; "src/a.ts"], ["git fetch"]) /\
  ESLint.filterFrontendFiles host ["src/a.ts"; "src/a.ts"] "/w/p" ["src"] ["git fetch"]
  = ["src/a.ts"; "src/a.ts"] /\
  TypeScript.filterTypeScriptFiles host ["src/a.ts"; "src/a.ts"] "/w/p" ["src"] ["git fetch"]
  = ["src/a.ts"; "src/a.ts"] /\
  ~ NoDup ["src/a.ts"; "src/a.ts"].
Proof.
  repeat split; try reflexivity.
  intros Hnodup. inversion Hnodup as [|x l Hnotin _]. apply Hnotin. left. reflexivity.
Qed.

(** A run of C10 on the change-set of the scenario of the specification:
    [src/a.ts] and [docs/readme.md] with the check directory [src]. *)
Lemma C10_witness :
  let host := Scripted.host Scenarios.merged in
  ESLint.filterFrontendFiles host ["src/a.ts"; "docs/readme.md"] "/w/p" ["src"] []
  = ["src/a.ts"] /\
  NoDup (ESLint.filterFrontendFiles host ["src/a.ts"; "docs/readme.md"] "/w/p" ["src"] []).
Proof.
  split.
  - reflexivity.
  - apply (C10_scope_filters (Scripted.host Scenarios.merged)
             ["src/a.ts"; "docs/readme.md"] "/w/p" ["src"] []).
    constructor.
    + intros [Heq|[]]. discriminate Heq.
    + constructor; [intros []|constructor].
Defined.

(* ================================================================== *)
(** ** The string primitives on small inputs *)
(* ================================================================== *)

Example split_empty : Js.split Js.SP "" = [""].
Proof. reflexivity. Qed.

Example split_two : Js.split Js.SP "ab cd" = ["ab"; "cd"].
Proof. reflexivity. Qed.

Example trim_both : Js.trim "  a b  " = "a b".
Proof. reflexivity. Qed.

(** White space beyond ASCII is trimmed as well; a letter whose encoding
    ends in the byte [A0] is not. *)
Example trim_no_break_space :
  Js.trim (Js.NBSP ++ "a.ts" ++ Js.IDEOGRAPHIC_SPACE) = "a.ts" /\
  Js.trim ("caf" ++ String (ascii_of_nat 195) (String (ascii_of_nat 160) ""))
  = "caf" ++ String (ascii_of_nat 195) (String (ascii_of_nat 160) "").
Proof. split; reflexivity. Qed.

Example nameOnlyLines_no_break_space :
  nameOnlyLines (Js.NBSP ++ "a.ts" ++ String Js.LF "") = ["a.ts"].
Proof. reflexivity. Qed.

Example checkDirectories_ideographic_space :
  Index.checkDirectoriesOf
    (Params.mkIParams NaN "pipeline" None "/w" "/w/p" NaN None None None None None
       (Some ("src" ++ Js.IDEOGRAPHIC_SPACE)) None None None None None None None)
  = ["src"].
Proof. reflexivity. Qed.

(** A user script of one no-break space is blank: nothing is started. *)
Example runUserScript_no_break_space :
  Util.runUserScript (Scripted.host (Scenarios.toolsFail "build failed"))
    "/w/p" (Some Js.NBSP) [] = (Ok tt, []).
Proof. reflexivity. Qed.

Example replaceAll_dir :
  Js.replaceAll "/w/p" "." "/w/p/src/a.ts: x /w/p/b" = "./src/a.ts: x ./b".
Proof. reflexivity. Qed.

Example replaceAll_empty : Js.replaceAll "" "." "ab" = ".a.b.".
Proof. reflexivity. Qed.

Example ofNat_12 : Js.ofNat 12 = "12" /\ Js.ofNat 0 = "0".
Proof. split; reflexivity. Qed.

Example parentsOf_merge : ESLint.parentsOf "a1 b2" = ["a1"; "b2"].
Proof. reflexivity. Qed.

Example compactFinding_error :
  ESLint.compactFinding "Error" "/w/p/src/a.ts: line 3, col 7, Error - Unexpected var. (no-var)"
  = true.
Proof. reflexivity. Qed.

Example compactFinding_loose : ESLint.compactFinding "Error" Scenarios.looseError = false.
Proof. reflexivity. Qed.

Example parse_tsc :
  TypeScript.parseTypeScriptOutput
    ("src/a.ts(1,2): error TS2322: Type mismatch." ++ String Js.LF "Found 12 errors in 3 files.")
  = (12, 0).
Proof. reflexivity. Qed.

(** Full mode: one pattern per check directory and extension. *)
Example full_mode_patterns :
  length (ESLint.getFullCheckFiles ["src"; "packages/ui"]) = 10.
Proof. reflexivity. Qed.

Example checkDirectories_lines :
  Index.checkDirectoriesOf
    (Params.mkIParams NaN "" None "" "" NaN None None None None None
       (Some ("src" ++ String Js.CR (String Js.LF (" packages/ui " ++ String Js.LF ""))))
       None None None None None None None)
  = ["src"; "packages/ui"].
Proof. reflexivity. Qed.

(* ================================================================== *)
(** ** Facts about the string primitives and the scope filters *)
(* ================================================================== *)

Section StringFacts.

Lemma prefix_spec (p s : string) :
  String.prefix p s = true <-> exists b, s = p ++ b.
Proof.
  revert s. induction p as [|c p IH]; intros s; cbn.
  - split; [intros _; exists s; reflexivity|intros _; destruct s; reflexivity].
  - destruct s as [|d s]; cbn.
    + split; [discriminate|intros [b Hb]; discriminate].
    + destruct (ascii_dec c d) as [->|Hne].
      * rewrite IH. split; intros [b Hb]; exists b; congruence.
      * split; [discriminate|intros [b Hb]; congruence].
Qed.

Lemma includes_spec (s p : string) :
  Js.includes s p = true <-> exists a b, s = a ++ p ++ b.
Proof.
  split.
  - induction s as [|c s IH]; cbn [Js.includes]; intros Hinc.
    + rewrite orb_false_r in Hinc. apply prefix_spec in Hinc as [b Hb].
      exists "", b. exact Hb.
    + apply orb_true_iff in Hinc as [Hpre|Hrest].
      * apply prefix_spec in Hpre as [b Hb]. exists "", b. exact Hb.
      * destruct (IH Hrest) as (a & b & Hab). exists (String c a), b.
        cbn. rewrite Hab. reflexivity.
  - intros (a & b & ->). induction a as [|c a IH]; cbn [append].
    + destruct (p ++ b) eqn:Hpb; cbn [Js.includes]; apply orb_true_iff; left;
        apply prefix_spec; exists b; congruence.
    + cbn [Js.includes]. rewrite IH. apply orb_true_r.
Qed.

Lemma endsWith_spec (s p : string) :
  Js.endsWith s p = true <-> exists a, s = a ++ p.
Proof.
  split.
  - induction s as [|c s IH]; cbn [Js.endsWith]; intros Hend.
    + rewrite orb_false_r in Hend. apply String.eqb_eq in Hend. exists "". exact Hend.
    + apply orb_true_iff in Hend as [Heq|Hrest].
      * apply String.eqb_eq in Heq. exists "". exact Heq.
      * destruct (IH Hrest) as [a Ha]. exists (String c a). cbn. rewrite Ha. reflexivity.
  - intros [a ->]. induction a as [|c a IH]; cbn [append].
    + destruct p; cbn [Js.endsWith]; rewrite String.eqb_refl; reflexivity.
    + cbn [Js.endsWith]. rewrite IH. apply orb_true_r.
Qed.

Lemma split_not_nil (sep : ascii) (s : string) : Js.split sep s <> [].
Proof.
  destruct s as [|c s]; cbn; [discriminate|].
  destruct (Ascii.eqb c sep); [discriminate|].
  destruct (Js.split sep s); discriminate.
Qed.

Lemma join_split (sep : ascii) (s : string) :
  Js.join (String sep "") (Js.split sep s) = s.
Proof.
  unfold Js.join.
  induction s as [|c s IH]; cbn [Js.split]; [reflexivity|].
  pose proof (split_not_nil sep s) as Hnn.
  destruct (Ascii.eqb_spec c sep) as [->|Hne].
  - cbn [String.concat]. destruct (Js.split sep s) as [|h t]; [congruence|].
    rewrite IH. reflexivity.
  - destruct (Js.split sep s) as [|h t]; [congruence|].
    cbn [Js.consHead]. cbn [String.concat] in *.
    destruct t; cbn; rewrite <- IH; reflexivity.
Qed.

End StringFacts.

Section ScopeFacts.

Context {W J : Type} (H : Host W J).

Lemma nameOnlyLines_nonEmpty (diff file : string) :
  In file (nameOnlyLines diff) -> file <> "".
Proof.
  unfold nameOnlyLines. intros Hin. apply filter_In in Hin as [_ Hne].
  destruct file; [discriminate Hne|discriminate].
Qed.

Lemma filter_all {A : Type} (f : A -> bool) (l : list A) :
  (forall x, In x l -> f x = true) -> filter f l = l.
Proof.
  induction l as [|a l IH]; intros Hall; cbn; [reflexivity|].
  rewrite (Hall a (or_introl eq_refl)). f_equal. apply IH.
  intros x Hx. apply Hall. right. exact Hx.
Qed.

(** Filtering a filtered list with the same rule changes nothing. *)
Lemma filterFrontendFiles_idempotent
    (files : list string) (projectDir : string) (checkDirectories : list string) (w : W) :
  let filtered := ESLint.filterFrontendFiles H files projectDir checkDirectories w in
  ESLint.filterFrontendFiles H filtered projectDir checkDirectories w = filtered.
Proof.
  intros filtered.
  assert (Hall : forall p, In p filtered ->
            some (fun ext => Js.endsWith p ext) ESLint.frontendExtensions = true /\
            isInCheckDirectory checkDirectories p = true /\
            existsSync H (path_join H projectDir p) w = true).
  { subst filtered. unfold ESLint.filterFrontendFiles. intros p Hin.
    apply filter_In in Hin as [Hin He].
    apply filter_In in Hin as [Hin Hd].
    apply filter_In in Hin as [Hin Hx]. auto. }
  unfold ESLint.filterFrontendFiles at 1.
  rewrite (filter_all _ filtered) by (intros p Hp; apply (Hall p Hp)).
  rewrite (filter_all _ filtered) by (intros p Hp; apply (Hall p Hp)).
  apply filter_all. intros p Hp. apply (Hall p Hp).
Qed.

Lemma filterTypeScriptFiles_idempotent
    (files : list string) (projectDir : string) (checkDirectories : list string) (w : W) :
  let filtered := TypeScript.filterTypeScriptFiles H files projectDir checkDirectories w in
  TypeScript.filterTypeScriptFiles H filtered projectDir checkDirectories w = filtered.
Proof.
  intros filtered.
  assert (Hall : forall p, In p filtered ->
            some (fun ext => Js.endsWith p ext) TypeScript.typeScriptExtensions = true /\
            negb (TypeScript.shouldExclude p) = true /\
            isInCheckDirectory checkDirectories p = true /\
            existsSync H (path_join H projectDir p) w = true).
  { subst filtered. unfold TypeScript.filterTypeScriptFiles. intros p Hin.
    apply filter_In in Hin as [Hin He].
    apply filter_In in Hin as [Hin Hd].
    apply filter_In in Hin as [Hin Hn].
    apply filter_In in Hin as [Hin Hx]. auto. }
  unfold TypeScript.filterTypeScriptFiles at 1.
  rewrite (filter_all _ filtered) by (intros p Hp; apply (Hall p Hp)).
  rewrite (filter_all _ filtered) by (intros p Hp; apply (Hall p Hp)).
  rewrite (filter_all _ filtered) by (intros p Hp; apply (Hall p Hp)).
  apply filter_all. intros p Hp. apply (Hall p Hp).
Qed.

End ScopeFacts.

Section CountFacts.

(** The first pass counts a line once at most. *)
Lemma countCompact_from (lines : list string) (e w : nat) :
  let step := fun (acc : nat * nat) (line : string) =>
         let (errorCount, warningCount) := acc in
         if Js.nonEmpty (Js.trim line) then
           if ESLint.compactFinding "Error" line then (S errorCount, warningCount)
           else if ESLint.compactFinding "Warning" line then (errorCount, S warningCount)
           else acc
         else acc in
  fst (fold_left step lines (e, w)) + snd (fold_left step lines (e, w))
  <= e + w + length lines.
Proof.
  intros step. revert e w.
  induction lines as [|line lines IH]; intros e w; cbn [fold_left length].
  - cbn. lia.
  - unfold step at 2 4.
    destruct (Js.nonEmpty (Js.trim line));
      [destruct (ESLint.compactFinding "Error" line);
       [|destruct (ESLint.compactFinding "Warning" line)]|].
    + specialize (IH (S e) w). lia.
    + specialize (IH e (S w)). lia.
    + specialize (IH e w). lia.
    + specialize (IH e w). lia.
Qed.

Lemma countCompact_bound (lines : list string) :
  fst (ESLint.countCompact lines) + snd (ESLint.countCompact lines) <= length lines.
Proof.
  unfold ESLint.countCompact. pose proof (countCompact_from lines 0 0) as Hb.
  cbn zeta in Hb. exact Hb.
Qed.

End CountFacts.

(* ================================================================== *)
(** ** Facts about white space and lines *)
(* ================================================================== *)

Section TrimFacts.

Lemma drop_length (k : nat) (s : string) :
  String.length (Js.drop k s) = String.length s - k.
Proof.
  revert s. induction k as [|k IH]; intros [|c s]; cbn; auto.
Qed.

Lemma drop_app (k : nat) (s t : string) :
  k <= String.length s -> Js.drop k (s ++ t) = Js.drop k s ++ t.
Proof.
  revert s. induction k as [|k IH]; intros [|c s] Hk; cbn in *; try reflexivity; try lia.
  apply IH. lia.
Qed.

Lemma spaceLength_bound (s : string) : Js.spaceLength s <= String.length s.
Proof.
  destruct s as [|c [|d [|e s]]]; cbn;
    repeat match goal with |- context [if ?b then _ else _] => destruct b end;
    lia.
Qed.

(** [trimStart] by the white space character at the front. *)
Lemma trimStart_eq (s : string) :
  Js.trimStart s
  = match Js.spaceLength s with
    | O => s
    | S _ => Js.trimStart (Js.drop (Js.spaceLength s) s)
    end.
Proof.
  destruct s as [|c s1]; [reflexivity|].
  unfold Js.spaceLength.
  change (Js.trimStart (String c s1))
    with (if Js.isSpace c then Js.trimStart s1
          else match s1 with
               | EmptyString => String c s1
               | String d s2 =>
                   if Js.isSpace2 c d then Js.trimStart s2
                   else match s2 with
                        | EmptyString => String c s1
                        | String e s3 =>
                            if Js.isSpace3 c d e then Js.trimStart s3 else String c s1
                        end
               end) at 1.
  destruct (Js.isSpace c); [reflexivity|].
  destruct s1 as [|d s2]; [reflexivity|].
  destruct (Js.isSpace2 c d); [reflexivity|].
  destruct s2 as [|e s3]; [reflexivity|].
  destruct (Js.isSpace3 c d e); reflexivity.
Qed.

(** Induction along the white space characters at the front of a string. *)
Lemma space_ind (P : string -> Prop) :
  (forall s, Js.spaceLength s = 0 -> P s) ->
  (forall s, Js.spaceLength s <> 0 -> P (Js.drop (Js.spaceLength s) s) -> P s) ->
  forall s, P s.
Proof.
  intros Hnone Hsome s.
  remember (String.length s) as n eqn:Hn. revert s Hn.
  induction n as [n IH] using lt_wf_ind. intros s ->.
  destruct (Js.spaceLength s) as [|k] eqn:Hk; [apply Hnone; exact Hk|].
  apply Hsome; [lia|]. rewrite Hk.
  apply (IH (String.length (Js.drop (S k) s))); [|reflexivity].
  rewrite drop_length. pose proof (spaceLength_bound s). lia.
Qed.

Lemma trimStart_fixed (s : string) : Js.spaceLength s = 0 -> Js.trimStart s = s.
Proof. intros Hk. rewrite trimStart_eq, Hk. reflexivity. Qed.

Lemma trimStart_step (s : string) :
  Js.spaceLength s <> 0 ->
  Js.trimStart s = Js.trimStart (Js.drop (Js.spaceLength s) s).
Proof.
  intros Hk. rewrite trimStart_eq at 1.
  destruct (Js.spaceLength s); [congruence|reflexivity].
Qed.

Lemma trimStart_length (s : string) : String.length (Js.trimStart s) <= String.length s.
Proof.
  induction s as [s Hk|s Hk IH] using space_ind.
  - rewrite (trimStart_fixed s Hk). lia.
  - rewrite (trimStart_step s Hk). rewrite drop_length in IH. lia.
Qed.

(** What [trimStart] returns does not begin with white space. *)
Lemma spaceLength_trimStart (s : string) : Js.spaceLength (Js.trimStart s) = 0.
Proof.
  induction s as [s Hk|s Hk IH] using space_ind.
  - rewrite (trimStart_fixed s Hk). exact Hk.
  - rewrite (trimStart_step s Hk). exact IH.
Qed.

(** A string that [trimStart] leaves alone does not begin with white
    space. *)
Lemma trimStart_fixed_head (s : string) :
  Js.trimStart s = s -> Js.spaceLength s = 0.
Proof.
  intros Heq. rewrite <- Heq. apply spaceLength_trimStart.
Qed.

Lemma trimStart_idempotent (s : string) :
  Js.trimStart (Js.trimStart s) = Js.trimStart s.
Proof. apply trimStart_fixed, spaceLength_trimStart. Qed.

(** A character of ASCII that is no white space stops [trimStart]. *)
Lemma trimStart_ascii (c : ascii) (s : string) :
  nat_of_ascii c < 128 -> Js.isSpace c = false ->
  Js.trimStart (String c s) = String c s.
Proof.
  intros Hascii Hc. apply trimStart_fixed.
  assert (H2 : forall d, Js.isSpace2 c d = false).
  { intros d. unfold Js.isSpace2.
    destruct (Nat.eqb_spec (nat_of_ascii c) 194); [lia|reflexivity]. }
  assert (H3 : forall d e, Js.isSpace3 c d e = false).
  { intros d e. unfold Js.isSpace3. cbv zeta.
    destruct (Nat.eqb_spec (nat_of_ascii c) 225); [lia|].
    destruct (Nat.eqb_spec (nat_of_ascii c) 226); [lia|].
    destruct (Nat.eqb_spec (nat_of_ascii c) 227); [lia|].
    destruct (Nat.eqb_spec (nat_of_ascii c) 239); [lia|].
    reflexivity. }
  destruct s as [|d [|e s]]; cbn [Js.spaceLength]; rewrite Hc, ?H2, ?H3; reflexivity.
Qed.

(** The white space character at the front of a string is the one at the
    front of every string that extends it. *)
Lemma spaceLength_app (s t : string) :
  Js.spaceLength s <> 0 -> Js.spaceLength (s ++ t) = Js.spaceLength s.
Proof.
  destruct s as [|c [|d [|e s]]]; cbn [Js.spaceLength append];
    repeat match goal with |- context [if ?b then _ else _] => destruct b end;
    congruence.
Qed.

(** A line break is no second or third byte of a white space character. *)
Lemma isSpace2_line (c : ascii) : Js.isSpace2 c Js.LF = false.
Proof. unfold Js.isSpace2. apply andb_false_r. Qed.

Lemma isSpace3_line (c d : ascii) :
  Js.isSpace3 c Js.LF d = false /\ Js.isSpace3 c d Js.LF = false.
Proof.
  unfold Js.isSpace3. cbv zeta.
  change (nat_of_ascii Js.LF) with 10.
  split;
    destruct (nat_of_ascii c =? 225)%nat, (nat_of_ascii c =? 226)%nat,
      (nat_of_ascii c =? 227)%nat, (nat_of_ascii c =? 239)%nat;
    cbn; rewrite ?andb_false_r; reflexivity.
Qed.

Lemma spaceLength_line (s t : string) :
  Js.spaceLength s = 0 -> s <> "" -> Js.spaceLength (s ++ String Js.LF t) = 0.
Proof.
  intros Hk Hne.
  destruct s as [|c [|d [|e s]]]; [congruence| | |];
    cbn [Js.spaceLength append] in *.
  - destruct (Js.isSpace c); [discriminate Hk|].
    rewrite isSpace2_line.
    destruct t as [|e t]; [reflexivity|].
    rewrite (proj1 (isSpace3_line c e)). reflexivity.
  - destruct (Js.isSpace c); [discriminate Hk|].
    destruct (Js.isSpace2 c d); [discriminate Hk|].
    rewrite (proj2 (isSpace3_line c d)). reflexivity.
  - exact Hk.
Qed.

(** [trimStart] before a line break: the line break and what follows it are
    reached only when everything before is white space. *)
Lemma trimStart_line (a b : string) :
  Js.trimStart (a ++ String Js.LF b)
  = match Js.trimStart a with
    | EmptyString => Js.trimStart b
    | String c t => String c t ++ String Js.LF b
    end.
Proof.
  induction a as [a Hk|a Hk IH] using space_ind.
  - rewrite (trimStart_fixed a Hk).
    destruct a as [|c a]; [reflexivity|].
    apply trimStart_fixed. apply spaceLength_line; [exact Hk|discriminate].
  - rewrite (trimStart_step a Hk), <- IH.
    rewrite trimStart_step by (rewrite spaceLength_app; assumption).
    rewrite spaceLength_app by exact Hk.
    rewrite drop_app by apply spaceLength_bound. reflexivity.
Qed.

(** White space in front of a string is skipped. *)
Lemma trimStart_blank_app (a u : string) :
  Js.trimStart a = "" -> Js.trimStart (a ++ u) = Js.trimStart u.
Proof.
  induction a as [a Hk|a Hk IH] using space_ind; intros Hblank.
  - rewrite (trimStart_fixed a Hk) in Hblank. subst a. reflexivity.
  - rewrite (trimStart_step a Hk) in Hblank.
    rewrite trimStart_step by (rewrite spaceLength_app; assumption).
    rewrite spaceLength_app by exact Hk.
    rewrite drop_app by apply spaceLength_bound. apply IH. exact Hblank.
Qed.

(** [trimEnd] cuts off a piece that is white space only. *)
Lemma trimEnd_split (s : string) :
  exists u, s = Js.trimEnd s ++ u /\ Js.trimStart u = "".
Proof.
  induction s as [|c s (u & Hs & Hu)].
  - exists "". split; reflexivity.
  - cbn [Js.trimEnd].
    destruct (Js.trimStart (String c s)) as [|c' t] eqn:Hfront; cbn [Js.nonEmpty].
    + exists (String c s). split; [reflexivity|exact Hfront].
    + exists u. split; [|exact Hu]. cbn [append]. rewrite <- Hs. reflexivity.
Qed.

Lemma trimEnd_idempotent (s : string) :
  Js.trimEnd (Js.trimEnd s) = Js.trimEnd s.
Proof.
  induction s as [|c s IH]; [reflexivity|].
  cbn [Js.trimEnd].
  destruct (Js.trimStart (String c s)) as [|c' t] eqn:Hfront; cbn [Js.nonEmpty];
    [reflexivity|].
  cbn [Js.trimEnd]. rewrite IH.
  destruct (Js.trimStart (String c (Js.trimEnd s))) as [|c'' t'] eqn:Hcut;
    cbn [Js.nonEmpty]; [|reflexivity].
  exfalso.
  destruct (trimEnd_split s) as (u & Hs & Hu).
  pose proof (trimStart_blank_app (String c (Js.trimEnd s)) u Hcut) as Hall.
  cbn [append] in Hall. rewrite <- Hs, Hu, Hfront in Hall. discriminate Hall.
Qed.

(** [trimEnd] does not uncover white space at the front. *)
Lemma trimStart_trimEnd (s : string) :
  Js.trimStart s = s -> Js.trimStart (Js.trimEnd s) = Js.trimEnd s.
Proof.
  intros Hfixed. apply trimStart_fixed_head in Hfixed.
  apply trimStart_fixed.
  destruct (Js.spaceLength (Js.trimEnd s)) as [|k] eqn:Hk; [reflexivity|].
  destruct (trimEnd_split s) as (u & Hs & _).
  rewrite Hs in Hfixed at 1.
  rewrite spaceLength_app in Hfixed by lia. lia.
Qed.

Lemma trim_trimmed (s : string) : trimmed (Js.trim s).
Proof.
  unfold trimmed, Js.trim. split.
  - apply trimStart_trimEnd. apply trimStart_idempotent.
  - apply trimEnd_idempotent.
Qed.

Lemma trim_idempotent (s : string) : Js.trim (Js.trim s) = Js.trim s.
Proof.
  destruct (trim_trimmed s) as [Hstart Hend].
  unfold Js.trim at 1. rewrite Hstart. exact Hend.
Qed.

(** A trimmed string is not white space only, unless it is empty. *)
Lemma trimEnd_fixed_front (s : string) :
  s <> "" -> Js.trimEnd s = s -> Js.trimStart s <> "".
Proof.
  destruct s as [|c s]; [congruence|]. intros _. cbn [Js.trimEnd].
  destruct (Js.trimStart (String c s)); cbn [Js.nonEmpty]; discriminate.
Qed.

(** Lines: a trimmed text stays trimmed behind a line. *)
Lemma trimStart_app_line (s t : string) :
  s <> "" -> Js.trimStart s = s ->
  Js.trimStart (s ++ String Js.LF t) = s ++ String Js.LF t.
Proof.
  intros Hne Hfixed. rewrite trimStart_line, Hfixed.
  destruct s; [congruence|reflexivity].
Qed.

Lemma trimEnd_app_line (s t : string) :
  t <> "" -> Js.trimEnd t = t ->
  Js.trimEnd (s ++ String Js.LF t) = s ++ String Js.LF t.
Proof.
  intros Hne Hfixed.
  pose proof (trimEnd_fixed_front t Hne Hfixed) as Hfront.
  assert (Hseen : forall a, Js.nonEmpty (Js.trimStart (a ++ String Js.LF t)) = true).
  { intros a. rewrite trimStart_line.
    destruct (Js.trimStart a); [|reflexivity].
    destruct (Js.trimStart t); [congruence|reflexivity]. }
  induction s as [|c s IH].
  - pose proof (Hseen "") as Hhere. cbn [append] in Hhere.
    cbn [append Js.trimEnd]. rewrite Hhere, Hfixed. reflexivity.
  - pose proof (Hseen (String c s)) as Hhere. cbn [append] in Hhere.
    cbn [append Js.trimEnd]. rewrite Hhere, IH. reflexivity.
Qed.

(** A line break at the end is trimmed away. *)
Lemma trimEnd_line_break (s : string) :
  Js.trimEnd (s ++ String Js.LF "") = Js.trimEnd s.
Proof.
  assert (Hseen : forall a,
             Js.nonEmpty (Js.trimStart (a ++ String Js.LF ""))
             = Js.nonEmpty (Js.trimStart a)).
  { intros a. rewrite trimStart_line. destruct (Js.trimStart a); reflexivity. }
  induction s as [|c s IH]; [reflexivity|].
  pose proof (Hseen (String c s)) as Hhere. cbn [append] in Hhere.
  cbn [append Js.trimEnd]. rewrite Hhere, IH. reflexivity.
Qed.

End TrimFacts.

Section LineFacts.

Lemma without_tail (c d : ascii) (s : string) :
  without c (String d s) -> d <> c /\ without c s.
Proof.
  intros Hfree. split.
  - intros ->. apply (Hfree "" s). reflexivity.
  - intros a b ->. apply (Hfree (String d a) b). reflexivity.
Qed.

(** A string without the separator is one piece. *)
Lemma split_without (sep : ascii) (s : string) :
  without sep s -> Js.split sep s = [s].
Proof.
  induction s as [|c s IH]; intros Hfree; cbn; [reflexivity|].
  apply without_tail in Hfree as [Hne Hfree].
  destruct (Ascii.eqb_spec c sep) as [Heq|_]; [congruence|].
  rewrite (IH Hfree). reflexivity.
Qed.

Lemma split_app (sep : ascii) (s t : string) :
  without sep s -> Js.split sep (s ++ String sep t) = s :: Js.split sep t.
Proof.
  induction s as [|c s IH]; intros Hfree; cbn.
  - rewrite Ascii.eqb_refl. reflexivity.
  - apply without_tail in Hfree as [Hne Hfree].
    destruct (Ascii.eqb_spec c sep) as [Heq|_]; [congruence|].
    rewrite (IH Hfree). reflexivity.
Qed.

(** Splitting what [join] made gives the pieces back. *)
Lemma split_join (sep : ascii) (l : list string) :
  l <> [] -> Forall (without sep) l ->
  Js.split sep (Js.join (String sep "") l) = l.
Proof.
  unfold Js.join.
  induction l as [|s l IH]; [congruence|].
  intros _ Hall. inversion Hall as [|s' l' Hs Hl]; subst.
  destruct l as [|t l].
  - cbn. apply split_without. exact Hs.
  - cbn [String.concat]. cbn [append].
    rewrite split_app by exact Hs. f_equal. apply IH; [discriminate|exact Hl].
Qed.

(** The text of trimmed, non-empty lines is trimmed. *)
Lemma join_trimmed (l : list string) :
  l <> [] -> Forall (fun s => s <> "" /\ trimmed s) l ->
  Js.join (String Js.LF "") l <> "" /\ trimmed (Js.join (String Js.LF "") l).
Proof.
  unfold Js.join.
  induction l as [|s l IH]; [congruence|].
  intros _ Hall. inversion Hall as [|s' l' [Hne [Hstart Hend]] Hl]; subst.
  destruct l as [|t l].
  - cbn. split; [exact Hne|split; assumption].
  - change (String.concat (String Js.LF "") (s :: t :: l))
      with (s ++ String Js.LF (String.concat (String Js.LF "") (t :: l))).
    destruct (IH ltac:(discriminate) Hl) as [Hne' [Hstart' Hend']].
    split; [|split].
    + destruct s; [congruence|discriminate].
    + apply trimStart_app_line; assumption.
    + apply trimEnd_app_line; assumption.
Qed.

Lemma filter_nonEmpty (l : list string) :
  Forall (fun s => s <> "") l -> filter Js.nonEmpty l = l.
Proof.
  induction 1 as [|s l Hs _ IH]; cbn; [reflexivity|].
  destruct s; [congruence|]. cbn. rewrite IH. reflexivity.
Qed.

(** X1. The list of paths [git diff --name-only] prints, one per line with
    a line break after each, is read back as the same list, provided no path
    is empty, contains a line break or has white space at either end.  The
    empty output is the empty list. *)
Theorem X1_nameOnlyLines_reads_back (files : list string) :
  Forall (fun file => file <> "" /\ trimmed file /\ without Js.LF file) files ->
  nameOnlyLines (Js.join (String Js.LF "") files ++ String Js.LF "") = files /\
  nameOnlyLines (Js.join (String Js.LF "") files) = files.
Proof.
  intros Hall. unfold nameOnlyLines.
  destruct files as [|file files]; [split; reflexivity|].
  assert (Hpieces : Forall (fun s => s <> "" /\ trimmed s) (file :: files)).
  { eapply Forall_impl; [|exact Hall]. cbn. intros s (Hne & Htrim & _). auto. }
  assert (Hfree : Forall (without Js.LF) (file :: files)).
  { eapply Forall_impl; [|exact Hall]. cbn. intros s (_ & _ & Hfree). exact Hfree. }
  assert (Hne : Forall (fun s => s <> "") (file :: files)).
  { eapply Forall_impl; [|exact Hall]. cbn. intros s (Hne & _). exact Hne. }
  destruct (join_trimmed (file :: files) ltac:(discriminate) Hpieces)
    as [Hjoin [Hstart Hend]].
  assert (Htrim : Js.trim (Js.join (String Js.LF "") (file :: files))
                  = Js.join (String Js.LF "") (file :: files)).
  { unfold Js.trim. rewrite Hstart. exact Hend. }
  assert (Htrim' : Js.trim (Js.join (String Js.LF "") (file :: files) ++ String Js.LF "")
                   = Js.join (String Js.LF "") (file :: files)).
  { unfold Js.trim. rewrite trimStart_app_line by assumption.
    rewrite trimEnd_line_break. exact Hend. }
  rewrite Htrim, Htrim'.
  rewrite (split_join Js.LF (file :: files) ltac:(discriminate) Hfree).
  rewrite (filter_nonEmpty _ Hne). split; reflexivity.
Qed.

End LineFacts.

Lemma X1_witness :
  nameOnlyLines ("src/a.ts" ++ String Js.LF ("docs/read me.md" ++ String Js.LF ""))
  = ["src/a.ts"; "docs/read me.md"].
Proof.
  apply (X1_nameOnlyLines_reads_back ["src/a.ts"; "docs/read me.md"]).
  repeat constructor; try discriminate; try reflexivity;
    intros a b Heq;
    repeat (destruct a as [|? a]; [discriminate Heq|];
            injection Heq as _ Heq);
    destruct a; discriminate Heq.
Defined.

(* ================================================================== *)
(** ** More on the scope of the checkers *)
(* ================================================================== *)

Section ScopeOfCheckers.

Context {W J : Type} (H : Host W J).

Lemma filter_twice {A : Type} (f g : A -> bool) (l : list A) :
  filter f (filter g l) = filter (fun x => g x && f x) l.
Proof.
  induction l as [|a l IH]; cbn; [reflexivity|].
  destruct (g a); cbn; [destruct (f a)|]; rewrite IH; reflexivity.
Qed.

(** An extension of the type check is an extension of the lint check. *)
Lemma typeScript_extension_is_frontend (file : string) :
  some (fun ext => Js.endsWith file ext) TypeScript.typeScriptExtensions = true ->
  some (fun ext => Js.endsWith file ext) ESLint.frontendExtensions = true.
Proof.
  unfold some, TypeScript.typeScriptExtensions, ESLint.frontendExtensions.
  cbn [existsb].
  destruct (Js.endsWith file ".ts"), (Js.endsWith file ".tsx"),
    (Js.endsWith file ".vue"), (Js.endsWith file ".js"), (Js.endsWith file ".jsx");
    cbn; congruence.
Qed.

(** X2. [runStep] hands the list the lint check kept to the type check,
    which filters it again.  The type check loses nothing by that: its
    filter gives the same list on the lint check's list as on the change-set
    the lint check started from. *)
Theorem X2_type_scope_after_lint_scope
    (files : list string) (projectDir : string) (checkDirectories : list string) (w : W) :
  TypeScript.filterTypeScriptFiles H
    (ESLint.filterFrontendFiles H files projectDir checkDirectories w)
    projectDir checkDirectories w
  = TypeScript.filterTypeScriptFiles H files projectDir checkDirectories w.
Proof.
  unfold TypeScript.filterTypeScriptFiles, ESLint.filterFrontendFiles.
  rewrite !filter_twice. apply filter_ext. intros file.
  destruct (some (fun ext => Js.endsWith file ext) TypeScript.typeScriptExtensions)
    eqn:Hts.
  - rewrite (typeScript_extension_is_frontend file Hts).
    destruct (isInCheckDirectory checkDirectories file),
      (existsSync H (path_join H projectDir file) w),
      (negb (TypeScript.shouldExclude file)); reflexivity.
  - rewrite !andb_false_r. reflexivity.
Qed.

(** X3. Both scope filters are idempotent: on a list they have filtered (in
    the same world) they change nothing. *)
Theorem X3_scope_filters_idempotent
    (files : list string) (projectDir : string) (checkDirectories : list string) (w : W) :
  ESLint.filterFrontendFiles H
    (ESLint.filterFrontendFiles H files projectDir checkDirectories w)
    projectDir checkDirectories w
  = ESLint.filterFrontendFiles H files projectDir checkDirectories w /\
  TypeScript.filterTypeScriptFiles H
    (TypeScript.filterTypeScriptFiles H files projectDir checkDirectories w)
    projectDir checkDirectories w
  = TypeScript.filterTypeScriptFiles H files projectDir checkDirectories w.
Proof.
  split.
  - apply (filterFrontendFiles_idempotent H).
  - apply (filterTypeScriptFiles_idempotent H).
Qed.

(** X4. No path the type check keeps is a test or spec file, and none lies
    in a directory [node_modules], [lib], [dist] or [test], at the top or
    deeper: such a path has no occurrence of [.test.ts] or [.spec.ts] and no
    path segment of one of these four names followed by a slash. *)
Theorem X4_type_scope_excludes
    (files : list string) (projectDir : string) (checkDirectories : list string) (w : W)
    (file : string) :
  In file (TypeScript.filterTypeScriptFiles H files projectDir checkDirectories w) ->
  (forall a b, file <> a ++ ".test.ts" ++ b) /\
  (forall a b, file <> a ++ ".spec.ts" ++ b) /\
  (forall dir, In dir ["node_modules"; "lib"; "dist"; "test"] ->
     (forall b, file <> dir ++ "/" ++ b) /\
     (forall a b, file <> a ++ "/" ++ dir ++ "/" ++ b)).
Proof.
  unfold TypeScript.filterTypeScriptFiles. intros Hin.
  apply filter_In in Hin as [Hin _].
  apply filter_In in Hin as [Hin _].
  apply filter_In in Hin as [_ Hkept].
  apply negb_true_iff in Hkept.
  unfold TypeScript.shouldExclude, some, TypeScript.excludePatterns in Hkept.
  cbn [existsb] in Hkept.
  change (Js.endsWith "node_modules/" "/") with true in Hkept.
  change (Js.endsWith "lib/" "/") with true in Hkept.
  change (Js.endsWith "dist/" "/") with true in Hkept.
  change (Js.endsWith "test/" "/") with true in Hkept.
  change (Js.endsWith ".test.ts" "/") with false in Hkept.
  change (Js.endsWith ".spec.ts" "/") with false in Hkept.
  cbv iota in Hkept.
  apply orb_false_iff in Hkept as [Hmodules Hkept].
  apply orb_false_iff in Hkept as [Hlib Hkept].
  apply orb_false_iff in Hkept as [Hdist Hkept].
  apply orb_false_iff in Hkept as [Htest Hkept].
  apply orb_false_iff in Hkept as [Hspec Hkept].
  apply orb_false_iff in Hkept as [Htests _].
  apply orb_false_iff in Hmodules as [Hmodules Hmodules'].
  apply orb_false_iff in Hlib as [Hlib Hlib'].
  apply orb_false_iff in Hdist as [Hdist Hdist'].
  apply orb_false_iff in Htests as [Htests Htests'].
  assert (Hinc : forall p, Js.includes file p = false -> forall a b, file <> a ++ p ++ b).
  { intros p Hp a b Heq.
    assert (Js.includes file p = true) by (apply includes_spec; eauto). congruence. }
  assert (Hpre : forall p, Js.startsWith file p = false -> forall b, file <> p ++ b).
  { intros p Hp b Heq. unfold Js.startsWith in Hp.
    assert (String.prefix p file = true) by (apply prefix_spec; eauto). congruence. }
  split; [exact (Hinc _ Htest)|].
  split; [exact (Hinc _ Hspec)|].
  intros dir [<-|[<-|[<-|[<-|[]]]]]; split.
  - exact (Hpre _ Hmodules).
  - exact (Hinc _ Hmodules').
  - exact (Hpre _ Hlib).
  - exact (Hinc _ Hlib').
  - exact (Hpre _ Hdist).
  - exact (Hinc _ Hdist').
  - exact (Hpre _ Htests).
  - exact (Hinc _ Htests').
Qed.

(** X5. In full mode the lint check is given five patterns for each check
    directory, [<dir>/**/*.js], [.ts], [.jsx], [.tsx] and [.vue] with the
    directory trimmed, and nothing else. *)
Theorem X5_full_check_patterns (checkDirectories : list string) :
  length (ESLint.getFullCheckFiles checkDirectories) = 5 * length checkDirectories /\
  (forall pattern,
     In pattern (ESLint.getFullCheckFiles checkDirectories) <->
     exists dir ext,
       In dir checkDirectories /\
       In ext ["*.js"; "*.ts"; "*.jsx"; "*.tsx"; "*.vue"] /\
       pattern = Js.trim dir ++ "/**/" ++ ext).
Proof.
  unfold ESLint.getFullCheckFiles. split.
  - induction checkDirectories as [|dir dirs IH]; [reflexivity|].
    cbn [flat_map length]. rewrite length_app, IH. cbn [map length]. lia.
  - intros pattern. rewrite in_flat_map. split.
    + intros (dir & Hdir & Hpat). apply in_map_iff in Hpat as (ext & <- & Hext).
      exists dir, ext. auto.
    + intros (dir & ext & Hdir & Hext & ->). exists dir. split; [exact Hdir|].
      apply in_map_iff. exists ext. auto.
Qed.

End ScopeOfCheckers.

Section CheckDirectories.

(** X6. The check directories [runStep] works with are never empty
    strings and have no white space at either end, so that the [trim] the
    scope filters apply to each of them changes nothing; without a
    configured value, or with an empty one, they are [src] alone. *)
Theorem X6_check_directories (params : Params.IParams) :
  (forall dir, In dir (Index.checkDirectoriesOf params) ->
     dir <> "" /\ trimmed dir /\ Js.trim dir = dir) /\
  (Params.checkDirectories params = None \/ Params.checkDirectories params = Some "" ->
   Index.checkDirectoriesOf params = ["src"]).
Proof.
  unfold Index.checkDirectoriesOf. split.
  - intros dir Hin. apply filter_In in Hin as [Hin Hne].
    apply in_map_iff in Hin as (raw & <- & _).
    split; [|split].
    + intros Heq. rewrite Heq in Hne. discriminate Hne.
    + apply trim_trimmed.
    + apply trim_idempotent.
  - intros [-> | ->]; reflexivity.
Qed.

End CheckDirectories.

(* ================================================================== *)
(** ** More on the run *)
(* ================================================================== *)

Section RunFacts.

Context {W J : Type} (H : Host W J).

(** In branch-deploy mode [runStep] makes no use of the source branch and
    of [GIT_BRANCH]: on one and the same host it does the same with any
    values of them. *)
Lemma main_in_branch_deploy
    (params : Params.IParams) (sourceBranch gitBranch : option string) (w : W) :
  Index.isTrue (Params.envBranchDeployMode params) = true ->
  Index.main H (withSourceBranch sourceBranch gitBranch params) w = Index.main H params w.
Proof.
  intros Hdeploy.
  assert (Hsource : Index.sourceBranchOf (withSourceBranch sourceBranch gitBranch params)
                    = Index.sourceBranchOf params).
  { unfold Index.sourceBranchOf. cbn [withSourceBranch Params.envBranchDeployMode].
    rewrite Hdeploy. reflexivity. }
  assert (Hlint : Index.eslintConfigOf (withSourceBranch sourceBranch gitBranch params)
                  = Index.eslintConfigOf params).
  { unfold Index.eslintConfigOf. rewrite Hsource. reflexivity. }
  unfold Index.main, Index.runStep, Index.buildPhase, Index.runCheckers,
    Index.eslintStep, Index.typeScriptStep, Index.coverageStep, Index.typeScriptCall.
  rewrite Hlint, Hsource. reflexivity.
Qed.

Lemma runUserScript_blank (projectDir : string) (userScript : option string) (w : W) :
  blankScript userScript ->
  Util.runUserScript H projectDir userScript w = (Ok tt, w).
Proof.
  unfold blankScript, Util.runUserScript.
  destruct userScript as [script|]; [|reflexivity].
  intros ->. cbn [Js.nonEmpty negb]. rewrite orb_true_r. reflexivity.
Qed.

(** X8. Without a user script, or with one that is empty or white space
    only, the build phase starts no process and cannot fail: after
    [process.chdir] the run goes straight to the checkers.  A script that is
    not blank is started once, through the shell, in the project directory;
    if it fails the process exits with [1] where the script stopped, without
    a summary. *)
Theorem X8_build_phase (params : Params.IParams) (w w1 : W) :
  chdir H (Params.projectDir params) w = (Ok tt, w1) ->
  (blankScript (Params.userScript params) ->
   Index.main H params w =
   let (o, w3) := Outcome.ofRun H params w1 in
   (Index.mkProcessEnd (if Outcome.allPassed o then 0%Z else 1%Z) (Outcome.entries o), w3))
  /\
  (forall script e w2,
     Params.userScript params = Some script ->
     Js.trim script <> "" ->
     execa H script [] (mkExecaOptions (Index.projectDirOf params) true false) w1
       = (Throw e, w2) ->
     Index.main H params w = (Index.mkProcessEnd 1 [], w2)).
Proof.
  intros Hcd. split.
  - intros Hblank.
    apply (main_after_build H params w w1 w1 Hcd).
    apply runUserScript_blank. exact Hblank.
  - intros script e w2 Hscript Hne Hexec.
    apply (main_build_fails H params w w1 w2 e Hcd).
    rewrite Hscript. unfold Util.runUserScript.
    destruct script as [|c script]; [cbn in Hne; congruence|].
    destruct (Js.trim (String c script)) eqn:Htrim; [congruence|].
    cbn [Js.nonEmpty negb orb]. unfold tryCatch, bind, throw.
    rewrite Hexec. reflexivity.
Qed.

(** X9. [installDependencies] of util.ts, which asks [detectPackageManager],
    behaves as the earlier copy that looks for the lock files itself, in
    every world.  Both throw without starting a process when package.json is
    missing, and both give up with the error of [npm cache clean --force]
    when that command fails, before any install command is started. *)
Theorem X9_installDependencies (projectDir : string) (w : W) :
  Legacy.installDependencies H projectDir w = Util.installDependencies H projectDir w /\
  (existsSync H (path_join H projectDir "package.json") w = false ->
   Util.installDependencies H projectDir w
   = (Throw (Error "未找到 package.json 文件"), w)) /\
  (forall e w1,
     existsSync H (path_join H projectDir "package.json") w = true ->
     execa H "npm" ["cache"; "clean"; "--force"] (mkExecaOptions projectDir false false) w
       = (Throw e, w1) ->
     Util.installDependencies H projectDir w = (Throw e, w1)).
Proof.
  split; [|split].
  - unfold Legacy.installDependencies, Util.installDependencies,
      Util.detectPackageManager, bind, observe.
    destruct (existsSync H (path_join H projectDir "package.json") w); [|reflexivity].
    cbn [negb].
    destruct (existsSync H (path_join H projectDir "pnpm-lock.yaml") w),
      (existsSync H (path_join H projectDir "yarn.lock") w); reflexivity.
  - intros Hmissing.
    unfold Util.installDependencies, bind, observe, throw.
    rewrite Hmissing. reflexivity.
  - intros e w1 Hexists Hclean.
    unfold Util.installDependencies, bind, observe, tryCatch, throw.
    rewrite Hexists. cbn [negb]. rewrite Hclean. reflexivity.
Qed.

(** X10. The coverage check reports success only after it has measured:
    when it is enabled, a successful result means that tsconfig.json was
    there and that the [ts-coverage] command of the project's package
    manager was run and exited with code zero, leaving the world the check
    ends in. *)
Theorem X10_coverage_success_is_measured
    (config : TypeScriptCoverage.TypeScriptCoverageConfig) (w w' : W)
    (r : TypeScriptCoverage.TypeScriptCoverageResult) :
  TypeScriptCoverage.performTypeScriptCoverageCheck H config w = (Ok r, w') ->
  TypeScriptCoverage.enableCheck config = true ->
  TypeScriptCoverage.success r = true ->
  existsSync H (path_join H (TypeScriptCoverage.projectDir config) "tsconfig.json") w = true /\
  exists w0 res,
    let command :=
      coverageCommandOf
        (Util.detectPackageManager H (TypeScriptCoverage.projectDir config) w0) in
    execa H (hd "" command) (tl command)
      (mkExecaOptions (TypeScriptCoverage.projectDir config) false true) w0
    = (Ok res, w').
Proof.
  unfold TypeScriptCoverage.performTypeScriptCoverageCheck.
  intros Hrun Hen Hsuccess. rewrite Hen in Hrun. cbn [negb] in Hrun.
  revert Hrun. unfold bind at 1. unfold observe at 1.
  destruct (existsSync H _ w) eqn:Hts; cbn [negb]; [|discriminate].
  intros Hrun. split; [reflexivity|]. revert Hrun.
  unfold tryCatch, bind, observe, ret, throw, lift, query, coverageCommandOf.
  along_the_run; read_result; try discriminate Hsuccess.
  all: match goal with
       | Hpm : Util.detectPackageManager H _ ?w0 = _,
         Hexec : execa H _ _ _ ?w0 = (Ok ?res, _) |- _ =>
           exists w0, res; cbv zeta; rewrite Hpm; exact Hexec
       end.
Qed.

(** X11. An exception of the coverage check is either the one for a
    missing tsconfig.json or a wrapper of what went wrong, whose message
    starts with [TypeScript覆盖率检查执行失败: ].  A result that is not
    successful comes from a failure inside the [try] block that carries the
    exit code [1] and some output: the failure of the [ts-coverage] command,
    which ends the check, or one met while package.json was read at the
    start (the failures of the installation and of [createCoverageConfig]
    are wrapped and carry no exit code).  When the errors of the file system
    and of JSON carry no exit code, as in Node, it is the command that
    failed. *)
Theorem X11_coverage_failures
    (config : TypeScriptCoverage.TypeScriptCoverageConfig) (w w' : W) :
  let dir := TypeScriptCoverage.projectDir config in
  let packageJsonPath := path_join H dir "package.json" in
  let measured (cause : JsError) :=
    exists w0,
      execa H (hd "" (coverageCommandOf (Util.detectPackageManager H dir w0)))
        (tl (coverageCommandOf (Util.detectPackageManager H dir w0)))
        (mkExecaOptions dir false true) w0 = (Throw cause, w') in
  let readingFailed (cause : JsError) :=
    readFileSync H packageJsonPath w = Throw cause \/
    (exists text,
       readFileSync H packageJsonPath w = Ok text /\ JSON_parse H text = Throw cause) \/
    (exists text packageJson,
       readFileSync H packageJsonPath w = Ok text /\
       JSON_parse H text = Ok packageJson /\
       lacksDevDependency H packageJson "typescript-coverage-report" = Throw cause) in
  (forall e,
     TypeScriptCoverage.performTypeScriptCoverageCheck H config w = (Throw e, w') ->
     e = Error "未找到 tsconfig.json 文件，无法进行TypeScript覆盖率检查" \/
     exists cause, e = Error ("TypeScript覆盖率检查执行失败: " ++ Exn.message cause)) /\
  (forall r,
     TypeScriptCoverage.performTypeScriptCoverageCheck H config w = (Ok r, w') ->
     TypeScriptCoverage.success r = false ->
     exists cause,
       Exn.exitCode cause = Some 1%Z /\
       Js.nonEmpty (Js.orElse (Exn.all cause) (Exn.stdout cause)) = true /\
       (measured cause \/ readingFailed cause)) /\
  ((forall path v e, readFileSync H path v = Throw e -> Exn.exitCode e = None) ->
   (forall text e, JSON_parse H text = Throw e -> Exn.exitCode e = None) ->
   (forall packageJson name e,
      lacksDevDependency H packageJson name = Throw e -> Exn.exitCode e = None) ->
   forall r,
     TypeScriptCoverage.performTypeScriptCoverageCheck H config w = (Ok r, w') ->
     TypeScriptCoverage.success r = false ->
     exists cause,
       Exn.exitCode cause = Some 1%Z /\
       Js.nonEmpty (Js.orElse (Exn.all cause) (Exn.stdout cause)) = true /\
       measured cause).
Proof.
  intros dir packageJsonPath measured readingFailed.
  assert (Hfailed : forall r,
     TypeScriptCoverage.performTypeScriptCoverageCheck H config w = (Ok r, w') ->
     TypeScriptCoverage.success r = false ->
     exists cause,
       Exn.exitCode cause = Some 1%Z /\
       Js.nonEmpty (Js.orElse (Exn.all cause) (Exn.stdout cause)) = true /\
       (measured cause \/ readingFailed cause)).
  { subst measured readingFailed packageJsonPath dir.
    unfold TypeScriptCoverage.performTypeScriptCoverageCheck.
    intros r. destruct (TypeScriptCoverage.enableCheck config); cbn [negb].
    2:{ unfold ret. intros Hrun Hfalse. inversion Hrun. subst. discriminate Hfalse. }
    unfold bind at 1. unfold observe at 1.
    destruct (existsSync H _ w); cbn [negb]; [|discriminate].
    unfold TypeScriptCoverage.installCoverageDependencies,
      TypeScriptCoverage.createCoverageConfig.
    unfold tryCatch, bind, observe, ret, throw, lift, query.
    along_the_run; read_result; intros Hfalse; try discriminate Hfalse.
    all: try match goal with
             | Hwrapped : Exn.exitCode (Error _) = Some _ |- _ => discriminate Hwrapped
             | Hbad : (false && _)%bool = true |- _ => discriminate Hbad
             end.
    all: match goal with
         | Hcode : Exn.exitCode ?c = Some ?z,
           Hc : ((?z =? 1)%Z && _)%bool = true |- _ =>
             exists c; apply andb_true_iff in Hc as [Hz Hout];
             apply Z.eqb_eq in Hz; subst z;
             split; [exact Hcode|]; split; [exact Hout|]
         end.
    all: first
           [ left;
             match goal with
             | Hpm : Util.detectPackageManager H _ ?w0 = _,
               Hexec : execa H _ _ _ ?w0 = (Throw _, _) |- _ =>
                 exists w0; rewrite Hpm; exact Hexec
             end
           | right; left; reflexivity
           | right; right; left; eexists; split; [reflexivity|eassumption]
           | right; right; right; eexists; eexists;
             split; [reflexivity|]; split; eassumption ]. }
  split; [|split].
  - subst measured readingFailed packageJsonPath dir.
    unfold TypeScriptCoverage.performTypeScriptCoverageCheck.
    intros e. destruct (TypeScriptCoverage.enableCheck config); cbn [negb];
      [|discriminate].
    unfold bind at 1. unfold observe at 1.
    destruct (existsSync H _ w); cbn [negb].
    2:{ unfold throw. intros Hrun. inversion Hrun. left. reflexivity. }
    unfold tryCatch, bind, observe, ret, throw, lift, query.
    along_the_run; read_result; right; eexists; reflexivity.
  - exact Hfailed.
  - intros Hfs Hjson Hdeps r Hrun Hfalse.
    destruct (Hfailed r Hrun Hfalse) as (cause & Hcode & Hout & [Hmeasured|Hreading]).
    + exists cause. auto.
    + exfalso.
      assert (Hnone : Exn.exitCode cause = None).
      { destruct Hreading as [Hread|[(text & _ & Hparse)|(text & json & _ & _ & Hdep)]].
        - exact (Hfs _ _ _ Hread).
        - exact (Hjson _ _ Hparse).
        - exact (Hdeps _ _ _ Hdep). }
      congruence.
Qed.

End RunFacts.

(** X7. In branch-deploy mode the configured source branch and
    [GIT_BRANCH] play no part in what [runStep] does.  The two variables
    are in the environment of every child process, so the host is taken
    as a function of the environment: whenever it answers alike in the two
    environments (git, the file system and the tools do not look at the two
    variables themselves), the runs are the same in exit code, summary and
    effect on the world. *)
Theorem X7_branch_deploy_ignores_source_branch
    {W J : Type} (hostOf : Params.IParams -> Host W J)
    (params : Params.IParams) (sourceBranch gitBranch : option string) (w : W) :
  let changed := withSourceBranch sourceBranch gitBranch params in
  Index.isTrue (Params.envBranchDeployMode params) = true ->
  hostOf changed = hostOf params ->
  Index.main (hostOf changed) changed w = Index.main (hostOf params) params w.
Proof.
  intros changed Hdeploy Halike. rewrite Halike.
  apply main_in_branch_deploy. exact Hdeploy.
Qed.

(* ================================================================== *)
(** ** More on the results of the checkers *)
(* ================================================================== *)

Section ResultFacts.

Context {W J : Type} (H : Host W J).

Lemma runESLintCheck_checkedFiles
    (files : list string) (projectDir : string) (isFullCheck : bool)
    (w w' : W) (r : ESLint.ESLintResult) :
  ESLint.runESLintCheck H files projectDir isFullCheck w = (Ok r, w') ->
  ESLint.checkedFiles r = files.
Proof.
  unfold ESLint.runESLintCheck, tryCatch, bind, ret.
  along_the_run; read_result; reflexivity.
Qed.

(** X12. The list of checked files in a result of the lint check: empty
    when the check is disabled, the patterns of [getFullCheckFiles] in full
    mode, and otherwise what the scope filter kept of the change-set that
    was resolved, so that each file in it has a front-end extension, lies
    under a check directory and existed when the filter ran. *)
Theorem X12_lint_checked_files
    (config : ESLint.ESLintConfig) (w w' : W) (r : ESLint.ESLintResult) :
  ESLint.performESLintCheck H config w = (Ok r, w') ->
  (ESLint.enableCheck config = false -> ESLint.checkedFiles r = []) /\
  (ESLint.enableCheck config = true -> ESLint.fullCheckMode config = true ->
   ESLint.checkedFiles r = ESLint.getFullCheckFiles (ESLint.checkDirectories config)) /\
  (ESLint.enableCheck config = true -> ESLint.fullCheckMode config = false ->
   exists changed w1 w2,
     (if ESLint.envBranchDeployMode config
      then ESLint.getEnvBranchChangedFiles H config
      else ESLint.getChangedFiles H config) w1 = (Ok changed, w2) /\
     ESLint.checkedFiles r
     = ESLint.filterFrontendFiles H changed (ESLint.projectDir config)
         (ESLint.checkDirectories config) w2 /\
     forall file, In file (ESLint.checkedFiles r) ->
       some (fun ext => Js.endsWith file ext) ESLint.frontendExtensions = true /\
       isInCheckDirectory (ESLint.checkDirectories config) file = true /\
       existsSync H (path_join H (ESLint.projectDir config) file) w2 = true).
Proof.
  unfold ESLint.performESLintCheck. intros Hrun.
  destruct (ESLint.enableCheck config); cbn [negb] in Hrun.
  2:{ unfold ret in Hrun. inversion Hrun.
      split; [reflexivity|]. split; intros; discriminate. }
  split; [intros; discriminate|]. revert Hrun.
  unfold bind at 1.
  destruct (tryCatch _ _ w) as [[[]|e] w1]; [|discriminate].
  unfold bind at 1. unfold observe at 1.
  destruct (ESLint.fullCheckMode config).
  - intros Hrun. split; [|intros; discriminate]. intros _ _.
    exact (runESLintCheck_checkedFiles _ _ _ _ _ _ Hrun).
  - unfold bind at 1.
    destruct ((if ESLint.envBranchDeployMode config
               then ESLint.getEnvBranchChangedFiles H config
               else ESLint.getChangedFiles H config) w1) as [[changed|e] w2] eqn:Hresolved;
      [|discriminate].
    unfold bind at 1. unfold observe at 1.
    intros Hrun. split; [intros; discriminate|]. intros _ _.
    exists changed, w1, w2. split; [exact Hresolved|].
    assert (Hfiles : ESLint.checkedFiles r
                     = ESLint.filterFrontendFiles H changed (ESLint.projectDir config)
                         (ESLint.checkDirectories config) w2).
    { destruct (ESLint.filterFrontendFiles H changed _ _ w2) as [|f fs] eqn:Hfiltered.
      - unfold ret in Hrun. inversion Hrun. reflexivity.
      - exact (runESLintCheck_checkedFiles _ _ _ _ _ _ Hrun). }
    split; [exact Hfiles|].
    intros file Hin. rewrite Hfiles in Hin.
    unfold ESLint.filterFrontendFiles in Hin.
    apply filter_In in Hin as [Hin Hexists].
    apply filter_In in Hin as [Hin Hdir].
    apply filter_In in Hin as [_ Hext]. auto.
Qed.

(** X13. The file count in a result of the type check is [-1] exactly when
    the whole project was checked, that is in full mode with a
    tsconfig.json present; in every other case it is a count, zero or
    more.  In particular full mode without tsconfig.json reports [0]. *)
Theorem X13_type_check_file_count
    (config : TypeScript.TypeScriptConfig) (w w' : W) (r : TypeScript.TypeScriptResult) :
  TypeScript.runTypeScriptCheck H config w = (Ok r, w') ->
  (TypeScript.checkedFiles r = (-1)%Z <->
   TypeScript.fullCheck config = true /\
   existsSync H (path_join H (TypeScript.projectDir config) "tsconfig.json") w = true) /\
  (-1 <= TypeScript.checkedFiles r)%Z.
Proof.
  unfold TypeScript.runTypeScriptCheck, tryCatch, bind, ret, lift, observe.
  destruct (existsSync H _ w) eqn:Hts; cbn [negb];
    [destruct (TypeScript.fullCheck config) eqn:Hfull|].
  - along_the_run; read_result; cbn; repeat split; auto; lia.
  - along_the_run; read_result; cbn; repeat split; try lia;
      intros; try discriminate; try lia; intuition discriminate.
  - read_result. cbn. repeat split; try lia; intros; try discriminate;
      intuition discriminate.
Qed.

End ResultFacts.

(* ================================================================== *)
(** ** The counts read from the output of the tools *)
(* ================================================================== *)

Section Counts.

(** The loop of [parseTypeScriptOutput], from any counts. *)
Lemma parseTypeScriptOutput_from (lines : list string) (e w : nat) :
  let isError := fun line => Js.includes line ": error TS" in
  let isWarning := fun line => Js.includes line ": warning TS" in
  let step := fun (acc : nat * nat) (line : string) =>
         let (errorCount, warningCount) := acc in
         if Js.includes line ": error TS" then (S errorCount, warningCount)
         else if Js.includes line ": warning TS" then (errorCount, S warningCount)
         else
           match TypeScript.foundErrors line with
           | Some n => (Nat.max errorCount n, warningCount)
           | None => acc
           end in
  let r := fold_left step lines (e, w) in
  snd r = w + length (filter (fun line => negb (isError line) && isWarning line) lines) /\
  e + length (filter isError lines) <= fst r /\
  (forall line n, In line lines -> isError line = false -> isWarning line = false ->
     TypeScript.foundErrors line = Some n -> n <= fst r) /\
  ((forall line, In line lines -> isError line = false -> isWarning line = false ->
      TypeScript.foundErrors line = None) ->
   fst r = e + length (filter isError lines)).
Proof.
  intros isError isWarning step. revert e w.
  induction lines as [|line lines IH]; intros e w.
  - cbn. repeat split; try lia; try (intros ? ? []).
  - cbn [fold_left filter].
    assert (Hstep : step (e, w) line =
              if isError line then (S e, w)
              else if isWarning line then (e, S w)
              else match TypeScript.foundErrors line with
                   | Some n => (Nat.max e n, w)
                   | None => (e, w)
                   end) by reflexivity.
    rewrite Hstep. clear Hstep.
    destruct (isError line) eqn:Herr; [|destruct (isWarning line) eqn:Hwarn;
      [|destruct (TypeScript.foundErrors line) as [m|] eqn:Hfound]]; cbn [negb andb length].
    + destruct (IH (S e) w) as (Hw & He & Hsum & Hexact).
      split; [exact Hw|]. split; [lia|]. split.
      * intros l n [<-|Hin] Hl1 Hl2 Hl3; [congruence|eauto].
      * intros Hnone. rewrite Hexact; [lia|]. intros l Hin. apply Hnone. right. exact Hin.
    + destruct (IH e (S w)) as (Hw & He & Hsum & Hexact).
      split; [lia|]. split; [exact He|]. split.
      * intros l n [<-|Hin] Hl1 Hl2 Hl3; [congruence|eauto].
      * intros Hnone. apply Hexact. intros l Hin. apply Hnone. right. exact Hin.
    + destruct (IH (Nat.max e m) w) as (Hw & He & Hsum & Hexact).
      split; [exact Hw|]. split; [lia|]. split.
      * intros l n [<-|Hin] Hl1 Hl2 Hl3; [|eauto].
        assert (n = m) by congruence. subst n. lia.
      * intros Hnone. specialize (Hnone line (or_introl eq_refl) Herr Hwarn). congruence.
    + destruct (IH e w) as (Hw & He & Hsum & Hexact).
      split; [exact Hw|]. split; [exact He|]. split.
      * intros l n [<-|Hin] Hl1 Hl2 Hl3; [congruence|eauto].
      * intros Hnone. apply Hexact. intros l Hin. apply Hnone. right. exact Hin.
Qed.

(** X14. What [parseTypeScriptOutput] counts in the lines of an output.
    The warnings are the lines with [: warning TS] that have no [: error TS].
    The errors are at least the lines with [: error TS] and at least every
    number announced by a line [Found N error] (one that is neither an error
    nor a warning line); without such a summary line they are exactly the
    lines with [: error TS]. *)
Theorem X14_parseTypeScriptOutput_counts (output : string) :
  let lines := Js.split Js.LF output in
  let isError := fun line => Js.includes line ": error TS" in
  let isWarning := fun line => Js.includes line ": warning TS" in
  let counts := TypeScript.parseTypeScriptOutput output in
  snd counts = length (filter (fun line => negb (isError line) && isWarning line) lines) /\
  length (filter isError lines) <= fst counts /\
  (forall line n, In line lines -> isError line = false -> isWarning line = false ->
     TypeScript.foundErrors line = Some n -> n <= fst counts) /\
  ((forall line, In line lines -> isError line = false -> isWarning line = false ->
      TypeScript.foundErrors line = None) ->
   fst counts = length (filter isError lines)).
Proof.
  intros lines isError isWarning counts.
  exact (parseTypeScriptOutput_from lines 0 0).
Qed.

(** The second pass of the lint check counts a line once at most for each
    kind. *)
Lemma countMarkers_from (lines : list string) (e w : nat) :
  let step := fun (acc : nat * nat) (line : string) =>
         let (errorCount, warningCount) := acc in
         let errorCount := if Js.includes line "Error -" then S errorCount else errorCount in
         let warningCount :=
           if Js.includes line "Warning -" then S warningCount else warningCount in
         (errorCount, warningCount) in
  fst (fold_left step lines (e, w))
  = e + length (filter (fun line => Js.includes line "Error -") lines) /\
  snd (fold_left step lines (e, w))
  = w + length (filter (fun line => Js.includes line "Warning -") lines).
Proof.
  intros step. revert e w.
  induction lines as [|line lines IH]; intros e w; cbn [fold_left filter].
  - cbn. lia.
  - assert (Hstep : step (e, w) line =
              (if Js.includes line "Error -" then S e else e,
               if Js.includes line "Warning -" then S w else w)) by reflexivity.
    rewrite Hstep. clear Hstep.
    destruct (IH (if Js.includes line "Error -" then S e else e)
                 (if Js.includes line "Warning -" then S w else w)) as [He Hw].
    rewrite He, Hw.
    destruct (Js.includes line "Error -"), (Js.includes line "Warning -");
      cbn [length]; lia.
Qed.

(** X15. The counts the lint check reads from the output of a failed run
    of ESLint never exceed the number of lines of that output, for errors
    and for warnings alike; when the pass for the compact format finds
    something, errors and warnings together do not exceed it, since a line
    is then counted once at most.  The second pass counts the lines that
    contain [Error -] and those that contain [Warning -]. *)
Theorem X15_lint_counts_bounded (lines : list string) :
  fst (ESLint.countFindings lines) <= length lines /\
  snd (ESLint.countFindings lines) <= length lines /\
  (ESLint.countCompact lines <> (0, 0) ->
   fst (ESLint.countFindings lines) + snd (ESLint.countFindings lines) <= length lines) /\
  ESLint.countMarkers lines
  = (length (filter (fun line => Js.includes line "Error -") lines),
     length (filter (fun line => Js.includes line "Warning -") lines)).
Proof.
  pose proof (countCompact_bound lines) as Hfirst.
  pose proof (countMarkers_from lines 0 0) as Hsecond. cbv zeta in Hsecond.
  fold (ESLint.countMarkers lines) in Hsecond. destruct Hsecond as [He Hw].
  pose proof (filter_length_le (fun line => Js.includes line "Error -") lines) as Hle.
  pose proof (filter_length_le (fun line => Js.includes line "Warning -") lines) as Hlw.
  assert (Hmarkers : ESLint.countMarkers lines
            = (length (filter (fun line => Js.includes line "Error -") lines),
               length (filter (fun line => Js.includes line "Warning -") lines))).
  { destruct (ESLint.countMarkers lines) as [e w]. cbn in He, Hw. congruence. }
  unfold ESLint.countFindings.
  destruct (ESLint.countCompact lines) as [[|e1] [|w1]] eqn:Hcompact;
    cbn [fst snd] in *.
  - rewrite Hmarkers. cbn [fst snd].
    repeat split; try lia. congruence.
  - repeat split; try lia; exact Hmarkers.
  - repeat split; try lia; exact Hmarkers.
  - repeat split; try lia; exact Hmarkers.
Qed.

End Counts.

(* ================================================================== *)
(** ** The totals of a run *)
(* ================================================================== *)

Section Totals.

Context {W J : Type} (H : Host W J).

(** The errors an outcome adds to the total: those of a result that is
    not successful. *)
Lemma recordESLint_totals (o : option (Result ESLint.ESLintResult)) (t : Index.Tally) :
  Index.totalErrors (Outcome.recordESLint o t)
  = Index.totalErrors t
    + countedOf (fun r => if ESLint.success r then 0 else ESLint.errorCount r) o /\
  Index.totalWarnings (Outcome.recordESLint o t)
  = Index.totalWarnings t + countedOf ESLint.warningCount o.
Proof.
  destruct o as [[r|e]|]; cbn; try lia.
  unfold Index.onESLintResult. destruct (ESLint.success r); cbn; lia.
Qed.

Lemma recordTypeScript_totals (o : option (Result TypeScript.TypeScriptResult))
    (t : Index.Tally) :
  Index.totalErrors (Outcome.recordTypeScript o t)
  = Index.totalErrors t
    + countedOf (fun r => if TypeScript.success r then 0 else TypeScript.errorCount r) o /\
  Index.totalWarnings (Outcome.recordTypeScript o t)
  = Index.totalWarnings t + countedOf TypeScript.warningCount o.
Proof.
  destruct o as [[r|e]|]; cbn; try lia.
  unfold Index.onTypeScriptResult.
  destruct (TypeScript.success r); [destruct (TypeScript.checkedFiles r =? 0)%Z|];
    cbn; lia.
Qed.

Lemma recordCoverage_totals
    (o : option (Result TypeScriptCoverage.TypeScriptCoverageResult)) (t : Index.Tally) :
  Index.totalErrors (Outcome.recordCoverage o t) = Index.totalErrors t /\
  Index.totalWarnings (Outcome.recordCoverage o t) = Index.totalWarnings t.
Proof.
  destruct o as [[r|e]|]; cbn; try (split; reflexivity).
  unfold Index.onCoverageResult. destruct (TypeScriptCoverage.success r);
    split; reflexivity.
Qed.

(** The results in the outcomes of a run come from the checkers. *)
Lemma ofRun_eslint_result (params : Params.IParams) (w : W) (r : ESLint.ESLintResult) :
  Outcome.eslint (fst (Outcome.ofRun H params w)) = Some (Ok r) ->
  ESLint.success r = (ESLint.errorCount r =? 0)%nat.
Proof.
  unfold Outcome.ofRun, Outcome.attempt.
  destruct (Index.isTrue (Params.enableESLintCheck params)).
  - destruct (ESLint.performESLintCheck H _ w) as [o1 w1] eqn:H1.
    destruct (Index.isTrue (Params.enableTypeScriptCheck params));
      [destruct (Index.typeScriptCall H params _ w1) as [o2 w2]|];
      (destruct (Index.isTrue (Params.enableTypeScriptCoverageReport params));
       [destruct (TypeScriptCoverage.performTypeScriptCoverageCheck H _ _) as [o3 w3]|]);
      cbn; intros Heq; inversion Heq; subst;
      exact (performESLintCheck_success H _ _ _ _ H1).
  - destruct (Index.isTrue (Params.enableTypeScriptCheck params));
      [destruct (Index.typeScriptCall H params _ w) as [o2 w2]|];
      (destruct (Index.isTrue (Params.enableTypeScriptCoverageReport params));
       [destruct (TypeScriptCoverage.performTypeScriptCoverageCheck H _ _) as [o3 w3]|]);
      cbn; discriminate.
Qed.

Lemma ofRun_typeScript_result (params : Params.IParams) (w : W)
    (r : TypeScript.TypeScriptResult) :
  Outcome.typeScript (fst (Outcome.ofRun H params w)) = Some (Ok r) ->
  TypeScript.success r = (TypeScript.errorCount r =? 0)%nat.
Proof.
  unfold Outcome.ofRun, Outcome.attempt.
  destruct (Index.isTrue (Params.enableESLintCheck params));
    [destruct (ESLint.performESLintCheck H _ w) as [o1 w1]|];
    (destruct (Index.isTrue (Params.enableTypeScriptCheck params));
     [destruct (Index.typeScriptCall H params _ _) as [o2 w2] eqn:H2|]);
    (destruct (Index.isTrue (Params.enableTypeScriptCoverageReport params));
     [destruct (TypeScriptCoverage.performTypeScriptCoverageCheck H _ _) as [o3 w3]|]);
    cbn; intros Heq; try discriminate Heq; inversion Heq; subst;
    exact (runTypeScriptCheck_success H _ _ _ _ H2).
Qed.

(** X16. The totals [runStep] prints at the end of a run.  The total of
    errors is the sum of the error counts of the results the lint check and
    the type check returned, and the total of warnings the sum of their
    warning counts; a checker that is disabled or that threw, and the
    coverage check, add nothing.  When no checker failed the total of errors
    is zero. *)
Theorem X16_totals_of_a_run (params : Params.IParams) (w w' : W) (t : Index.Tally) :
  Index.runCheckers H params w = (Ok t, w') ->
  let o := fst (Outcome.ofRun H params w) in
  Index.totalErrors t
  = countedOf ESLint.errorCount (Outcome.eslint o)
    + countedOf TypeScript.errorCount (Outcome.typeScript o) /\
  Index.totalWarnings t
  = countedOf ESLint.warningCount (Outcome.eslint o)
    + countedOf TypeScript.warningCount (Outcome.typeScript o) /\
  (Index.hasErrors t = false -> Index.totalErrors t = 0).
Proof.
  intros Hrun o.
  rewrite runCheckers_outcomes in Hrun.
  pose proof (ofRun_eslint_result params w) as Hlint.
  pose proof (ofRun_typeScript_result params w) as Htype.
  fold o in Hlint, Htype.
  destruct (Outcome.ofRun H params w) as [o' w''] eqn:Ho.
  cbn [fst] in o. subst o. inversion Hrun. subst t w''. clear Hrun.
  unfold Outcome.tallyOf.
  destruct (recordCoverage_totals (Outcome.coverage o')
              (Outcome.recordTypeScript (Outcome.typeScript o')
                 (Outcome.recordESLint (Outcome.eslint o') Index.initialTally)))
    as [-> ->].
  destruct (recordTypeScript_totals (Outcome.typeScript o')
              (Outcome.recordESLint (Outcome.eslint o') Index.initialTally))
    as [-> ->].
  destruct (recordESLint_totals (Outcome.eslint o') Index.initialTally) as [-> ->].
  cbn [Index.totalErrors Index.totalWarnings Index.initialTally].
  assert (He : countedOf (fun r => if ESLint.success r then 0 else ESLint.errorCount r)
                 (Outcome.eslint o')
               = countedOf ESLint.errorCount (Outcome.eslint o')).
  { destruct (Outcome.eslint o') as [[r|e]|]; cbn; try reflexivity.
    rewrite (Hlint r eq_refl).
    destruct (ESLint.errorCount r); reflexivity. }
  assert (Ht : countedOf (fun r => if TypeScript.success r then 0
                                   else TypeScript.errorCount r)
                 (Outcome.typeScript o')
               = countedOf TypeScript.errorCount (Outcome.typeScript o')).
  { destruct (Outcome.typeScript o') as [[r|e]|]; cbn; try reflexivity.
    rewrite (Htype r eq_refl).
    destruct (TypeScript.errorCount r); reflexivity. }
  rewrite He, Ht.
  split; [lia|]. split; [lia|].
  intros Hclean.
  pose proof (tally_hasErrors o') as Hflag.
  unfold Outcome.tallyOf in Hflag. rewrite Hflag in Hclean.
  apply negb_false_iff in Hclean. unfold Outcome.allPassed in Hclean.
  apply andb_true_iff in Hclean as [Hclean _].
  apply andb_true_iff in Hclean as [Hpl Hpt].
  assert (countedOf ESLint.errorCount (Outcome.eslint o') = 0).
  { destruct (Outcome.eslint o') as [[r|e]|]; cbn in *; try reflexivity.
    rewrite (Hlint r eq_refl) in Hpl. apply Nat.eqb_eq in Hpl. exact Hpl. }
  assert (countedOf TypeScript.errorCount (Outcome.typeScript o') = 0).
  { destruct (Outcome.typeScript o') as [[r|e]|]; cbn in *; try reflexivity.
    rewrite (Htype r eq_refl) in Hpt. apply Nat.eqb_eq in Hpt. exact Hpt. }
  lia.
Qed.

End Totals.

(* ================================================================== *)
(** ** Output in which the type check recognises nothing *)
(* ================================================================== *)

Section Unrecognised.

Context {W J : Type} (H : Host W J).

Lemma append_assoc (a b c : string) : (a ++ b) ++ c = a ++ (b ++ c).
Proof. induction a as [|x a IH]; cbn; [reflexivity|]. rewrite IH. reflexivity. Qed.

Lemma append_empty (a : string) : a ++ "" = a.
Proof. induction a as [|x a IH]; cbn; [reflexivity|]. rewrite IH. reflexivity. Qed.

Lemma concat_piece (sep piece : string) (l : list string) :
  In piece l -> exists a b, String.concat sep l = a ++ piece ++ b.
Proof.
  induction l as [|x l IH]; [intros []|].
  intros [<-|Hin].
  - destruct l as [|y l].
    + exists "", "". cbn. rewrite append_empty. reflexivity.
    + exists "", (sep ++ String.concat sep (y :: l)). reflexivity.
  - destruct l as [|y l]; [destruct Hin|].
    change (String.concat sep (x :: y :: l))
      with (x ++ sep ++ String.concat sep (y :: l)).
    destruct (IH Hin) as (a & b & ->).
    exists (x ++ sep ++ a), b. rewrite !append_assoc. reflexivity.
Qed.

Lemma filter_none {A : Type} (f : A -> bool) (l : list A) :
  (forall x, In x l -> f x = false) -> filter f l = [].
Proof.
  induction l as [|a l IH]; intros Hnone; cbn; [reflexivity|].
  rewrite (Hnone a (or_introl eq_refl)). apply IH.
  intros x Hx. apply Hnone. right. exact Hx.
Qed.

(** A piece of a split is a part of the string. *)
Lemma split_piece (sep : ascii) (s piece : string) :
  In piece (Js.split sep s) -> exists a b, s = a ++ piece ++ b.
Proof.
  intros Hin.
  destruct (concat_piece (String sep "") piece _ Hin) as (a & b & Heq).
  exists a, b. rewrite <- Heq. symmetry. apply join_split.
Qed.

(** What a part contains, the whole contains. *)
Lemma includes_part (s a b part p : string) :
  s = a ++ part ++ b -> Js.includes part p = true -> Js.includes s p = true.
Proof.
  intros -> Hinc. apply includes_spec in Hinc as (x & y & ->).
  apply includes_spec. exists (a ++ x), (y ++ b).
  rewrite !append_assoc. reflexivity.
Qed.

Lemma includes_prefix (p s : string) :
  String.prefix p s = true -> Js.includes s p = true.
Proof.
  intros Hpre. apply includes_spec. apply prefix_spec in Hpre as [b ->].
  exists "", b. reflexivity.
Qed.

Lemma drop_part (n : nat) (s : string) : exists a, s = a ++ Js.drop n s.
Proof.
  revert s. induction n as [|n IH]; intros s; [exists ""; reflexivity|].
  destruct s as [|c s]; cbn; [exists ""; reflexivity|].
  destruct (IH s) as [a Ha]. exists (String c a). cbn. rewrite <- Ha. reflexivity.
Qed.

Lemma dropDigits_part (s : string) : exists a, s = a ++ Js.dropDigits s.
Proof.
  induction s as [|c s IH]; cbn; [exists ""; reflexivity|].
  destruct (Js.isDigit c); [|exists ""; reflexivity].
  destruct IH as [a Ha]. exists (String c a). cbn. rewrite <- Ha. reflexivity.
Qed.

(** A line with a summary [Found N error] contains the word [error]. *)
Lemma foundErrors_says_error (line : string) (n : nat) :
  TypeScript.foundErrors line = Some n -> Js.includes line "error" = true.
Proof.
  unfold TypeScript.foundErrors.
  induction line as [|c line IH]; cbn [Js.firstSuffix].
  - destruct (TypeScript.foundErrorsHere "") eqn:Hhere; [discriminate Hhere|discriminate].
  - destruct (TypeScript.foundErrorsHere (String c line)) as [m|] eqn:Hhere.
    + intros _. clear IH. unfold TypeScript.foundErrorsHere, Js.lit in Hhere.
      destruct (String.prefix "Found " (String c line)); [|discriminate].
      destruct (drop_part (String.length "Found ") (String c line)) as [a Ha].
      set (s1 := Js.drop (String.length "Found ") (String c line)) in *.
      unfold Js.digits1 in Hhere.
      destruct s1 as [|d s1']; [discriminate|].
      destruct (Js.isDigit d); [|discriminate].
      destruct (dropDigits_part s1') as [a' Ha'].
      destruct (String.prefix " error" (Js.dropDigits s1')) eqn:Hpre; [|discriminate].
      apply prefix_spec in Hpre as [b Hb].
      apply includes_spec.
      exists (a ++ String d a' ++ " "), b.
      rewrite Ha, Ha', Hb at 1. cbn. rewrite !append_assoc. cbn.
      rewrite !append_assoc. reflexivity.
    + intros Hrest. specialize (IH Hrest).
      cbn [Js.includes]. rewrite IH. apply orb_true_r.
Qed.

(** X17. A failure of [tsc] whose output does not contain the word
    [error] at all (the compiler is not installed, the shell cannot start
    it) is reported by the type check as a success with no error.  Full
    mode, with tsconfig.json present. *)
Theorem X17_unrecognised_tsc_failure_passes
    (config : TypeScript.TypeScriptConfig) (w w1 : W) (error : JsError)
    (cleanedOutput : string) :
  existsSync H (path_join H (TypeScript.projectDir config) "tsconfig.json") w = true ->
  TypeScript.fullCheck config = true ->
  execa H fullTypeCheckCommand []
    (mkExecaOptions (TypeScript.projectDir config) true false) w = (Throw error, w1) ->
  regExpReplaceAll H (TypeScript.projectDir config)
    (Js.orElse (Exn.stdout error) (Js.orElse (Exn.message error) "")) "."
    = Ok cleanedOutput ->
  Js.includes cleanedOutput "error" = false ->
  exists warningCount,
    TypeScript.runTypeScriptCheck H config w
    = (Ok (TypeScript.mkTypeScriptResult true 0 warningCount cleanedOutput (-1)%Z), w1).
Proof.
  intros Hts Hfull Hexec Hclean Hquiet.
  assert (Hlines : forall line, In line (Js.split Js.LF cleanedOutput) ->
            Js.includes line "error" = false).
  { intros line Hin. destruct (split_piece _ _ _ Hin) as (a & b & Hs).
    destruct (Js.includes line "error") eqn:Hinc; [|reflexivity].
    rewrite (includes_part cleanedOutput a b line "error" Hs Hinc) in Hquiet.
    discriminate Hquiet. }
  assert (Hnoerr : forall line, In line (Js.split Js.LF cleanedOutput) ->
            Js.includes line ": error TS" = false).
  { intros line Hin. destruct (Js.includes line ": error TS") eqn:Hinc; [|reflexivity].
    apply includes_spec in Hinc as (a & b & Hline).
    assert (Hword : Js.includes line "error" = true).
    { apply includes_spec. exists (a ++ ": "), (" TS" ++ b).
      rewrite Hline, !append_assoc. reflexivity. }
    rewrite (Hlines _ Hin) in Hword. discriminate Hword. }
  assert (Hnosum : forall line, In line (Js.split Js.LF cleanedOutput) ->
            TypeScript.foundErrors line = None).
  { intros line Hin.
    destruct (TypeScript.foundErrors line) as [n|] eqn:Hfound; [|reflexivity].
    pose proof (foundErrors_says_error _ _ Hfound) as Hword.
    rewrite (Hlines line Hin) in Hword. discriminate Hword. }
  pose proof (parseTypeScriptOutput_from (Js.split Js.LF cleanedOutput) 0 0) as Hcounts.
  cbv zeta in Hcounts. fold (TypeScript.parseTypeScriptOutput cleanedOutput) in Hcounts.
  destruct Hcounts as (_ & _ & _ & Hexact).
  assert (Hzero : fst (TypeScript.parseTypeScriptOutput cleanedOutput) = 0).
  { rewrite Hexact by (intros line Hin _ _; apply Hnosum; exact Hin).
    rewrite (filter_none _ _ Hnoerr). reflexivity. }
  unfold fullTypeCheckCommand in Hexec.
  unfold TypeScript.runTypeScriptCheck, tryCatch, bind, observe, ret, lift.
  rewrite Hts, Hfull. cbn [negb]. rewrite Hexec, Hclean.
  destruct (TypeScript.parseTypeScriptOutput cleanedOutput) as [e k].
  cbn [fst] in Hzero. subst e. exists k. reflexivity.
Qed.

End Unrecognised.

(* ================================================================== *)
(** ** The version arithmetic of the publish script *)
(* ================================================================== *)

Section Versions.

Lemma digit_is_no_space (c : ascii) : Js.isDigit c = true -> Js.isSpace c = false.
Proof.
  unfold Js.isDigit, Js.isSpace. intros Hd.
  apply andb_true_iff in Hd as [Hlo Hhi].
  apply Nat.leb_le in Hlo, Hhi.
  apply orb_false_iff. split.
  - apply andb_false_iff. right. apply Nat.leb_gt. lia.
  - apply Nat.eqb_neq. lia.
Qed.

Lemma digit_is_ascii (c : ascii) : Js.isDigit c = true -> nat_of_ascii c < 128.
Proof.
  unfold Js.isDigit. intros Hd.
  apply andb_true_iff in Hd as [_ Hhi]. apply Nat.leb_le in Hhi. lia.
Qed.

Lemma digit_value (c : ascii) :
  Js.isDigit c = true ->
  Publish.decimalDigit c = Some (Z.of_nat (Js.digitValue c)).
Proof.
  intros Hd. unfold Publish.decimalDigit, Js.digitValue. rewrite Hd.
  unfold Js.isDigit in Hd. apply andb_true_iff in Hd as [Hlo _].
  apply Nat.leb_le in Hlo. f_equal. lia.
Qed.

Lemma digit_is_not (c d : ascii) :
  Js.isDigit c = true -> Js.isDigit d = false -> c <> d.
Proof. intros Hc Hd ->. congruence. Qed.

(** The digits of a numeral, read from [acc], and what follows them. *)
Lemma readDigits_numeral (s rest : string) (acc : nat) :
  Js.dropDigits s = "" ->
  match rest with
  | EmptyString => True
  | String c _ => Js.isDigit c = false
  end ->
  Publish.readDigits 10 Publish.decimalDigit (Some (Z.of_nat acc)) (s ++ rest)
  = Some (Z.of_nat (Js.decimalFrom acc s)).
Proof.
  revert acc. induction s as [|c s IH]; intros acc Hall Hrest; cbn [append].
  - destruct rest as [|c rest]; [reflexivity|].
    cbn [Publish.readDigits Js.decimalFrom]. unfold Publish.decimalDigit.
    rewrite Hrest. reflexivity.
  - cbn [Js.dropDigits] in Hall.
    destruct (Js.isDigit c) eqn:Hc; [|discriminate Hall].
    cbn [Publish.readDigits Js.decimalFrom]. rewrite (digit_value c Hc).
    replace (10 * Z.of_nat acc + Z.of_nat (Js.digitValue c))%Z
      with (Z.of_nat (10 * acc + Js.digitValue c)) by lia.
    apply IH; assumption.
Qed.

(** [parseInt] of a numeral followed by nothing, or by something that
    starts with neither a digit nor the letter of the base 16 prefix. *)
Lemma parseInt_numeral (s rest : string) :
  isNumeral s ->
  match rest with
  | EmptyString => True
  | String c _ => Js.isDigit c = false /\ c <> "x"%char /\ c <> "X"%char
  end ->
  Publish.parseInt (s ++ rest) = Int (Z.of_nat (Js.parseDecimal s)).
Proof.
  intros [Hne Hall] Hrest.
  destruct s as [|d s]; [congruence|].
  cbn [Js.dropDigits] in Hall.
  destruct (Js.isDigit d) eqn:Hd; [|discriminate Hall].
  unfold Publish.parseInt. cbn [append].
  rewrite (trimStart_ascii d (s ++ rest) (digit_is_ascii d Hd) (digit_is_no_space d Hd)).
  destruct (Ascii.eqb_spec d "-") as [->|_]; [discriminate Hd|].
  destruct (Ascii.eqb_spec d "+") as [->|_]; [discriminate Hd|].
  cbn [fst snd].
  assert (Hplain : String.prefix "0x" (String d (s ++ rest))
                   || String.prefix "0X" (String d (s ++ rest)) = false).
  { cbn [String.prefix].
    destruct (s ++ rest) as [|c tail] eqn:Htail.
    - destruct (ascii_dec "0" d); reflexivity.
    - assert (Hc : c <> "x"%char /\ c <> "X"%char).
      { destruct s as [|c' s']; cbn in Htail.
        - subst rest. tauto.
        - inversion Htail. subst c'. cbn [Js.dropDigits] in Hall.
          destruct (Js.isDigit c) eqn:Hc; [|discriminate Hall].
          split; intros ->; discriminate Hc. }
      destruct Hc as [Hx HX].
      destruct (ascii_dec "0" d); [|reflexivity].
      cbn [String.prefix].
      destruct (ascii_dec "x" c); [congruence|].
      destruct (ascii_dec "X" c); [congruence|]. reflexivity. }
  rewrite Hplain.
  cbn [Publish.readDigits]. rewrite (digit_value d Hd).
  replace (10 * 0 + Z.of_nat (Js.digitValue d))%Z
    with (Z.of_nat (10 * 0 + Js.digitValue d)) by lia.
  rewrite readDigits_numeral.
  - reflexivity.
  - exact Hall.
  - destruct rest; [exact I|tauto].
Qed.

(** A numeral has no character that is not a digit. *)
Lemma numeral_without (s : string) (c : ascii) :
  Js.dropDigits s = "" -> Js.isDigit c = false -> without c s.
Proof.
  induction s as [|d s IH]; intros Hall Hc a b Heq.
  - destruct a; discriminate Heq.
  - cbn [Js.dropDigits] in Hall.
    destruct (Js.isDigit d) eqn:Hd; [|discriminate Hall].
    destruct a as [|x a]; cbn in Heq; inversion Heq; subst.
    + congruence.
    + exact (IH Hall Hc a b eq_refl).
Qed.

(** The first piece of a string that starts with a piece free of the
    separator. *)
Lemma split_app_without (sep : ascii) (s t : string) :
  without sep s ->
  Js.split sep (s ++ t)
  = (s ++ hd "" (Js.split sep t)) :: tl (Js.split sep t).
Proof.
  induction s as [|c s IH]; intros Hfree; cbn [append].
  - pose proof (split_not_nil sep t) as Hnn.
    destruct (Js.split sep t); [congruence|reflexivity].
  - apply without_tail in Hfree as [Hne Hfree]. cbn [Js.split].
    destruct (Ascii.eqb_spec c sep) as [Heq|_]; [congruence|].
    rewrite (IH Hfree). reflexivity.
Qed.

(** X18. [incrementVersion] on a version [major.minor.patch], where the
    patch is a numeral: the patch is replaced by its value plus one, written
    in decimal, so leading zeros go.  Anything after the patch that starts
    with a dot, a hyphen or a plus sign (a fourth component, a pre-release or
    build tag) is dropped. *)
Theorem X18_incrementVersion (major minor patch suffix : string) :
  without "." major ->
  without "." minor ->
  isNumeral patch ->
  (Z.of_nat (Js.parseDecimal patch) + 1 < 2 ^ 53)%Z ->
  suffix = "" \/
  (exists c t, suffix = String c t /\ In c ["."; "-"; "+"]%char) ->
  Publish.incrementVersion (major ++ "." ++ minor ++ "." ++ patch ++ suffix)
  = major ++ "." ++ minor ++ "." ++ Js.ofZ (Z.of_nat (Js.parseDecimal patch) + 1).
Proof.
  intros Hmajor Hminor Hpatch _ Hsuffix.
  unfold Publish.incrementVersion.
  change (major ++ "." ++ minor ++ "." ++ patch ++ suffix)
    with (major ++ String "." (minor ++ String "." (patch ++ suffix))).
  rewrite (split_app "." major _ Hmajor), (split_app "." minor _ Hminor).
  rewrite (split_app_without "." patch suffix
             (numeral_without patch "." (proj2 Hpatch) eq_refl)).
  unfold Publish.part. cbn [nth].
  rewrite parseInt_numeral; [reflexivity|exact Hpatch|].
  destruct Hsuffix as [->|(c & t & -> & Hc)]; [exact I|].
  cbn [Js.split].
  destruct Hc as [<-|[<-|[<-|[]]]]; cbn; [exact I| |].
  - destruct (Js.split "." t); cbn; repeat split; discriminate.
  - destruct (Js.split "." t); cbn; repeat split; discriminate.
Qed.

(** X19. [incrementVersion] on a version that has fewer than three
    components does not fail: the missing components read [undefined] and
    the patch becomes [NaN]. *)
Theorem X19_incrementVersion_short (major minor : string) :
  without "." major ->
  (Publish.incrementVersion major = major ++ ".undefined.NaN") /\
  (without "." minor ->
   Publish.incrementVersion (major ++ "." ++ minor) = major ++ "." ++ minor ++ ".NaN").
Proof.
  intros Hmajor. unfold Publish.incrementVersion. split.
  - rewrite (split_without "." major Hmajor). reflexivity.
  - intros Hminor.
    change (major ++ "." ++ minor) with (major ++ String "." minor).
    rewrite (split_app "." major _ Hmajor), (split_without "." minor Hminor).
    reflexivity.
Qed.

End Versions.

Lemma X18_witness :
  Publish.incrementVersion "1.0.09-beta.2" = "1.0.10".
Proof.
  apply (X18_incrementVersion "1" "0" "09" "-beta.2").
  - intros a b Heq. destruct a as [|? [|? ?]]; discriminate Heq.
  - intros a b Heq. destruct a as [|? [|? ?]]; discriminate Heq.
  - split; [discriminate|reflexivity].
  - reflexivity.
  - right. exists "-"%char, "beta.2". split; [reflexivity|]. right. left. reflexivity.
Defined.

Lemma X19_witness :
  Publish.incrementVersion "1" = "1.undefined.NaN" /\
  Publish.incrementVersion "1.0" = "1.0.NaN".
Proof.
  assert (Hfree : forall c : ascii, c <> "."%char -> without "." (String c "")).
  { intros c Hc a b Heq. destruct a as [|? [|? ?]]; inversion Heq; congruence. }
  destruct (X19_incrementVersion_short "1" "0" (Hfree "1"%char ltac:(discriminate)))
    as [Hone Htwo].
  split; [exact Hone|].
  exact (Htwo (Hfree "0"%char ltac:(discriminate))).
Defined.

(* ================================================================== *)
(** ** When a checker throws, and what the type check is handed *)
(* ================================================================== *)

Section Throws.

Context {W J : Type} (H : Host W J).

(** The traversal of branch-deploy mode never throws: its outer [catch]
    returns the empty list. *)
Lemma getEnvBranchChangedFiles_total (config : ESLint.ESLintConfig) (w : W) :
  exists files w', ESLint.getEnvBranchChangedFiles H config w = (Ok files, w').
Proof.
  unfold ESLint.getEnvBranchChangedFiles. unfold tryCatch at 1.
  match goal with |- context [match ?m w with _ => _ end] => destruct (m w) as [[files|e] w'] end.
  - eauto.
  - unfold ret. eauto.
Qed.

Lemma runESLintCheck_total
    (files : list string) (projectDir : string) (isFullCheck : bool) (w : W) :
  exists r w', ESLint.runESLintCheck H files projectDir isFullCheck w = (Ok r, w').
Proof.
  unfold ESLint.runESLintCheck, tryCatch, bind, ret.
  along_the_run; eauto.
Qed.

(** In full mode the result of the lint check lists the patterns. *)
Lemma performESLintCheck_full
    (config : ESLint.ESLintConfig) (w w' : W) (r : ESLint.ESLintResult) :
  ESLint.enableCheck config = true ->
  ESLint.fullCheckMode config = true ->
  ESLint.performESLintCheck H config w = (Ok r, w') ->
  ESLint.checkedFiles r = ESLint.getFullCheckFiles (ESLint.checkDirectories config).
Proof.
  unfold ESLint.performESLintCheck. intros -> Hfull. cbn [negb].
  unfold bind at 1.
  destruct (tryCatch _ _ w) as [[[]|e] w1]; [|discriminate].
  unfold bind at 1. unfold observe at 1. rewrite Hfull.
  apply runESLintCheck_checkedFiles.
Qed.

(** X20. The lint check throws one error only, the one that says the
    directory is no git repository, and only when [git rev-parse --git-dir]
    failed: a failure of the resolvers or of ESLint itself comes back as a
    result. *)
Theorem X20_lint_check_throws
    (config : ESLint.ESLintConfig) (w w' : W) (e : JsError) :
  ESLint.performESLintCheck H config w = (Throw e, w') ->
  e = Error "当前目录不是git仓库，无法进行增量检查" /\
  ESLint.enableCheck config = true /\
  exists cause,
    execa H "git" ["rev-parse"; "--git-dir"]
      (mkExecaOptions (ESLint.projectDir config) false false) w = (Throw cause, w').
Proof.
  unfold ESLint.performESLintCheck.
  destruct (ESLint.enableCheck config); cbn [negb]; [|discriminate].
  unfold bind at 1. unfold tryCatch at 1. unfold bind at 1.
  destruct (execa H "git" _ _ w) as [[res|cause] w1] eqn:Hgit.
  - unfold ret at 1. unfold bind at 1. unfold observe at 1.
    destruct (ESLint.fullCheckMode config).
    + destruct (runESLintCheck_total
                  (ESLint.getFullCheckFiles (ESLint.checkDirectories config))
                  (ESLint.projectDir config) true w1) as (r & w2 & ->).
      discriminate.
    + unfold bind at 1.
      assert (Hresolved : exists changed w2,
                 (if ESLint.envBranchDeployMode config
                  then ESLint.getEnvBranchChangedFiles H config
                  else ESLint.getChangedFiles H config) w1 = (Ok changed, w2)).
      { destruct (ESLint.envBranchDeployMode config).
        - apply getEnvBranchChangedFiles_total.
        - apply eslint_getChangedFiles_total. }
      destruct Hresolved as (changed & w2 & ->).
      unfold bind at 1. unfold observe at 1.
      destruct (ESLint.filterFrontendFiles H changed _ _ w2) as [|f fs]; [discriminate|].
      destruct (runESLintCheck_total (f :: fs) (ESLint.projectDir config) false w2)
        as (r & w3 & ->).
      discriminate.
  - unfold throw. intros Hrun. inversion Hrun. subst.
    split; [reflexivity|]. split; [reflexivity|]. exists cause. reflexivity.
Qed.

(** X21. The type check throws only out of its [catch] block, where the
    project directory is compiled as a regular expression: a tsconfig.json
    was found, something in the [try] block failed, and the replacement of
    the directory in the output of that failure threw.  With a directory that
    compiles, the type check returns a result. *)
Theorem X21_type_check_throws (config : TypeScript.TypeScriptConfig) (w : W) :
  (forall e w',
     TypeScript.runTypeScriptCheck H config w = (Throw e, w') ->
     existsSync H (path_join H (TypeScript.projectDir config) "tsconfig.json") w = true /\
     exists error,
       regExpReplaceAll H (TypeScript.projectDir config)
         (Js.orElse (Exn.stdout error) (Js.orElse (Exn.message error) "")) "."
       = Throw e) /\
  ((forall subject, exists cleaned,
      regExpReplaceAll H (TypeScript.projectDir config) subject "." = Ok cleaned) ->
   exists r w', TypeScript.runTypeScriptCheck H config w = (Ok r, w')).
Proof.
  assert (Hthrows : forall e w',
     TypeScript.runTypeScriptCheck H config w = (Throw e, w') ->
     existsSync H (path_join H (TypeScript.projectDir config) "tsconfig.json") w = true /\
     exists error,
       regExpReplaceAll H (TypeScript.projectDir config)
         (Js.orElse (Exn.stdout error) (Js.orElse (Exn.message error) "")) "."
       = Throw e).
  { intros e w'.
    unfold TypeScript.runTypeScriptCheck, tryCatch, bind, ret, lift, observe.
    destruct (existsSync H _ w) eqn:Hts; cbn [negb]; [|discriminate].
    along_the_run; read_result; split; try reflexivity;
      match goal with
      | Hre : regExpReplaceAll H _ (Js.orElse (Exn.stdout ?error) _) _ = Throw ?e
        |- exists _, _ = Throw ?e => exists error; exact Hre
      end. }
  split; [exact Hthrows|].
  intros Hcompiles.
  destruct (TypeScript.runTypeScriptCheck H config w) as [[r|e] w'] eqn:Hrun; [eauto|].
  destruct (Hthrows e w' eq_refl) as (_ & error & Hre).
  destruct (Hcompiles (Js.orElse (Exn.stdout error) (Js.orElse (Exn.message error) "")))
    as (cleaned & Hok).
  congruence.
Qed.

(** Nothing that is not on the disk passes the scope filter. *)
Lemma filterTypeScriptFiles_absent
    (files : list string) (projectDir : string) (checkDirectories : list string) (w : W) :
  (forall file, In file files -> existsSync H (path_join H projectDir file) w = false) ->
  TypeScript.filterTypeScriptFiles H files projectDir checkDirectories w = [].
Proof.
  intros Habsent. unfold TypeScript.filterTypeScriptFiles.
  match goal with
  | |- filter ?p ?l = [] =>
      assert (Hnone : forall file, In file l -> p file = false)
  end.
  { intros file Hin.
    apply filter_In in Hin as [Hin _].
    apply filter_In in Hin as [Hin _].
    apply filter_In in Hin as [Hin _].
    exact (Habsent file Hin). }
  revert Hnone.
  match goal with |- _ -> filter ?p ?l = [] => generalize l end.
  intros l Hnone. induction l as [|x l IH]; [reflexivity|].
  cbn [filter]. rewrite (Hnone x (or_introl eq_refl)).
  apply IH. intros file Hin. apply Hnone. right. exact Hin.
Qed.

(** X22. A lint check of the whole project followed by an incremental type
    check.  The lint check leaves its patterns ([src/**/*.ts] and the like)
    as the checked files, and [runStep] hands them to the type check as if
    they were the changed files.  When no path of that form is on the disk the
    scope filter of the type check drops every one of them: the type check
    starts no process and reports that there was nothing to check, whatever
    has changed. *)
Theorem X22_patterns_handed_to_type_check
    (params : Params.IParams) (w w1 : W) (r : ESLint.ESLintResult) :
  Index.isTrue (Params.enableESLintCheck params) = true ->
  Index.isTrue (Params.fullCheckMode params) = true ->
  Index.isTrue (Params.fullTypeScriptCheckMode params) = false ->
  Index.checkDirectoriesOf params <> [] ->
  ESLint.performESLintCheck H (Index.eslintConfigOf params) w = (Ok r, w1) ->
  (forall pattern,
     In pattern (ESLint.getFullCheckFiles (Index.checkDirectoriesOf params)) ->
     existsSync H (path_join H (Index.projectDirOf params) pattern) w1 = false) ->
  ESLint.checkedFiles r = ESLint.getFullCheckFiles (Index.checkDirectoriesOf params) /\
  exists output,
    Index.typeScriptCall H params (ESLint.checkedFiles r) w1
    = (Ok (TypeScript.mkTypeScriptResult true 0 0 output 0%Z), w1).
Proof.
  intros Hlint Hfull Hincremental Hdirs Hrun Habsent.
  assert (Hfiles : ESLint.checkedFiles r
                   = ESLint.getFullCheckFiles (Index.checkDirectoriesOf params)).
  { exact (performESLintCheck_full (Index.eslintConfigOf params) w w1 r Hlint Hfull Hrun). }
  split; [exact Hfiles|]. rewrite Hfiles.
  unfold Index.typeScriptCall, TypeScript.performTypeScriptCheck,
    TypeScript.runTypeScriptCheck.
  cbn [TypeScript.projectDir TypeScript.files TypeScript.fullCheck
       TypeScript.checkDirectories].
  rewrite Hincremental.
  unfold tryCatch, bind, observe, ret.
  destruct (existsSync H _ w1); cbn [negb]; [|eauto].
  destruct (ESLint.getFullCheckFiles (Index.checkDirectoriesOf params)) as [|p ps] eqn:Hpatterns.
  { exfalso. apply Hdirs.
    destruct (Index.checkDirectoriesOf params) as [|d ds]; [reflexivity|].
    discriminate Hpatterns. }
  rewrite (filterTypeScriptFiles_absent (p :: ps) _ _ w1 Habsent).
  eauto.
Qed.

End Throws.

(* ================================================================== *)
(** ** Runs of the properties above *)
(* ================================================================== *)

Lemma X4_witness :
  TypeScript.filterTypeScriptFiles (Scripted.host Scenarios.merged)
    ["src/a.ts"; "src/a.test.ts"; "lib/b.ts"] "/w/p" ["src"] []
  = ["src/a.ts"] /\
  (forall a b, "src/a.ts" <> a ++ ".test.ts" ++ b).
Proof.
  split; [reflexivity|].
  exact (proj1 (X4_type_scope_excludes (Scripted.host Scenarios.merged)
                  ["src/a.ts"; "src/a.test.ts"; "lib/b.ts"] "/w/p" ["src"] []
                  "src/a.ts" (or_introl eq_refl))).
Defined.

Lemma X7_witness :
  Index.main (Scripted.host Scenarios.merged)
    (withSourceBranch (Some "another") (Some "main") Scenarios.deployParams) []
  = Index.main (Scripted.host Scenarios.merged) Scenarios.deployParams [].
Proof.
  exact (X7_branch_deploy_ignores_source_branch
           (fun _ => Scripted.host Scenarios.merged)
           Scenarios.deployParams (Some "another") (Some "main") [] eq_refl eq_refl).
Defined.

Lemma X11_witness :
  let host := Scripted.host Scenarios.belowThreshold in
  let config :=
    Index.coverageConfigOf host (Scenarios.paramsOf false false true false None) in
  let w' := ["write /w/p/package.json"; "npm run ts-coverage"] in
  let r :=
    TypeScriptCoverage.mkTypeScriptCoverageResult false (Int 90)
      "TypeScript覆盖率检查失败，检测结果小于90%。详情请查看输出日志" in
  TypeScriptCoverage.performTypeScriptCoverageCheck host config [] = (Ok r, w') /\
  exists cause w0,
    Exn.exitCode cause = Some 1%Z /\
    execa host "npm" ["run"; "ts-coverage"] (mkExecaOptions "/w/p" false true) w0
    = (Throw cause, w').
Proof.
  intros host config w' r.
  assert (Hrun : TypeScriptCoverage.performTypeScriptCoverageCheck host config []
                 = (Ok r, w')) by reflexivity.
  split; [exact Hrun|].
  destruct (proj2 (proj2 (X11_coverage_failures host config [] w'))
              ltac:(discriminate) ltac:(discriminate) ltac:(discriminate)
              r Hrun eq_refl)
    as (cause & Hcode & _ & w0 & Hmeasured).
  exists cause, w0. split; [exact Hcode|exact Hmeasured].
Defined.

Lemma X8_witness :
  Index.main (Scripted.host (Scenarios.toolsFail "build failed"))
    (Scenarios.paramsOf true true false false (Some "npm run build")) []
  = (Index.mkProcessEnd 1 [], ["npm run build"]).
Proof.
  destruct (X8_build_phase (Scripted.host (Scenarios.toolsFail "build failed"))
              (Scenarios.paramsOf true true false false (Some "npm run build"))
              [] [] eq_refl) as [_ Hfails].
  apply (Hfails "npm run build"
           (Exn.mkJsError "Command failed with exit code 1"
              "build failed" "build failed" (Some 1%Z))
           ["npm run build"]).
  - reflexivity.
  - discriminate.
  - reflexivity.
Defined.

Lemma X10_witness :
  let host := Scripted.host Scenarios.covered in
  let config := Index.coverageConfigOf host (Scenarios.paramsOf false false true false None) in
  exists w0 res,
    execa host "npm" ["run"; "ts-coverage"] (mkExecaOptions "/w/p" false true) w0
    = (Ok res, snd (TypeScriptCoverage.performTypeScriptCoverageCheck host config [])).
Proof.
  destruct (X10_coverage_success_is_measured (Scripted.host Scenarios.covered)
              (Index.coverageConfigOf (Scripted.host Scenarios.covered)
                 (Scenarios.paramsOf false false true false None))
              [] _ _ eq_refl eq_refl eq_refl) as (_ & w0 & res & Hrun).
  exists w0, res. exact Hrun.
Defined.

Lemma X12_witness :
  exists r w',
    ESLint.performESLintCheck (Scripted.host (Scenarios.toolsFail Scenarios.oneWarning))
      Scenarios.directConfig [] = (Ok r, w') /\
    forall file, In file (ESLint.checkedFiles r) ->
      isInCheckDirectory ["src"] file = true.
Proof.
  destruct (X12_lint_checked_files
              (Scripted.host (Scenarios.toolsFail Scenarios.oneWarning))
              Scenarios.directConfig [] _ _ eq_refl) as (_ & _ & Hincremental).
  destruct (Hincremental eq_refl eq_refl) as (changed & w1 & w2 & _ & _ & Hfiles).
  eexists. eexists. split; [reflexivity|].
  intros file Hin. exact (proj1 (proj2 (Hfiles file Hin))).
Defined.

Lemma X13_witness :
  exists r w',
    TypeScript.runTypeScriptCheck (Scripted.host Scenarios.notGit)
      Scenarios.fullTypeScriptConfig [] = (Ok r, w') /\
    TypeScript.checkedFiles r = (-1)%Z.
Proof.
  eexists. eexists. split; [reflexivity|].
  exact (proj2 (proj1 (X13_type_check_file_count (Scripted.host Scenarios.notGit)
                         Scenarios.fullTypeScriptConfig [] _ _ eq_refl))
           (conj eq_refl eq_refl)).
Defined.

Lemma X16_witness :
  let host := Scripted.host (Scenarios.toolsFail Scenarios.oneWarning) in
  let params := Scenarios.paramsOf true true false false None in
  exists t w',
    Index.runCheckers host params [] = (Ok t, w') /\
    Index.totalWarnings t = 1 /\
    Index.totalWarnings t
    = countedOf ESLint.warningCount (Outcome.eslint (fst (Outcome.ofRun host params [])))
      + countedOf TypeScript.warningCount
          (Outcome.typeScript (fst (Outcome.ofRun host params []))).
Proof.
  eexists. eexists. split; [reflexivity|]. split; [reflexivity|].
  exact (proj1 (proj2 (X16_totals_of_a_run
                         (Scripted.host (Scenarios.toolsFail Scenarios.oneWarning))
                         (Scenarios.paramsOf true true false false None)
                         [] _ _ eq_refl))).
Defined.

Lemma X17_witness :
  exists warningCount,
    TypeScript.runTypeScriptCheck (Scripted.host (Scenarios.toolsFail Scenarios.toolMissing))
      Scenarios.fullTypeScriptConfig []
    = (Ok (TypeScript.mkTypeScriptResult true 0 warningCount Scenarios.toolMissing (-1)%Z),
       [fullTypeCheckCommand]).
Proof.
  exact (X17_unrecognised_tsc_failure_passes
           (Scripted.host (Scenarios.toolsFail Scenarios.toolMissing))
           Scenarios.fullTypeScriptConfig [] [fullTypeCheckCommand]
           (Exn.mkJsError "Command failed with exit code 1"
              Scenarios.toolMissing Scenarios.toolMissing (Some 1%Z))
           Scenarios.toolMissing
           eq_refl eq_refl eq_refl eq_refl eq_refl).
Defined.

Lemma X20_witness :
  exists cause,
    execa (Scripted.host Scenarios.notGit) "git" ["rev-parse"; "--git-dir"]
      (mkExecaOptions "/w/p" false false) []
    = (Throw cause, ["git rev-parse --git-dir"]).
Proof.
  exact (proj2 (proj2 (X20_lint_check_throws (Scripted.host Scenarios.notGit)
                         Scenarios.directConfig [] _ _ eq_refl))).
Defined.

Lemma X22_witness :
  let host := Scripted.host Scenarios.covered in
  exists r w1 output,
    ESLint.performESLintCheck host (Index.eslintConfigOf Scenarios.fullLintParams) []
    = (Ok r, w1) /\
    ESLint.checkedFiles r
    = ["src/**/*.js"; "src/**/*.ts"; "src/**/*.jsx"; "src/**/*.tsx"; "src/**/*.vue"] /\
    Index.typeScriptCall host Scenarios.fullLintParams (ESLint.checkedFiles r) w1
    = (Ok (TypeScript.mkTypeScriptResult true 0 0 output 0%Z), w1).
Proof.
  destruct (X22_patterns_handed_to_type_check (Scripted.host Scenarios.covered)
              Scenarios.fullLintParams [] _ _ eq_refl eq_refl eq_refl
              ltac:(discriminate) eq_refl) as (Hfiles & output & Hcall).
  - intros pattern Hin.
    repeat (destruct Hin as [<-|Hin]; [reflexivity|]). destruct Hin.
  - eexists. eexists. exists output. split; [reflexivity|].
    split; [exact Hfiles|exact Hcall].
Defined.
